(** * github_listener: a local daemon that clones a GitHub repository and
    opens it in an editor.

    Shallow embedding of [github_listener.py] and the properties of its
    instance guard (PID file), notifier, and POST handler. *)

From Stdlib Require Import ZArith List String Ascii Bool Lia.
From Stdlib.Strings Require Import Byte.
From stdpp Require Import gmap strings list.

Local Open Scope Z_scope.

(** * Python values *)

(** A Python [str] is a sequence of code points; a [bytes] object is a
    sequence of bytes. *)
Definition text := list Z.
Definition bytes := list byte.

Definition ord (a : ascii) : Z := Z.of_N (N_of_ascii a).
Definition lit (s : string) : text := map ord (list_ascii_of_string s).
Definition blit (s : string) : bytes := list_byte_of_string s.
Definition byte_val (b : byte) : Z := Z.of_N (Byte.to_N b).
Definition byte_of (z : Z) : byte :=
  match Byte.of_N (Z.to_N z) with Some b => b | None => x00 end.

Definition text_eqb (a b : text) : bool := bool_decide (a = b).

(** ** Unicode scalar values and UTF-8 *)

(** Code points that UTF-8 can carry: everything up to U+10FFFF except the
    surrogates U+D800..U+DFFF. *)
Definition is_scalar (c : Z) : bool :=
  ((0 <=? c) && (c <? 0xD800)) || ((0xE000 <=? c) && (c <=? 0x10FFFF)).

Definition is_cont (b : Z) : bool := (0x80 <=? b) && (b <=? 0xBF).

(** Admissible second byte of a multi-byte sequence, by lead byte. *)
Definition second_ok (b0 b1 : Z) : bool :=
  if b0 =? 0xE0 then (0xA0 <=? b1) && (b1 <=? 0xBF)
  else if b0 =? 0xED then (0x80 <=? b1) && (b1 <=? 0x9F)
  else if b0 =? 0xF0 then (0x90 <=? b1) && (b1 <=? 0xBF)
  else if b0 =? 0xF4 then (0x80 <=? b1) && (b1 <=? 0x8F)
  else is_cont b1.

Definition cp2 (b0 b1 : Z) : Z := (b0 - 0xC0) * 64 + (b1 - 0x80).
Definition cp3 (b0 b1 b2 : Z) : Z :=
  (b0 - 0xE0) * 4096 + (b1 - 0x80) * 64 + (b2 - 0x80).
Definition cp4 (b0 b1 b2 b3 : Z) : Z :=
  (b0 - 0xF0) * 262144 + (b1 - 0x80) * 4096 + (b2 - 0x80) * 64 + (b3 - 0x80).

(** [bytes.decode("utf-8", errors="ignore")] on the byte values: a
    well-formed sequence yields its code point; an ill-formed one is dropped
    up to (not including) the first byte that cannot continue it, and
    decoding resumes there; a sequence cut off by the end of the input is
    dropped. *)
Fixpoint decode_ignore (bs : list Z) : text :=
  match bs with
  | [] => []
  | b0 :: r =>
    if b0 <? 0x80 then b0 :: decode_ignore r
    else if b0 <? 0xC2 then decode_ignore r
    else if b0 <? 0xE0 then
      match r with
      | [] => []
      | b1 :: r1 =>
        if is_cont b1 then cp2 b0 b1 :: decode_ignore r1 else decode_ignore r
      end
    else if b0 <? 0xF0 then
      match r with
      | [] => []
      | b1 :: r1 =>
        if second_ok b0 b1 then
          match r1 with
          | [] => []
          | b2 :: r2 =>
            if is_cont b2 then cp3 b0 b1 b2 :: decode_ignore r2
            else decode_ignore r1
          end
        else decode_ignore r
      end
    else if b0 <? 0xF5 then
      match r with
      | [] => []
      | b1 :: r1 =>
        if second_ok b0 b1 then
          match r1 with
          | [] => []
          | b2 :: r2 =>
            if is_cont b2 then
              match r2 with
              | [] => []
              | b3 :: r3 =>
                if is_cont b3 then cp4 b0 b1 b2 b3 :: decode_ignore r3
                else decode_ignore r2
              end
            else decode_ignore r1
          end
        else decode_ignore r
      end
    else decode_ignore r
  end.

Definition utf8_decode_ignore (bs : bytes) : text :=
  decode_ignore (map byte_val bs).

(** [str.encode("utf-8")]: [None] stands for [UnicodeEncodeError], raised
    on a surrogate. *)
Definition encode_cp (c : Z) : list byte :=
  if c <? 0x80 then [byte_of c]
  else if c <? 0x800 then [byte_of (0xC0 + c / 64); byte_of (0x80 + c mod 64)]
  else if c <? 0x10000 then
    [byte_of (0xE0 + c / 4096); byte_of (0x80 + (c / 64) mod 64);
     byte_of (0x80 + c mod 64)]
  else
    [byte_of (0xF0 + c / 262144); byte_of (0x80 + (c / 4096) mod 64);
     byte_of (0x80 + (c / 64) mod 64); byte_of (0x80 + c mod 64)].

Fixpoint utf8_encode (t : text) : option bytes :=
  match t with
  | [] => Some []
  | c :: t' =>
    if is_scalar c then
      match utf8_encode t' with
      | Some bs => Some (encode_cp c ++ bs)
      | None => None
      end
    else None
  end.

(** ** Whitespace and [str.strip] *)

(** [str.isspace] on one code point. *)
Definition is_space (c : Z) : bool :=
  ((0x09 <=? c) && (c <=? 0x0D)) || ((0x1C <=? c) && (c <=? 0x20))
  || (c =? 0x85) || (c =? 0xA0) || (c =? 0x1680)
  || ((0x2000 <=? c) && (c <=? 0x200A))
  || (c =? 0x2028) || (c =? 0x2029) || (c =? 0x202F) || (c =? 0x205F)
  || (c =? 0x3000).

Fixpoint lstrip (t : text) : text :=
  match t with
  | [] => []
  | c :: t' => if is_space c then lstrip t' else t
  end.

Definition rstrip (t : text) : text := rev (lstrip (rev t)).
Definition strip (t : text) : text := rstrip (lstrip t).

(** ** [str(n)] and [int(s)] *)

Fixpoint digits_of (fuel : nat) (n : Z) (acc : text) : text :=
  match fuel with
  | O => acc
  | S f =>
    let acc' := (48 + n mod 10) :: acc in
    if n <? 10 then acc' else digits_of f (n / 10) acc'
  end.

(** [str(n)] for an integer: decimal digits, with a minus sign when
    negative. *)
Definition str_of_Z (n : Z) : text :=
  if n <? 0 then 45 :: digits_of (S (Z.to_nat (Z.log2 (- n)))) (- n) []
  else digits_of (S (Z.to_nat (Z.log2 n))) n [].

Definition is_digit (c : Z) : bool := (48 <=? c) && (c <=? 57).

(** Appending the digit [c] to the number [a]. *)
Definition digit_step (a c : Z) : Z := a * 10 + (c - 48).

(** Whitespace that [int(s)] skips around the number: the ASCII blanks
    TAB..CR and SPACE, and every non-ASCII Unicode space.  The separators
    U+001C..U+001F, which [str.strip] removes, are not skipped. *)
Definition is_int_space (c : Z) : bool :=
  ((9 <=? c) && (c <=? 13)) || (c =? 32) || ((127 <? c) && is_space c).

Fixpoint int_lstrip (t : text) : text :=
  match t with
  | [] => []
  | c :: t' => if is_int_space c then int_lstrip t' else t
  end.

(** Digits after a first digit; a single underscore may separate two
    digits. *)
Fixpoint int_digits (t : text) (acc : Z) : option Z :=
  match t with
  | [] => Some acc
  | c :: t' =>
    if is_digit c then int_digits t' (digit_step acc c)
    else if c =? 95 then
      match t' with
      | d :: t'' =>
        if is_digit d then int_digits t'' (digit_step acc d) else None
      | [] => None
      end
    else None
  end.

Definition int_unsigned (t : text) : option Z :=
  match t with
  | d :: t' => if is_digit d then int_digits t' (digit_step 0 d) else None
  | [] => None
  end.

(** [int(s)] in base ten; [None] stands for [ValueError].  Decimal digits
    outside ASCII, which the interpreter also accepts, count as invalid
    here. *)
Definition py_int (s : text) : option Z :=
  match rev (int_lstrip (rev (int_lstrip s))) with
  | 45 :: t => option_map Z.opp (int_unsigned t)
  | 43 :: t => int_unsigned t
  | t => int_unsigned t
  end.

(** ** Substring test and prefixes *)

Fixpoint strip_prefix (p s : text) : option text :=
  match p, s with
  | [], _ => Some s
  | a :: p', b :: s' => if a =? b then strip_prefix p' s' else None
  | _ :: _, [] => None
  end.

(** [needle in haystack] on strings. *)
Fixpoint contains (needle hay : text) : bool :=
  match strip_prefix needle hay with
  | Some _ => true
  | None => match hay with [] => false | _ :: hay' => contains needle hay' end
  end.

(** Truth value of an [Optional[str]]: [None] and the empty string are
    false. *)
Definition truthy (o : option text) : bool :=
  match o with Some (_ :: _) => true | _ => false end.

(** * Regular expressions ([re]) *)

(** The fragment of the pattern language the program uses.  [Dot] is [.]
    (anything but a newline), [NotChar c] is [[^c]]. *)
Inductive cls := Dot | NotChar (c : Z).

Definition in_cls (k : cls) (c : Z) : bool :=
  match k with
  | Dot => negb (c =? 10)
  | NotChar x => negb (c =? x)
  end.

Inductive regex :=
| Lit (s : text)               (* literal characters *)
| Bol                          (* ^ *)
| Eol                          (* $ *)
| Alt (r1 r2 : regex)          (* r1|r2 *)
| Cat (r1 r2 : regex)          (* r1r2 *)
| Plus (k : cls)               (* k+ *)
| PlusLazy (k : cls)           (* k+? *)
| Opt (r : regex)              (* r? *)
| Group (i : nat) (r : regex). (* (r), the i-th group *)

Notation "r1 >> r2" := (Cat r1 r2) (at level 60, right associativity).

Definition cont := text -> gmap nat text -> option (gmap nat text).

(** [$] matches at the end of the string and just before a newline that
    ends the string. *)
Definition at_end (s : text) : bool :=
  match s with
  | [] => true
  | [c] => c =? 10
  | _ => false
  end.

Fixpoint plus_greedy (k : cls) (s : text) (g : gmap nat text) (K : cont)
  : option (gmap nat text) :=
  match s with
  | [] => None
  | c :: s' =>
    if in_cls k c then
      match plus_greedy k s' g K with
      | Some x => Some x
      | None => K s' g
      end
    else None
  end.

Fixpoint plus_lazy (k : cls) (s : text) (g : gmap nat text) (K : cont)
  : option (gmap nat text) :=
  match s with
  | [] => None
  | c :: s' =>
    if in_cls k c then
      match K s' g with
      | Some x => Some x
      | None => plus_lazy k s' g K
      end
    else None
  end.

(** Backtracking matcher: [run n r s g K] matches [r] at the front of the
    remaining input [s] (of a subject of length [n]), trying alternatives in
    the order of the [re] module, and hands the rest to [K]. *)
Fixpoint run (n : nat) (r : regex) (s : text) (g : gmap nat text) (K : cont)
  : option (gmap nat text) :=
  match r with
  | Lit l =>
    match strip_prefix l s with
    | Some s' => K s' g
    | None => None
    end
  | Bol => if Nat.eqb (length s) n then K s g else None
  | Eol => if at_end s then K s g else None
  | Alt r1 r2 =>
    match run n r1 s g K with
    | Some x => Some x
    | None => run n r2 s g K
    end
  | Cat r1 r2 => run n r1 s g (fun s' g' => run n r2 s' g' K)
  | Plus k => plus_greedy k s g K
  | PlusLazy k => plus_lazy k s g K
  | Opt r1 =>
    match run n r1 s g K with
    | Some x => Some x
    | None => K s g
    end
  | Group i r1 =>
    run n r1 s g
      (fun s' g' => K s' (<[i := take (length s - length s') s]> g'))
  end.

Definition accept : cont := fun _ g => Some g.

(** [re.match(r, s)]: a match at the start of [s]. *)
Definition re_match (r : regex) (s : text) : option (gmap nat text) :=
  run (length s) r s ∅ accept.

Fixpoint search_from (n : nat) (r : regex) (s : text)
  : option (gmap nat text) :=
  match run n r s ∅ accept with
  | Some g => Some g
  | None =>
    match s with
    | [] => None
    | _ :: s' => search_from n r s'
    end
  end.

(** [re.search(r, s)]: the leftmost match. *)
Definition re_search (r : regex) (s : text) : option (gmap nat text) :=
  search_from (length s) r s.

(** [m.group(i)] of a group that took part in the match. *)
Definition group (g : gmap nat text) (i : nat) : text := default [] (g !! i).

(** r"^(https|git)://github\.com/.+/.+(\.git)?$" *)
Definition URL_HTTPS_RE : regex :=
  Bol >> Group 1 (Alt (Lit (lit "https")) (Lit (lit "git")))
      >> Lit (lit "://github.com/") >> Plus Dot >> Lit (lit "/") >> Plus Dot
      >> Opt (Group 2 (Lit (lit ".git"))) >> Eol.

(** r"^git@github\.com:.+/.+\.git$" *)
Definition URL_SSH_RE : regex :=
  Bol >> Lit (lit "git@github.com:") >> Plus Dot >> Lit (lit "/") >> Plus Dot
      >> Lit (lit ".git") >> Eol.

(** r"/([^/]+?)(\.git)?$" *)
Definition REPO_NAME_RE : regex :=
  Lit (lit "/") >> Group 1 (PlusLazy (NotChar 47))
      >> Opt (Group 2 (Lit (lit ".git"))) >> Eol.

(** * Exceptions and results *)

Inductive exn :=
| OSError (msg : text)
| ValueError (msg : text)
| OverflowError (msg : text)
| CalledProcessError (stdout stderr : text).

(** What a call into the interpreter can do: return, leave through
    [sys.exit], or let an exception escape. *)
Inductive outcome (A : Type) :=
| Returns (a : A)
| Exits (code : Z)
| Raises (e : exn).
Arguments Returns {A} a.
Arguments Exits {A} code.
Arguments Raises {A} e.

(** * InstanceGuard: the PID file *)

(** A file as [open(..., "r")] and [read()] see it. *)
Inductive file :=
| Unreadable          (* open raises OSError *)
| Undecodable         (* read raises UnicodeDecodeError, a ValueError *)
| Content (t : text).

(** The operating system around the process.  [procs] is the process
    table (the owner of every live process); the caller may signal a
    process it owns, and the superuser may signal any. *)
Record os_env := {
  getpid : Z;
  euid : Z;
  procs : Z -> option Z;
  kill_pgrp : Z -> bool;               (* os.kill(pid, 0) succeeds, pid < 0 *)
  remove_error : text -> option text;  (* os.remove(path) raises OSError *)
  write_error : text -> option text;   (* open(path, "w") raises OSError *)
}.

(** The mutable part: the global [PID_FILE], the files under /tmp, and
    what was printed to standard error. *)
Record proc := {
  PID_FILE : text;
  files : gmap text file;
  stderr : list text;
}.

Definition set_PID_FILE (p : text) (st : proc) : proc :=
  {| PID_FILE := p; files := files st; stderr := stderr st |}.
Definition set_files (f : gmap text file) (st : proc) : proc :=
  {| PID_FILE := PID_FILE st; files := f; stderr := stderr st |}.
Definition eprint (m : text) (st : proc) : proc :=
  {| PID_FILE := PID_FILE st; files := files st; stderr := stderr st ++ [m] |}.

Definition PID_FILE_TEMPLATE (port : Z) : text :=
  lit "/tmp/github_listener_" ++ str_of_Z port ++ lit ".pid".

Definition path_exists (st : proc) (p : text) : bool :=
  bool_decide (is_Some (files st !! p)).

Definition create_pid_file (w : os_env) (st : proc) : outcome unit * proc :=
  match write_error w (PID_FILE st) with
  | None =>
    (Returns tt,
     set_files (<[PID_FILE st := Content (str_of_Z (getpid w))]> (files st)) st)
  | Some e =>
    (Exits 1,
     eprint (lit "Fatal: Could not create PID file " ++ PID_FILE st ++ lit ": "
             ++ e ++ lit ". Aborting.") st)
  end.

Definition ESRCH : text := lit "[Errno 3] No such process".
Definition EPERM : text := lit "[Errno 1] Operation not permitted".

Definition may_signal (w : os_env) (owner : Z) : bool :=
  (euid w =? 0) || (owner =? euid w).

(** [os.kill(pid, 0)]: no signal is sent, only the existence and permission
    checks are made. *)
Definition os_kill0 (w : os_env) (pid : Z) : exn + unit :=
  if (pid <? - 2 ^ 31) || (2 ^ 31 <=? pid) then
    inl (OverflowError (lit "signed integer is greater than maximum"))
  else if 0 <? pid then
    match procs w pid with
    | None => inl (OSError ESRCH)
    | Some owner => if may_signal w owner then inr tt else inl (OSError EPERM)
    end
  else if pid =? 0 then inr tt
  else if kill_pgrp w pid then inr tt
  else inl (OSError ESRCH).

Definition is_process_running (w : os_env) (pid : Z) : exn + bool :=
  match os_kill0 w pid with
  | inr _ => inr true
  | inl (OSError _) => inr false
  | inl e => inl e
  end.

(** [open(path, "r")] followed by [read()]. *)
Definition read_file (st : proc) (p : text) : exn + text :=
  match files st !! p with
  | None => inl (OSError (lit "[Errno 2] No such file or directory"))
  | Some Unreadable => inl (OSError (lit "[Errno 13] Permission denied"))
  | Some Undecodable => inl (ValueError (lit "codec can't decode byte"))
  | Some (Content t) => inr t
  end.

Definition int_of (t : text) : exn + Z :=
  match py_int t with
  | Some n => inr n
  | None => inl (ValueError (lit "invalid literal for int() with base 10"))
  end.

Definition os_remove (w : os_env) (p : text) (st : proc) : exn + proc :=
  match remove_error w p with
  | None => inr (set_files (delete p (files st)) st)
  | Some e => inl (OSError e)
  end.

(** The PID stored in the marker, as the start-up check reads it:
    [int(f.read())], with every exception turned into [None]. *)
Definition stored_pid (st : proc) (p : text) : option Z :=
  match read_file st p with
  | inr t => match int_of t with inr n => Some n | inl _ => None end
  | inl _ => None
  end.

Definition check_and_exit_if_already_running (w : os_env) (port_to_check : Z)
    (st0 : proc) : outcome unit * proc :=
  let st := set_PID_FILE (PID_FILE_TEMPLATE port_to_check) st0 in
  if path_exists st (PID_FILE st) then
    let pid := stored_pid st (PID_FILE st) in
    let running :=
      match pid with
      | Some n => if n =? 0 then inr false else is_process_running w n
      | None => inr false
      end in
    match running with
    | inl e => (Raises e, st)
    | inr true =>
      (Exits 1,
       eprint (lit "Error: Another instance (PID " ++ str_of_Z (default 0 pid)
               ++ lit ") is already running on port " ++ str_of_Z port_to_check)
              st)
    | inr false =>
      match os_remove w (PID_FILE st) st with
      | inr st' => create_pid_file w st'
      | inl (OSError e) =>
        (Exits 1,
         eprint (lit "Warning: Could not remove stale PID file " ++ PID_FILE st
                 ++ lit ": " ++ e) st)
      | inl e => (Raises e, st)
      end
    end
  else create_pid_file w st.

Definition cleanup_pid_file (w : os_env) (st : proc) : outcome unit * proc :=
  if truthy (Some (PID_FILE st)) && path_exists st (PID_FILE st) then
    let body : exn + proc :=
      match read_file st (PID_FILE st) with
      | inl e => inl e
      | inr t =>
        match int_of (strip t) with
        | inl e => inl e
        | inr pid_in_file =>
          if pid_in_file =? getpid w then os_remove w (PID_FILE st) st
          else inr st
        end
      end in
    match body with
    | inr st' => (Returns tt, st')
    | inl (ValueError _) => (Returns tt, st)
    | inl (OSError _) => (Returns tt, st)
    | inl e => (Raises e, st)
    end
  else (Returns tt, st).

(** * The request handler and its collaborators *)

Inductive stream := Stdout | Stderr.

(** What the handler does to the outside world, in order. *)
Inductive event :=
| Print (f : stream) (msg : text)
| Run (cmd : list text)                      (* subprocess.run: waits for exit *)
| Popen (cmd : list text) (new_session : bool) (* subprocess.Popen: no wait *)
| RfileRead (n : Z)
| Mkdtemp (prefix dir : text)
| Rmtree (path : text)
| SendResponse (code : Z)
| SendHeader (name value : text)
| EndHeaders
| Write (body : bytes).

(** How the external clone command ends. *)
Inductive git_result :=
| GitExit (code : Z) (stdout stderr : bytes)
| GitSpawnError (msg : text).

(** The collaborators the handler calls: the command lookup, process
    creation, the temporary-directory factory, git, and recursive delete. *)
Record env := {
  which : text -> option text;            (* shutil.which *)
  spawn_error : list text -> option text; (* starting this command raises *)
  CLONE_BASE_DIR : text;
  mkdtemp_name : text -> text + text;     (* by prefix: error, or random part *)
  git_clone : text -> text -> git_result; (* by URL and directory *)
  rmtree_ok : text -> bool;               (* shutil.rmtree removes the tree *)
}.

Record request := {
  content_length_header : option text;    (* self.headers.get("Content-Length") *)
  rfile : bytes;                          (* what the client sends after the headers *)
}.

(** The handler's local variables, the directories on disk, and the
    events so far. *)
Record state := {
  response_status_code : Z;
  response_body_str : text;
  clone_target_dir : option text;
  dirs : gset text;
  trace : list event;
}.

Definition M (A : Type) : Type := state -> (exn + A) * state.

Definition ret {A} (a : A) : M A := fun st => (inr a, st).
Definition raise {A} (e : exn) : M A := fun st => (inl e, st).
Definition bind {A B} (m : M A) (k : A -> M B) : M B :=
  fun st =>
    match m st with
    | (inr a, st') => k a st'
    | (inl e, st') => (inl e, st')
    end.

Notation "x <- m ;; k" := (bind m (fun x => k))
  (at level 100, m at next level, right associativity).
Notation "m ;;; k" := (bind m (fun _ => k))
  (at level 100, right associativity).

Definition emit (ev : event) : M unit := fun st =>
  (inr tt,
   {| response_status_code := response_status_code st;
      response_body_str := response_body_str st;
      clone_target_dir := clone_target_dir st;
      dirs := dirs st;
      trace := trace st ++ [ev] |}).

Definition set_status (c : Z) : M unit := fun st =>
  (inr tt,
   {| response_status_code := c;
      response_body_str := response_body_str st;
      clone_target_dir := clone_target_dir st;
      dirs := dirs st;
      trace := trace st |}).

Definition set_body (b : text) : M unit := fun st =>
  (inr tt,
   {| response_status_code := response_status_code st;
      response_body_str := b;
      clone_target_dir := clone_target_dir st;
      dirs := dirs st;
      trace := trace st |}).

Definition set_dir (d : text) : M unit := fun st =>
  (inr tt,
   {| response_status_code := response_status_code st;
      response_body_str := response_body_str st;
      clone_target_dir := Some d;
      dirs := dirs st;
      trace := trace st |}).

Definition set_dirs (ds : gset text) : M unit := fun st =>
  (inr tt,
   {| response_status_code := response_status_code st;
      response_body_str := response_body_str st;
      clone_target_dir := clone_target_dir st;
      dirs := ds;
      trace := trace st |}).

Definition get : M state := fun st => (inr st, st).

Fixpoint emit_all (evs : list event) : M unit :=
  match evs with
  | [] => ret tt
  | ev :: evs' => emit ev ;;; emit_all evs'
  end.

(** The state after some more events. *)
Definition log (evs : list event) (st : state) : state :=
  {| response_status_code := response_status_code st;
     response_body_str := response_body_str st;
     clone_target_dir := clone_target_dir st;
     dirs := dirs st;
     trace := trace st ++ evs |}.

(** ** Notifications *)

(** The command [show_notification] builds: the first of notify-send,
    kdialog and zenity that is installed. *)
Definition notification_cmd (e : env) (message title : text) (timeout_ms : Z)
  : option (list text) :=
  if truthy (which e (lit "notify-send")) then
    Some [lit "notify-send"; lit "-t"; str_of_Z timeout_ms; title; message]
  else if truthy (which e (lit "kdialog")) then
    Some [lit "kdialog"; lit "--passivepopup"; message;
          str_of_Z (timeout_ms / 1000); lit "--title"; title]
  else if truthy (which e (lit "zenity")) then
    Some [lit "zenity"; lit "--notification";
          lit "--text=" ++ title ++ lit ": " ++ message]
  else None.

(** The events of one [show_notification] call. *)
Definition show_notification (e : env) (message title type_ : text)
  : list event :=
  let timeout_ms := if text_eqb type_ (lit "info") then 3000 else 5000 in
  let launch :=
    match notification_cmd e message title timeout_ms with
    | Some cmd =>
      let cmd0 := hd [] cmd in
      let started (ev : event) :=
        match spawn_error e cmd with
        | None => [ev]
        | Some err =>
          [Print Stderr (lit "Warning: Failed to send notification via "
                         ++ cmd0 ++ lit ": " ++ err)]
        end in
      if contains (lit "kdialog") cmd0 || contains (lit "zenity") cmd0
      then started (Popen cmd false)
      else started (Run cmd)
    | None => []
    end in
  launch ++
  [if text_eqb type_ (lit "error")
   then Print Stderr (lit "Error: " ++ title ++ lit " - " ++ message)
   else Print Stdout (lit "Info: " ++ title ++ lit " - " ++ message)].

Definition show_error (e : env) (message : text) : M unit :=
  emit_all (show_notification e message (lit "ERROR") (lit "error")).

Definition show_info (e : env) (message : text) : M unit :=
  emit_all (show_notification e message (lit "INFO") (lit "info")).

(** ** Launching the editor *)

Fixpoint join (sep : text) (ws : list text) : text :=
  match ws with
  | [] => []
  | [w] => w
  | w :: ws' => w ++ sep ++ join sep ws'
  end.

Definition run_detached (e : env) (command_args : list text) : M bool :=
  match spawn_error e command_args with
  | None => emit (Popen command_args true) ;;; ret true
  | Some err =>
    show_error e (lit "Failed to run detached '" ++ join (lit " ") command_args
                  ++ lit "': " ++ err) ;;;
    ret false
  end.

Definition open_editor (e : env) (directory : text) : M bool :=
  let code_cmd := which e (lit "code") in
  if truthy code_cmd then run_detached e [default [] code_cmd; directory]
  else
    show_error e (lit "'code' (VS Code CLI) not found in PATH.") ;;;
    ret false.

(** ** The POST handler *)

(** [content_length] after the inner [try], and the warning it prints. *)
Definition parse_content_length (h : option text) : Z * list event :=
  if truthy h then
    match py_int (default [] h) with
    | Some n => (if n <? 0 then 0 else n, [])
    | None =>
      (0, [Print Stderr (lit "Warning: Malformed Content-Length: '"
                         ++ default [] h ++ lit "'. Treating as 0.")])
    end
  else (0, []).

Definition content_length (req : request) : Z :=
  fst (parse_content_length (content_length_header req)).

(** [self.rfile.read(n)]: the next [n] bytes, fewer if the client sends
    fewer.  A length the reader cannot take ([n] from 2^63 on, where the
    interpreter raises [OverflowError]) is outside this definition. *)
Definition rfile_read (req : request) (n : Z) : M bytes :=
  emit (RfileRead n) ;;; ret (take (Z.to_nat n) (rfile req)).

Definition body_bytes (req : request) : bytes :=
  take (Z.to_nat (content_length req)) (rfile req).

Definition github_url (req : request) : text :=
  strip (utf8_decode_ignore (body_bytes req)).

(** The URL test of the [elif]. *)
Definition url_accepted (url : text) : bool :=
  bool_decide (is_Some (re_match URL_HTTPS_RE url))
  || bool_decide (is_Some (re_match URL_SSH_RE url)).

Definition repo_name_of (url : text) : text :=
  match re_search REPO_NAME_RE url with
  | Some g => group g 1
  | None => lit "repository"
  end.

(** [tempfile.mkdtemp(prefix=..., dir=...)]. *)
Definition mkdtemp (e : env) (prefix dir : text) : M text :=
  emit (Mkdtemp prefix dir) ;;;
  match mkdtemp_name e prefix with
  | inl err => raise (OSError err)
  | inr name =>
    let d := dir ++ lit "/" ++ prefix ++ name in
    st <- get ;;
    set_dirs ({[d]} ∪ dirs st) ;;;
    ret d
  end.

(** Text mode of [subprocess.run]: "\r\n" and "\r" become "\n". *)
Fixpoint universal_newlines (t : text) : text :=
  match t with
  | [] => []
  | c :: t' =>
    if c =? 13 then
      10 :: match t' with
            | [] => []
            | c' :: t'' =>
              if c' =? 10 then universal_newlines t'' else universal_newlines t'
            end
    else c :: universal_newlines t'
  end.

Definition output_text (b : bytes) : text :=
  universal_newlines (utf8_decode_ignore b).

Definition git_argv (url dir : text) : list text :=
  [lit "git"; lit "clone"; lit "--depth"; lit "1"; url; dir].

(** [subprocess.run(["git", "clone", ...], capture_output=True, text=True,
    check=True, encoding="utf-8", errors="ignore")]; returns the standard
    output. *)
Definition run_git_clone (e : env) (url dir : text) : M text :=
  emit (Run (git_argv url dir)) ;;;
  match git_clone e url dir with
  | GitSpawnError err => raise (OSError err)
  | GitExit code out err =>
    if code =? 0 then ret (output_text out)
    else raise (CalledProcessError (output_text out) (output_text err))
  end.

Definition is_empty (t : text) : bool :=
  match t with [] => true | _ => false end.

Definition try_block (e : env) (req : request) : M unit :=
  let content_length_str := content_length_header req in
  let '(content_length, warning) := parse_content_length content_length_str in
  emit_all warning ;;;
  body_bytes <- rfile_read req content_length ;;
  let github_url := strip (utf8_decode_ignore body_bytes) in
  emit (Print Stderr (lit "Received POST for URL: '" ++ github_url ++ lit "'")) ;;;
  if (content_length =? 0) || is_empty github_url then
    let body := lit "Error: No content in POST request or empty URL." in
    set_body body ;;;
    set_status 400 ;;;
    show_error e body
  else if url_accepted github_url then
    let repo_name := repo_name_of github_url in
    d <- mkdtemp e (repo_name ++ lit "_") (CLONE_BASE_DIR e) ;;
    set_dir d ;;;
    show_info e (lit "Cloning repository..") ;;;
    out <- run_git_clone e github_url d ;;
    emit (Print Stderr (lit "Successfully cloned: " ++ strip out)) ;;;
    opened <- open_editor e d ;;
    if opened then
      set_body (lit "Success: Cloned '" ++ repo_name
                ++ lit "' and opened in VS Code at '" ++ d ++ lit "'.") ;;;
      set_status 200
    else
      set_body (lit "Error: Cloned '" ++ repo_name
                ++ lit "' but failed to open in VS Code.") ;;;
      set_status 500
  else
    let body := lit "Error: Invalid GitHub URL: '" ++ github_url ++ lit "'." in
    set_body body ;;;
    set_status 400 ;;;
    show_error e body.

(** except subprocess.CalledProcessError *)
Definition on_called_process_error (e : env) (github_url out err : text)
  : M unit :=
  let detail := if is_empty (strip err) then strip out else strip err in
  let body := lit "Error: Failed to clone '" ++ github_url
              ++ lit "'. Git output: " ++ detail in
  set_body body ;;;
  set_status 500 ;;;
  show_error e body.

(** except Exception *)
Definition on_exception (e : env) (msg : text) : M unit :=
  let body := lit "An unexpected error occurred: " ++ msg in
  set_body body ;;;
  set_status 500 ;;;
  show_error e body.

Definition send_cors_headers : M unit :=
  emit (SendHeader (lit "Access-Control-Allow-Origin") (lit "*")) ;;;
  emit (SendHeader (lit "Access-Control-Allow-Methods") (lit "POST, OPTIONS")) ;;;
  emit (SendHeader (lit "Access-Control-Allow-Headers")
                   (lit "Content-Type, X-Requested-With")) ;;;
  emit (SendHeader (lit "Access-Control-Max-Age") (lit "86400")).

Definition cleanup_needed (st : state) : bool :=
  (400 <=? response_status_code st)
  && truthy (clone_target_dir st)
  && bool_decide (default [] (clone_target_dir st) ∈ dirs st).

(** [shutil.rmtree(path, ignore_errors=True)]: never raises; the directory
    is gone when the deletion works. *)
Definition rmtree_ignore_errors (e : env) (d : text) : M unit :=
  emit (Rmtree d) ;;;
  st <- get ;;
  if rmtree_ok e d then set_dirs (dirs st ∖ {[d]}) else ret tt.

Definition finally_block (e : env) : M unit :=
  st <- get ;;
  (if cleanup_needed st
   then rmtree_ignore_errors e (default [] (clone_target_dir st))
   else ret tt) ;;;
  emit (SendResponse (response_status_code st)) ;;;
  send_cors_headers ;;;
  emit (SendHeader (lit "Content-Type") (lit "text/plain; charset=utf-8")) ;;;
  match utf8_encode (response_body_str st) with
  | None => raise (ValueError (lit "'utf-8' codec can't encode character"))
  | Some response_body_bytes =>
    emit (SendHeader (lit "Content-Length")
                     (str_of_Z (Z.of_nat (length response_body_bytes)))) ;;;
    emit EndHeaders ;;;
    emit (Write response_body_bytes) ;;;
    emit (Print Stderr (lit "Response sent ("
                        ++ str_of_Z (response_status_code st) ++ lit ")."))
  end.

Definition exn_str (ex : exn) : text :=
  match ex with
  | OSError m | ValueError m | OverflowError m => m
  | CalledProcessError _ _ => lit "Command returned non-zero exit status."
  end.

Definition initial_state (ds : gset text) : state :=
  {| response_status_code := 500;
     response_body_str := lit "An unexpected error occurred.";
     clone_target_dir := None;
     dirs := ds;
     trace := [] |}.

(** The [try] block followed by the matching [except] clause. *)
Definition try_except (e : env) (req : request) (ds : gset text)
  : (exn + unit) * state :=
  let '(r, st1) := try_block e req (initial_state ds) in
  match r with
  | inr _ => (inr tt, st1)
  | inl (CalledProcessError out err) =>
    on_called_process_error e (github_url req) out err st1
  | inl ex => on_exception e (exn_str ex) st1
  end.

(** [do_POST] on a disk holding the directories [ds]: [try], [except],
    then [finally]; an exception raised in [finally] escapes. *)
Definition do_POST (e : env) (req : request) (ds : gset text)
  : (exn + unit) * state :=
  let '(r, st2) := try_except e req ds in
  match finally_block e st2 with
  | (inr _, st3) => (r, st3)
  | (inl ex, st3) => (inl ex, st3)
  end.

(** The final state of a request. *)
Definition handle (e : env) (req : request) (ds : gset text) : state :=
  snd (do_POST e req ds).

(** The HTTP traffic in a trace. *)
Definition is_http (ev : event) : bool :=
  match ev with
  | SendResponse _ | SendHeader _ _ | EndHeaders | Write _ => true
  | _ => false
  end.

Definition http_events (tr : list event) : list event := List.filter is_http tr.

(** ** The handler in direct style *)

Definition notify_error (e : env) (m : text) : list event :=
  show_notification e m (lit "ERROR") (lit "error").

Definition notify_info (e : env) (m : text) : list event :=
  show_notification e m (lit "INFO") (lit "info").

(** Whether [open_editor] reports success, and what it does. *)
Definition editor_launch (e : env) (d : text) : bool * list event :=
  let code_cmd := which e (lit "code") in
  if truthy code_cmd then
    let argv := [default [] code_cmd; d] in
    match spawn_error e argv with
    | None => (true, [Popen argv true])
    | Some err =>
      (false, notify_error e (lit "Failed to run detached '"
                              ++ join (lit " ") argv ++ lit "': " ++ err))
    end
  else (false, notify_error e (lit "'code' (VS Code CLI) not found in PATH.")).

Definition mk_state (c : Z) (b : text) (d : option text) (ds : gset text)
    (tr : list event) : state :=
  {| response_status_code := c; response_body_str := b;
     clone_target_dir := d; dirs := ds; trace := tr |}.

(** The state in which [finally] starts, written without the monad; shown
    below to be what [try_except] computes. *)
Definition before_finally (e : env) (req : request) (ds : gset text) : state :=
  let n := content_length req in
  let url := github_url req in
  let pre :=
    snd (parse_content_length (content_length_header req))
    ++ [RfileRead n;
        Print Stderr (lit "Received POST for URL: '" ++ url ++ lit "'")] in
  if (n =? 0) || is_empty url then
    let body := lit "Error: No content in POST request or empty URL." in
    mk_state 400 body None ds (pre ++ notify_error e body)
  else if url_accepted url then
    let repo_name := repo_name_of url in
    let prefix := repo_name ++ lit "_" in
    let tr1 := pre ++ [Mkdtemp prefix (CLONE_BASE_DIR e)] in
    match mkdtemp_name e prefix with
    | inl err =>
      let body := lit "An unexpected error occurred: " ++ err in
      mk_state 500 body None ds (tr1 ++ notify_error e body)
    | inr name =>
      let d := CLONE_BASE_DIR e ++ lit "/" ++ prefix ++ name in
      let ds' := {[d]} ∪ ds in
      let tr2 := tr1 ++ notify_info e (lit "Cloning repository..")
                     ++ [Run (git_argv url d)] in
      match git_clone e url d with
      | GitSpawnError err =>
        let body := lit "An unexpected error occurred: " ++ err in
        mk_state 500 body (Some d) ds' (tr2 ++ notify_error e body)
      | GitExit code out err =>
        if code =? 0 then
          let tr3 := tr2 ++ [Print Stderr (lit "Successfully cloned: "
                                           ++ strip (output_text out))]
                         ++ snd (editor_launch e d) in
          if fst (editor_launch e d) then
            mk_state 200
              (lit "Success: Cloned '" ++ repo_name
               ++ lit "' and opened in VS Code at '" ++ d ++ lit "'.")
              (Some d) ds' tr3
          else
            mk_state 500
              (lit "Error: Cloned '" ++ repo_name
               ++ lit "' but failed to open in VS Code.")
              (Some d) ds' tr3
        else
          let detail :=
            if is_empty (strip (output_text err)) then strip (output_text out)
            else strip (output_text err) in
          let body := lit "Error: Failed to clone '" ++ url
                      ++ lit "'. Git output: " ++ detail in
          mk_state 500 body (Some d) ds' (tr2 ++ notify_error e body)
      end
    end
  else
    let body := lit "Error: Invalid GitHub URL: '" ++ url ++ lit "'." in
    mk_state 400 body None ds (pre ++ notify_error e body).

Definition cleanup_events (st : state) : list event :=
  if cleanup_needed st then [Rmtree (default [] (clone_target_dir st))] else [].

Definition dirs_after_cleanup (e : env) (st : state) : gset text :=
  if cleanup_needed st && rmtree_ok e (default [] (clone_target_dir st))
  then dirs st ∖ {[default [] (clone_target_dir st)]}
  else dirs st.

Definition head_events (code : Z) : list event :=
  [SendResponse code;
   SendHeader (lit "Access-Control-Allow-Origin") (lit "*");
   SendHeader (lit "Access-Control-Allow-Methods") (lit "POST, OPTIONS");
   SendHeader (lit "Access-Control-Allow-Headers")
              (lit "Content-Type, X-Requested-With");
   SendHeader (lit "Access-Control-Max-Age") (lit "86400");
   SendHeader (lit "Content-Type") (lit "text/plain; charset=utf-8")].

(** One complete response on the wire: status line, headers with the
    length of the body, end of headers, body. *)
Definition response_events (code : Z) (body : bytes) : list event :=
  head_events code
  ++ [SendHeader (lit "Content-Length") (str_of_Z (Z.of_nat (length body)));
      EndHeaders;
      Write body].

(** [finally], written without the monad. *)
Definition after_finally (e : env) (st : state) : (exn + unit) * state :=
  let tr := trace st ++ cleanup_events st in
  let code := response_status_code st in
  match utf8_encode (response_body_str st) with
  | Some bs =>
    (inr tt,
     mk_state code (response_body_str st) (clone_target_dir st)
       (dirs_after_cleanup e st)
       (tr ++ response_events code bs
           ++ [Print Stderr (lit "Response sent (" ++ str_of_Z code ++ lit ").")]))
  | None =>
    (inl (ValueError (lit "'utf-8' codec can't encode character")),
     mk_state code (response_body_str st) (clone_target_dir st)
       (dirs_after_cleanup e st) (tr ++ head_events code))
  end.

Definition scalar_text (t : text) : Prop :=
  Forall (fun c => is_scalar c = true) t.

(** ** Kinds of events *)

Definition is_clone (ev : event) : bool :=
  match ev with
  | Run cmd => text_eqb (hd [] cmd) (lit "git")
  | _ => false
  end.

Definition is_mkdtemp (ev : event) : bool :=
  match ev with Mkdtemp _ _ => true | _ => false end.

Definition is_read (ev : event) : bool :=
  match ev with RfileRead _ => true | _ => false end.

Definition is_rmtree (ev : event) : bool :=
  match ev with Rmtree _ => true | _ => false end.

(** Console output and launched helpers other than git. *)
Definition is_side_channel (ev : event) : bool :=
  match ev with
  | Print _ _ | Popen _ _ => true
  | Run cmd => negb (text_eqb (hd [] cmd) (lit "git"))
  | _ => false
  end.

(** The environment hands the handler well-formed text: the base
    directory, temporary names and error messages hold no lone surrogate. *)
Definition env_texts_ok (e : env) : Prop :=
  scalar_text (CLONE_BASE_DIR e)
  /\ (forall p t, mkdtemp_name e p = inl t \/ mkdtemp_name e p = inr t ->
                 scalar_text t)
  /\ (forall u d m, git_clone e u d = GitSpawnError m -> scalar_text m).

(** The same environment with another answer for [shutil.rmtree]. *)
Definition with_rmtree_ok (f : text -> bool) (e : env) : env :=
  {| which := which e; spawn_error := spawn_error e;
     CLONE_BASE_DIR := CLONE_BASE_DIR e; mkdtemp_name := mkdtemp_name e;
     git_clone := git_clone e; rmtree_ok := f |}.

(** ** Statements about a request *)

(** The length a request declares, in the specification's words: the
    value of Content-Length, or zero when the header is absent, negative or
    unparsable. *)
Definition declared_length (h : option text) : Z :=
  match h with
  | None => 0
  | Some s =>
    match py_int s with
    | Some v => if v <? 0 then 0 else v
    | None => 0
    end
  end.

(** The request passes validation, the directory [d] is created for it, and
    git exits with status zero. *)
Definition clone_succeeds (e : env) (req : request) (d : text) : Prop :=
  (content_length req =? 0) || is_empty (github_url req) = false
  /\ url_accepted (github_url req) = true
  /\ exists name out err,
      mkdtemp_name e (repo_name_of (github_url req) ++ lit "_") = inr name
      /\ d = CLONE_BASE_DIR e ++ lit "/"
              ++ (repo_name_of (github_url req) ++ lit "_") ++ name
      /\ git_clone e (github_url req) d = GitExit 0 out err.

(** [open_editor] reports failure. *)
Definition editor_fails (e : env) (d : text) : Prop :=
  forall st, fst (open_editor e d st) = inr false.

(** The editor-failure rule as the specification words it: status 500 with
    the cloned directory left on disk. *)
Definition editor_failure_keeps_directory (e : env) (req : request)
    (ds : gset text) : Prop :=
  forall d, clone_succeeds e req d -> editor_fails e d ->
    response_status_code (handle e req ds) = 500
    /\ d ∈ dirs (handle e req ds).

(** Popup backends are never waited for, as the specification has it: no
    notification is delivered through [subprocess.run]. *)
Definition never_waits (evs : list event) : Prop :=
  forall cmd, ~ In (Run cmd) evs.

(** ** Example environments and requests *)

(** A desktop with git, the editor and notify-send installed, where
    everything works. *)
Definition env_desktop : env :=
  {| which := fun n =>
       if text_eqb n (lit "code") then Some (lit "/usr/bin/code")
       else if text_eqb n (lit "notify-send") then Some (lit "/usr/bin/notify-send")
       else None;
     spawn_error := fun _ => None;
     CLONE_BASE_DIR := lit "/home/u/Desktop";
     mkdtemp_name := fun _ => inr (lit "k3x9_a0b");
     git_clone := fun _ _ => GitExit 0 (blit "") (blit "Cloning into 'widgets'...");
     rmtree_ok := fun _ => true |}.

(** The same desktop after the editor was uninstalled. *)
Definition env_editor_missing : env :=
  {| which := fun n =>
       if text_eqb n (lit "notify-send") then Some (lit "/usr/bin/notify-send")
       else None;
     spawn_error := spawn_error env_desktop;
     CLONE_BASE_DIR := CLONE_BASE_DIR env_desktop;
     mkdtemp_name := mkdtemp_name env_desktop;
     git_clone := git_clone env_desktop;
     rmtree_ok := rmtree_ok env_desktop |}.

(** A POST whose Content-Length is the length of its body. *)
Definition post (body : string) : request :=
  {| content_length_header := Some (str_of_Z (Z.of_nat (length (blit body))));
     rfile := blit body |}.

(** The same desktop when the repository does not exist. *)
Definition env_git_fails : env :=
  {| which := which env_desktop;
     spawn_error := spawn_error env_desktop;
     CLONE_BASE_DIR := CLONE_BASE_DIR env_desktop;
     mkdtemp_name := mkdtemp_name env_desktop;
     git_clone := fun _ _ =>
       GitExit 128 (blit "") (blit "fatal: repository not found");
     rmtree_ok := rmtree_ok env_desktop |}.

(** The same desktop with a full disk: [mkdtemp] raises. *)
Definition env_disk_full : env :=
  {| which := which env_desktop;
     spawn_error := spawn_error env_desktop;
     CLONE_BASE_DIR := CLONE_BASE_DIR env_desktop;
     mkdtemp_name := fun _ => inl (lit "[Errno 28] No space left on device");
     git_clone := git_clone env_desktop;
     rmtree_ok := rmtree_ok env_desktop |}.

Definition widgets_url : string := "https://github.com/acme/widgets".
Definition widgets_dir : text := lit "/home/u/Desktop/widgets_k3x9_a0b".

(** ** Statements about the instance guard *)

(** The start-up check as the specification has it: a marker naming a live
    process makes the check exit; a marker naming a dead process is
    replaced by one holding the current process identifier. *)
Definition acquire_as_specified (w : os_env) (port : Z) (st0 : proc) : Prop :=
  forall pid,
    stored_pid st0 (PID_FILE_TEMPLATE port) = Some pid ->
    (is_Some (procs w pid) ->
     fst (check_and_exit_if_already_running w port st0) = Exits 1)
    /\ (procs w pid = None ->
        fst (check_and_exit_if_already_running w port st0) = Returns tt
        /\ files (snd (check_and_exit_if_already_running w port st0))
             !! PID_FILE_TEMPLATE port
           = Some (Content (str_of_Z (getpid w)))).

(** A user session: the daemon would run as process 5000 of user 1000;
    process 1 belongs to the superuser; nothing else is alive. *)
Definition os_session : os_env :=
  {| getpid := 5000;
     euid := 1000;
     procs := fun pid =>
       if pid =? 5000 then Some 1000
       else if pid =? 4999 then Some 1000
       else if pid =? 1 then Some 0
       else None;
     kill_pgrp := fun _ => false;
     remove_error := fun _ => None;
     write_error := fun _ => None |}.

(** The same session when files under /tmp cannot be removed. *)
Definition os_sticky_tmp : os_env :=
  {| getpid := getpid os_session;
     euid := euid os_session;
     procs := procs os_session;
     kill_pgrp := kill_pgrp os_session;
     remove_error := fun _ => Some EPERM;
     write_error := write_error os_session |}.

Definition EROFS : text := lit "[Errno 30] Read-only file system".

(** The same session when stale markers can be removed but no file under
    /tmp can be created. *)
Definition os_readonly_tmp : os_env :=
  {| getpid := getpid os_session;
     euid := euid os_session;
     procs := procs os_session;
     kill_pgrp := kill_pgrp os_session;
     remove_error := remove_error os_session;
     write_error := fun _ => Some EROFS |}.

(** A process that has not run the check yet, with a marker for port 45678
    left by process [pid]. *)
Definition marker_left_by (pid : Z) : proc :=
  {| PID_FILE := [];
     files := {[PID_FILE_TEMPLATE 45678 := Content (str_of_Z pid)]};
     stderr := [] |}.

(** * Specification-level notions *)

(** What a pattern can consume: [consumes n r s s'] when [r] matches a
    prefix of [s] and leaves [s'], in a subject of length [n]. *)
Fixpoint consumes (n : nat) (r : regex) (s s' : text) : Prop :=
  match r with
  | Lit l => s = l ++ s'
  | Bol => s' = s /\ length s = n
  | Eol => s' = s /\ (s = [] \/ s = [10])
  | Alt r1 r2 => consumes n r1 s s' \/ consumes n r2 s s'
  | Cat r1 r2 => exists m, consumes n r1 s m /\ consumes n r2 m s'
  | Plus k | PlusLazy k =>
    exists w, w <> [] /\ Forall (fun c => in_cls k c = true) w /\ s = w ++ s'
  | Opt r1 => consumes n r1 s s' \/ s' = s
  | Group _ r1 => consumes n r1 s s'
  end.

(** The accepted URL shapes as the specification words them; <owner> and
    <repo> stand for any non-empty text without a line break. *)
Definition one_line (t : text) : Prop :=
  t <> [] /\ Forall (fun c => c <> 10) t.

Definition url_shape (prefix : text) (git_suffix_required : bool) (u : text)
  : Prop :=
  exists owner repo,
    one_line owner /\ one_line repo /\
    (u = prefix ++ owner ++ lit "/" ++ repo ++ lit ".git"
     \/ (git_suffix_required = false /\ u = prefix ++ owner ++ lit "/" ++ repo)).

Definition accepted_shape (u : text) : Prop :=
  url_shape (lit "https://github.com/") false u
  \/ url_shape (lit "git://github.com/") false u
  \/ url_shape (lit "git@github.com:") true u.

(** Captured groups made of characters with the property [P], and
    continuations that keep them so. *)
Definition groups_in (P : Z -> Prop) (g : gmap nat text) : Prop :=
  map_Forall (fun _ t => Forall P t) g.

Definition preserves (P : Z -> Prop) (K : cont) : Prop :=
  forall s g y, Forall P s -> groups_in P g -> K s g = Some y -> groups_in P y.

(** * The rest of the program: OPTIONS, pre-flight checks, [main] *)

(** [do_OPTIONS]: 204 with the cross-origin headers and no body. *)
Definition do_OPTIONS : M unit :=
  emit (SendResponse 204) ;;;
  send_cors_headers ;;;
  emit EndHeaders ;;;
  emit (Print Stderr (lit "Handled OPTIONS request.")).

(** The cross-origin headers in a trace. *)
Definition is_cors_header (ev : event) : bool :=
  match ev with
  | SendHeader name _ =>
    match strip_prefix (lit "Access-Control-") name with
    | Some _ => true
    | None => false
    end
  | _ => false
  end.

Definition DEFAULT_PORT : Z := 45678.

(** The port [main] takes from [sys.argv]: the first argument when there is
    one, which must be an integer from 1024 to 65535, and the default
    otherwise.  The line printed before [sys.exit(1)] quotes the [repr] of
    the argument and is left out. *)
Definition parse_port (argv : list text) : outcome Z :=
  match argv with
  | _ :: arg :: _ =>
    match py_int arg with
    | Some current_port =>
      if (1024 <=? current_port) && (current_port <=? 65535)
      then Returns current_port
      else Exits 1
    | None => Exits 1
    end
  | _ => Returns DEFAULT_PORT
  end.

(** How the accept loop ends: [shutdown()] was called, or it raised. *)
Inductive serve_end :=
| Shutdown
| ServeOSError (msg : text)
| ServeError (msg : text).

(** The machine the daemon starts on: the collaborators of the handler,
    the operating system of the instance guard, the file tests of the
    pre-flight checks and the listening socket. *)
Record host := {
  host_env : env;
  host_os : os_env;
  isdir : text -> bool;             (* os.path.isdir *)
  access_w : text -> text + bool;   (* os.access(path, os.W_OK), or OSError *)
  bind_error : Z -> option text;    (* HTTPServer(("", port), ...) raises *)
  serve_forever : serve_end;
}.

Definition pre_flight_checks (h : host) : outcome unit * list event :=
  let e := host_env h in
  if negb (truthy (which e (lit "git"))) then
    (Exits 1, notify_error e (lit "'git' is not installed or not in PATH."))
  else if negb (truthy (which e (lit "code"))) then
    (Exits 1,
     notify_error e (lit "'code' (VS Code CLI) is not installed or not in PATH."))
  else
    let unusable :=
      (Exits 1,
       notify_error e (lit "Directory '" ++ CLONE_BASE_DIR e
                       ++ lit "' doesn't exist or isn't writable.")) in
    if negb (isdir h (CLONE_BASE_DIR e)) then unusable
    else
      match access_w h (CLONE_BASE_DIR e) with
      | inr true => (Returns tt, [])
      | inr false => unusable
      | inl err =>
        (Exits 1,
         notify_error e (lit "Error with Directory '" ++ CLONE_BASE_DIR e
                         ++ lit "': " ++ err))
      end.

(** What [main] does, in order. *)
Inductive step :=
| Console (ev : event)        (* a notification or a printed line *)
| Signal (name : text)        (* signal.signal(name, signal_handler) *)
| Bind (port : Z)             (* HTTPServer(("", port), GitHubListenerHandler) *)
| ServeForever
| ShutdownThread              (* Thread(target=shutdown, daemon=True).start() *)
| ServerClose.

(** [signal_handler], by whether [http_server_instance] is set. *)
Definition signal_handler (http_server_instance : bool)
  : outcome unit * list step :=
  let shutting_down :=
    Console (Print Stderr (10 :: lit "Shutting down listener...")) in
  if http_server_instance then (Returns tt, [shutting_down; ShutdownThread])
  else (Exits 0, [shutting_down]).

Definition listener_stopped : step :=
  Console (Print Stderr (lit "Listener stopped.")).

(** The [except OSError] clause of [main]. *)
Definition on_server_oserror (h : host) (current_port : Z) (st : proc)
    (err : text) : list step :=
  map Console
      (notify_error (host_env h)
         (lit "Could not start HTTP server on port " ++ str_of_Z current_port
          ++ lit ": " ++ err))
  ++ (if contains (lit "Address already in use") err
         && truthy (Some (PID_FILE st)) && path_exists st (PID_FILE st)
      then [Console (Print Stderr
                       (lit "Hint: Check PID file " ++ PID_FILE st
                        ++ lit " or if another process is using port "
                        ++ str_of_Z current_port ++ lit "."))]
      else []).

(** [main], with the accept loop as one step that ends the way the host
    says.  Signals are not delivered in this model. *)
Definition main (h : host) (argv : list text) (st0 : proc)
  : outcome unit * proc * list step :=
  match parse_port argv with
  | Returns current_port =>
    match pre_flight_checks h with
    | (Returns _, checks) =>
      match check_and_exit_if_already_running (host_os h) current_port st0 with
      | (Returns _, st) =>
        let started :=
          map Console checks
          ++ [Signal (lit "SIGINT"); Signal (lit "SIGTERM"); Bind current_port] in
        match bind_error h current_port with
        | Some err =>
          (Exits 1, st,
           started ++ on_server_oserror h current_port st err
           ++ [listener_stopped])
        | None =>
          let serving :=
            started
            ++ map Console (notify_info (host_env h)
                              (lit "GitHub Listener (HTTP) started"))
            ++ [ServeForever] in
          match serve_forever h with
          | Shutdown =>
            (Returns tt, st, serving ++ [ServerClose; listener_stopped])
          | ServeOSError err =>
            (Exits 1, st,
             serving ++ on_server_oserror h current_port st err
             ++ [ServerClose; listener_stopped])
          | ServeError err =>
            (Exits 1, st,
             serving
             ++ map Console
                  (notify_error (host_env h)
                     (lit "An unexpected error occurred with the HTTP server: "
                      ++ err))
             ++ [ServerClose; listener_stopped])
          end
        end
      | (Exits c, st) => (Exits c, st, map Console checks)
      | (Raises ex, st) => (Raises ex, st, map Console checks)
      end
    | (Exits c, checks) => (Exits c, st0, map Console checks)
    | (Raises ex, checks) => (Raises ex, st0, map Console checks)
    end
  | Exits c => (Exits c, st0, [])
  | Raises ex => (Raises ex, st0, [])
  end.

(** The exit status of the interpreter. *)
Definition exit_status (o : outcome unit) : Z :=
  match o with
  | Returns _ => 0
  | Exits c => c
  | Raises _ => 1
  end.

(** The whole run: [main], then the exit hook registered with [atexit]. *)
Definition run_program (h : host) (argv : list text) (st0 : proc)
  : Z * proc * list step :=
  let '(o, st, steps) := main h argv st0 in
  (exit_status o, snd (cleanup_pid_file (host_os h) st), steps).

(** ** More statements about a request *)

(** The request passes validation and [mkdtemp] creates [d] for it. *)
Definition directory_created (e : env) (req : request) (d : text) : Prop :=
  github_url req <> []
  /\ url_accepted (github_url req) = true
  /\ exists name,
      mkdtemp_name e (repo_name_of (github_url req) ++ lit "_") = inr name
      /\ d = CLONE_BASE_DIR e ++ lit "/"
              ++ (repo_name_of (github_url req) ++ lit "_") ++ name.

(** [open_editor] reports success. *)
Definition editor_opens (e : env) (d : text) : Prop :=
  forall st, fst (open_editor e d st) = inr true.

(** The editor was started on [d]: a detached [Popen] of the resolved
    command with the directory. *)
Definition editor_started (e : env) (d : text) (tr : list event) : Prop :=
  In (Popen [default [] (which e (lit "code")); d] true) tr.

(** ** More example machines *)

(** [env_desktop] with git installed as well. *)
Definition env_workstation : env :=
  {| which := fun n =>
       if text_eqb n (lit "git") then Some (lit "/usr/bin/git")
       else which env_desktop n;
     spawn_error := spawn_error env_desktop;
     CLONE_BASE_DIR := CLONE_BASE_DIR env_desktop;
     mkdtemp_name := mkdtemp_name env_desktop;
     git_clone := git_clone env_desktop;
     rmtree_ok := rmtree_ok env_desktop |}.

(** A workstation on which the port is free and the daemon is eventually
    shut down. *)
Definition host_workstation : host :=
  {| host_env := env_workstation;
     host_os := os_session;
     isdir := fun _ => true;
     access_w := fun _ => inr true;
     bind_error := fun _ => None;
     serve_forever := Shutdown |}.

(** The same workstation while another program listens on the port. *)
Definition host_port_taken : host :=
  {| host_env := env_workstation;
     host_os := os_session;
     isdir := isdir host_workstation;
     access_w := access_w host_workstation;
     bind_error := fun _ => Some (lit "[Errno 98] Address already in use");
     serve_forever := Shutdown |}.

(** The desktop of the examples above, which has no git. *)
Definition host_without_git : host :=
  {| host_env := env_desktop;
     host_os := os_session;
     isdir := isdir host_workstation;
     access_w := access_w host_workstation;
     bind_error := bind_error host_workstation;
     serve_forever := Shutdown |}.

(** A process that has not run the check yet and finds no marker. *)
Definition no_marker : proc :=
  {| PID_FILE := []; files := ∅; stderr := [] |}.

(** The same with a marker for port 45678 holding the text [t]. *)
Definition marker_holding (t : text) : proc :=
  {| PID_FILE := [];
     files := {[PID_FILE_TEMPLATE 45678 := Content t]};
     stderr := [] |}.

(** The desktop with git uninstalled after start-up: starting it raises. *)
Definition env_git_missing : env :=
  {| which := which env_desktop;
     spawn_error := spawn_error env_desktop;
     CLONE_BASE_DIR := CLONE_BASE_DIR env_desktop;
     mkdtemp_name := mkdtemp_name env_desktop;
     git_clone := fun _ _ =>
       GitSpawnError (lit "[Errno 2] No such file or directory: 'git'");
     rmtree_ok := rmtree_ok env_desktop |}.

(** * The model on concrete inputs *)

Section Examples.

Example decode_ignore_examples :
  utf8_decode_ignore (blit "a b") = lit "a b"
  /\ decode_ignore [0xE0; 0x41] = [0x41]
  /\ decode_ignore [0xE0; 0xA0] = []
  /\ decode_ignore [0xED; 0xA0; 0x80; 0x41] = [0x41]
  /\ decode_ignore [0xF0; 0x90; 0x41] = [0x41]
  /\ decode_ignore [0xE1; 0x80; 0xE1; 0x80; 0x80] = [0x1000]
  /\ decode_ignore [0xF0; 0x9F; 0x98; 0x80] = [0x1F600]
  /\ decode_ignore [0xF4; 0x90; 0x80; 0x80] = []
  /\ decode_ignore [0xC0; 0x80] = []
  /\ decode_ignore [0x61; 0xFF; 0x62] = [0x61; 0x62].
Proof. repeat split; vm_compute; reflexivity. Qed.

Example utf8_encode_examples :
  utf8_encode [0x1F600] = Some [xf0; x9f; x98; x80]
  /\ utf8_encode [0xE9] = Some [xc3; xa9]
  /\ utf8_encode [0xDCFF] = None.
Proof. repeat split; vm_compute; reflexivity. Qed.

Example strip_examples :
  strip (lit "  a b ") = lit "a b"
  /\ strip [0x1C; 0x1F; 0x20; 0x61; 0x20; 0x85; 0x3000] = [0x61]
  /\ strip [0x0A; 0x09] = [].
Proof. repeat split; vm_compute; reflexivity. Qed.

Example py_int_examples :
  map py_int [lit "-1"; lit " 12 "; lit "+5"; lit "1_000"; lit "007";
              [0xA0; 53]; [53; 0x85]; lit "-0"]
  = [Some (-1); Some 12; Some 5; Some 1000; Some 7; Some 5; Some 5; Some 0]
  /\ map py_int [[]; lit "-"; lit "1__0"; lit "_1"; lit "- 1"; lit "1_";
                 lit "+-1"; lit "0x10"; lit "1e3"; [0x1C; 53]]
     = [None; None; None; None; None; None; None; None; None; None].
Proof. split; vm_compute; reflexivity. Qed.

Example str_of_Z_examples :
  map str_of_Z [0; 7; 10; 4242; -15; 45678]
  = [lit "0"; lit "7"; lit "10"; lit "4242"; lit "-15"; lit "45678"].
Proof. vm_compute. reflexivity. Qed.

Example url_accepted_examples :
  map (fun u => url_accepted (lit u))
      ["https://github.com/a/b"; "git://github.com/a/b.git";
       "git@github.com:a/b.git"; "https://github.com/a/b/c";
       "https://github.com/a/b/"; "https://github.com/a/.git"]%string
  = [true; true; true; true; true; true]
  /\ map (fun u => url_accepted (lit u))
         ["git@github.com:a/b"; "https://github.com//";
          "http://github.com/a/b"; "https://gitlab.com/a/b"; "not-a-url";
          "https://github.com/a"]%string
     = [false; false; false; false; false; false].
Proof. split; vm_compute; reflexivity. Qed.

Example repo_name_of_examples :
  map (fun u => repo_name_of (lit u))
      ["https://github.com/a/b"; "git://github.com/a/b.git";
       "https://github.com/a/b/c"; "https://github.com/a/b/";
       "https://github.com/a/.git"]%string
  = [lit "b"; lit "b"; lit "c"; lit "repository"; lit ".git"].
Proof. vm_compute. reflexivity. Qed.

(** POST https://github.com/acme/widgets with everything working: 200, and
    the body names the repository and the directory. *)
Example post_widgets :
  response_status_code (handle env_desktop (post widgets_url) ∅) = 200
  /\ response_body_str (handle env_desktop (post widgets_url) ∅)
     = lit "Success: Cloned 'widgets' and opened in VS Code at '/home/u/Desktop/widgets_k3x9_a0b'."
  /\ elements (dirs (handle env_desktop (post widgets_url) ∅)) = [widgets_dir].
Proof. repeat split; vm_compute; reflexivity. Qed.

Example post_not_a_url :
  response_status_code (handle env_desktop (post "not-a-url") ∅) = 400
  /\ response_body_str (handle env_desktop (post "not-a-url") ∅)
     = lit "Error: Invalid GitHub URL: 'not-a-url'.".
Proof. split; vm_compute; reflexivity. Qed.

(** The repository does not exist: 500 with git's message, and the
    directory is removed. *)
Example post_clone_failure :
  response_status_code (handle env_git_fails (post widgets_url) ∅) = 500
  /\ response_body_str (handle env_git_fails (post widgets_url) ∅)
     = lit "Error: Failed to clone 'https://github.com/acme/widgets'. Git output: fatal: repository not found"
  /\ elements (dirs (handle env_git_fails (post widgets_url) ∅)) = [].
Proof. repeat split; vm_compute; reflexivity. Qed.

(** The disk is full: [mkdtemp] raises, the answer is 500 and carries the
    message of the exception. *)
Example post_disk_full :
  response_status_code (handle env_disk_full (post widgets_url) ∅) = 500
  /\ response_body_str (handle env_disk_full (post widgets_url) ∅)
     = lit "An unexpected error occurred: [Errno 28] No space left on device"
  /\ clone_target_dir (handle env_disk_full (post widgets_url) ∅) = None.
Proof. repeat split; vm_compute; reflexivity. Qed.

End Examples.

(** * Properties of the text functions *)

Section TextFacts.

Lemma strip_prefix_app (p s s' : text) :
  strip_prefix p s = Some s' -> s = p ++ s'.
Proof.
  revert s. induction p as [|a p IH]; intros s H; simpl in H.
  - injection H as ->. reflexivity.
  - destruct s as [|b s]; [discriminate|].
    destruct (Z.eqb_spec a b) as [->|]; [|discriminate].
    simpl. f_equal. auto.
Qed.

Lemma lstrip_suffix (t : text) : exists w, t = w ++ lstrip t.
Proof.
  induction t as [|c t [w Hw]]; simpl.
  - exists []. reflexivity.
  - destruct (is_space c).
    + exists (c :: w). simpl. congruence.
    + exists []. reflexivity.
Qed.

Lemma lstrip_head (t : text) (c : Z) (r : text) :
  lstrip t = c :: r -> is_space c = false.
Proof.
  induction t as [|a t IH]; simpl; [discriminate|].
  destruct (is_space a) eqn:E; [exact IH|].
  intros H. injection H as -> _. exact E.
Qed.

(** A stripped text does not end in whitespace; in particular not in a
    newline. *)
Lemma strip_last (t w : text) (c : Z) :
  strip t = w ++ [c] -> is_space c = false.
Proof.
  unfold strip, rstrip. intros H.
  apply (f_equal (@rev Z)) in H.
  rewrite rev_involutive, rev_app_distr in H. simpl in H.
  eapply lstrip_head. exact H.
Qed.

Lemma Forall_lstrip (P : Z -> Prop) (t : text) :
  Forall P t -> Forall P (lstrip t).
Proof.
  induction 1 as [|c t Hc Ht IH]; simpl; [constructor|].
  destruct (is_space c); [exact IH|]. constructor; assumption.
Qed.

Lemma Forall_strip (P : Z -> Prop) (t : text) :
  Forall P t -> Forall P (strip t).
Proof.
  intros H. unfold strip, rstrip.
  apply Forall_rev, Forall_lstrip, Forall_rev, Forall_lstrip, H.
Qed.

End TextFacts.

Ltac zbool :=
  repeat match goal with
  | H : (_ && _) = true |- _ => apply andb_true_iff in H; destruct H
  | H : (_ <=? _) = true |- _ => apply Z.leb_le in H
  | H : (_ <=? _) = false |- _ => apply Z.leb_gt in H
  | H : (_ <? _) = true |- _ => apply Z.ltb_lt in H
  | H : (_ <? _) = false |- _ => apply Z.ltb_ge in H
  | H : (_ =? _) = true |- _ => apply Z.eqb_eq in H
  | H : (_ =? _) = false |- _ => apply Z.eqb_neq in H
  end.

(** * [int(str(n))] is [n] *)

Section Decimal.

Lemma int_digits_all (t : text) (acc : Z) :
  Forall (fun c => is_digit c = true) t ->
  int_digits t acc = Some (fold_left digit_step t acc).
Proof.
  intros H. revert acc. induction H as [|c t Hc _ IH]; intros acc; simpl.
  - reflexivity.
  - rewrite Hc. apply IH.
Qed.

Lemma digits_of_S (f : nat) (n : Z) (acc : text) :
  digits_of (S f) n acc
  = if n <? 10 then (48 + n mod 10) :: acc
    else digits_of f (n / 10) ((48 + n mod 10) :: acc).
Proof. reflexivity. Qed.

Lemma digits_of_spec (f : nat) :
  forall (n : Z) (acc : text),
    0 <= n < 10 ^ Z.of_nat (S f) ->
    exists l, digits_of (S f) n acc = l ++ acc
              /\ l <> []
              /\ Forall (fun c => is_digit c = true) l
              /\ fold_left digit_step l 0 = n.
Proof.
  induction f as [|f IH]; intros n acc Hn; rewrite digits_of_S.
  - change (10 ^ Z.of_nat 1) with 10 in Hn.
    destruct (Z.ltb_spec n 10); [|lia].
    exists [48 + n mod 10]. repeat split; [discriminate| |].
    + repeat constructor. unfold is_digit.
      rewrite Z.mod_small by lia. apply andb_true_iff.
      split; [apply Z.leb_le|apply Z.leb_le]; lia.
    + cbn. unfold digit_step. rewrite Z.mod_small by lia. lia.
  - destruct (Z.ltb_spec n 10).
    + exists [48 + n mod 10]. repeat split; [discriminate| |].
      * repeat constructor. unfold is_digit.
        rewrite Z.mod_small by lia. apply andb_true_iff.
        split; [apply Z.leb_le|apply Z.leb_le]; lia.
      * cbn. unfold digit_step. rewrite Z.mod_small by lia. lia.
    + assert (Hdiv : 0 <= n / 10 < 10 ^ Z.of_nat (S f)).
      { split; [apply Z.div_pos; lia|].
        apply Z.div_lt_upper_bound; [lia|].
        replace (Z.of_nat (S (S f))) with (Z.succ (Z.of_nat (S f))) in Hn
          by lia.
        rewrite Z.pow_succ_r in Hn by lia. lia. }
      destruct (IH (n / 10) ((48 + n mod 10) :: acc) Hdiv)
        as (l & -> & Hl & Hd & Hv).
      exists (l ++ [48 + n mod 10]). rewrite <- app_assoc.
      repeat split; [destruct l; discriminate| |].
      * apply Forall_app. split; [exact Hd|].
        repeat constructor. unfold is_digit.
        pose proof (Z.mod_pos_bound n 10 ltac:(lia)).
        apply andb_true_iff. split; apply Z.leb_le; lia.
      * rewrite fold_left_app, Hv. cbn. unfold digit_step.
        pose proof (Z.div_mod n 10 ltac:(lia)). lia.
Qed.

Lemma decimal_fuel (n : Z) :
  0 <= n -> 0 <= n < 10 ^ Z.of_nat (S (Z.to_nat (Z.log2 n))).
Proof.
  intros Hn. split; [exact Hn|].
  destruct (Z.eq_dec n 0) as [->|Hne]; [reflexivity|].
  pose proof (Z.log2_nonneg n) as Hl.
  destruct (Z.log2_spec n ltac:(lia)) as [_ Hup].
  replace (Z.of_nat (S (Z.to_nat (Z.log2 n)))) with (Z.succ (Z.log2 n))
    by lia.
  eapply Z.lt_le_trans; [exact Hup|].
  apply Z.pow_le_mono_l. lia.
Qed.

Lemma digit_not_space (c : Z) :
  is_digit c = true -> is_int_space c = false /\ is_space c = false.
Proof.
  unfold is_digit, is_int_space, is_space. intros H. zbool.
  repeat match goal with
  | |- context [?a <=? ?b] => destruct (Z.leb_spec a b); try lia
  | |- context [?a <? ?b] => destruct (Z.ltb_spec a b); try lia
  | |- context [?a =? ?b] => destruct (Z.eqb_spec a b); try lia
  end; split; reflexivity.
Qed.

Lemma int_lstrip_id (t : text) :
  Forall (fun c => is_int_space c = false) t ->
  rev (int_lstrip (rev (int_lstrip t))) = t.
Proof.
  intros H.
  assert (Hl : forall l, Forall (fun c => is_int_space c = false) l ->
                         int_lstrip l = l).
  { intros l Hf. destruct Hf as [|c l Hc _]; [reflexivity|].
    simpl. rewrite Hc. reflexivity. }
  rewrite (Hl t H), (Hl (rev t)) by (apply Forall_rev, H).
  apply rev_involutive.
Qed.

Lemma strip_id (t : text) :
  Forall (fun c => is_space c = false) t -> strip t = t.
Proof.
  intros H.
  assert (Hl : forall l, Forall (fun c => is_space c = false) l ->
                         lstrip l = l).
  { intros l Hf. destruct Hf as [|c l Hc _]; [reflexivity|].
    simpl. rewrite Hc. reflexivity. }
  unfold strip, rstrip.
  rewrite (Hl t H), (Hl (rev t)) by (apply Forall_rev, H).
  apply rev_involutive.
Qed.

Lemma int_unsigned_digits (l : text) :
  l <> [] -> Forall (fun c => is_digit c = true) l ->
  int_unsigned l = Some (fold_left digit_step l 0).
Proof.
  intros Hne H. destruct H as [|c t Hc Ht]; [congruence|].
  cbn [int_unsigned]. rewrite Hc, (int_digits_all t _ Ht). reflexivity.
Qed.

Lemma py_int_digits (l : text) :
  l <> [] -> Forall (fun c => is_digit c = true) l ->
  py_int l = Some (fold_left digit_step l 0)
  /\ py_int (45 :: l) = Some (- fold_left digit_step l 0).
Proof.
  intros Hne H.
  assert (Hs : Forall (fun c => is_int_space c = false) l).
  { eapply Forall_impl; [exact H|]. intros c Hc. apply digit_not_space, Hc. }
  unfold py_int. split.
  - rewrite (int_lstrip_id l Hs).
    pose proof (int_unsigned_digits l Hne H) as Hu.
    destruct l as [|c t]; [congruence|].
    apply Forall_cons_1 in H as [Hc _].
    unfold is_digit in Hc. zbool.
    destruct (Z.eq_dec c 45) as [->|]; [lia|].
    destruct (Z.eq_dec c 43) as [->|]; [lia|].
    destruct c as [|q|q]; try lia.
    do 6 (destruct q as [q|q|]; try lia; try exact Hu).
  - rewrite (int_lstrip_id (45 :: l)) by (constructor; [reflexivity|exact Hs]).
    rewrite (int_unsigned_digits l Hne H). reflexivity.
Qed.

(** The decimal rendering of an integer reads back as that integer, and
    [strip] leaves it alone. *)
Lemma py_int_str_of_Z (n : Z) :
  py_int (str_of_Z n) = Some n /\ strip (str_of_Z n) = str_of_Z n.
Proof.
  unfold str_of_Z. destruct (Z.ltb_spec n 0) as [Hneg|Hpos].
  - destruct (digits_of_spec _ (- n) [] (decimal_fuel (- n) ltac:(lia)))
      as (l & -> & Hne & Hd & Hv).
    rewrite app_nil_r. split.
    + rewrite (proj2 (py_int_digits l Hne Hd)), Hv. f_equal. lia.
    + apply strip_id. constructor; [reflexivity|].
      eapply Forall_impl; [exact Hd|]. intros c Hc. apply digit_not_space, Hc.
  - destruct (digits_of_spec _ n [] (decimal_fuel n Hpos))
      as (l & -> & Hne & Hd & Hv).
    rewrite app_nil_r. split.
    + rewrite (proj1 (py_int_digits l Hne Hd)), Hv. reflexivity.
    + apply strip_id.
      eapply Forall_impl; [exact Hd|]. intros c Hc. apply digit_not_space, Hc.
Qed.

End Decimal.

(** * Properties of the matcher *)

Section Matcher.

Variable n : nat.

Lemma plus_greedy_sound (k : cls) (s : text) (g : gmap nat text) (K : cont)
    (x : gmap nat text) :
  plus_greedy k s g K = Some x ->
  exists s', consumes n (Plus k) s s' /\ K s' g = Some x.
Proof.
  revert x. induction s as [|c s IH]; intros x H; simpl in H; [discriminate|].
  destruct (in_cls k c) eqn:Hc; [|discriminate].
  destruct (plus_greedy k s g K) as [y|] eqn:E.
  - injection H as ->. destruct (IH x eq_refl) as (s' & (w & Hw & HF & ->) & HK).
    exists s'. split; [|exact HK].
    exists (c :: w). repeat split; [discriminate|constructor; assumption].
  - exists s. split; [|exact H].
    exists [c]. repeat split; [discriminate|repeat constructor; assumption].
Qed.

Lemma plus_lazy_sound (k : cls) (s : text) (g : gmap nat text) (K : cont)
    (x : gmap nat text) :
  plus_lazy k s g K = Some x ->
  exists s', consumes n (PlusLazy k) s s' /\ K s' g = Some x.
Proof.
  revert x. induction s as [|c s IH]; intros x H; simpl in H; [discriminate|].
  destruct (in_cls k c) eqn:Hc; [|discriminate].
  destruct (K s g) as [y|] eqn:E.
  - injection H as ->. exists s. split; [|exact E].
    exists [c]. repeat split; [discriminate|repeat constructor; assumption].
  - destruct (IH x H) as (s' & (w & Hw & HF & ->) & HK).
    exists s'. split; [|exact HK].
    exists (c :: w). repeat split; [discriminate|constructor; assumption].
Qed.

(** Soundness: a successful run consumed what the pattern denotes, then
    the continuation succeeded on the rest. *)
Lemma run_sound (r : regex) :
  forall (s : text) (g : gmap nat text) (K : cont) (x : gmap nat text),
    run n r s g K = Some x ->
    exists s' g', consumes n r s s' /\ K s' g' = Some x.
Proof.
  induction r as [l| | |r1 IH1 r2 IH2|r1 IH1 r2 IH2|k|k|r1 IH1|i r1 IH1];
    intros s g K x H; simpl in H.
  - destruct (strip_prefix l s) as [s'|] eqn:E; [|discriminate].
    exists s', g. split; [|exact H]. simpl. apply strip_prefix_app, E.
  - destruct (Nat.eqb_spec (length s) n); [|discriminate].
    exists s, g. simpl. auto.
  - destruct (at_end s) eqn:E; [|discriminate].
    exists s, g. simpl. repeat split; [|exact H].
    destruct s as [|c [|? ?]]; simpl in E; [auto| |discriminate].
    apply Z.eqb_eq in E. subst. auto.
  - destruct (run n r1 s g K) as [y|] eqn:E.
    + injection H as ->. destruct (IH1 _ _ _ _ E) as (s' & g' & ? & ?).
      exists s', g'. simpl. auto.
    + destruct (IH2 _ _ _ _ H) as (s' & g' & ? & ?).
      exists s', g'. simpl. auto.
  - destruct (IH1 _ _ _ _ H) as (m & g1 & H1 & H2).
    destruct (IH2 _ _ _ _ H2) as (s' & g' & H3 & H4).
    exists s', g'. simpl. eauto.
  - destruct (plus_greedy_sound _ _ _ _ _ H) as (s' & ? & ?). eauto.
  - destruct (plus_lazy_sound _ _ _ _ _ H) as (s' & ? & ?). eauto.
  - destruct (run n r1 s g K) as [y|] eqn:E.
    + injection H as ->. destruct (IH1 _ _ _ _ E) as (s' & g' & ? & ?).
      exists s', g'. simpl. auto.
    + exists s, g. simpl. auto.
  - destruct (IH1 _ _ _ _ H) as (s' & g' & H1 & H2).
    exists s', (<[i := take (length s - length s') s]> g'). simpl. auto.
Qed.

Lemma strip_prefix_complete (p s : text) : strip_prefix p (p ++ s) = Some s.
Proof.
  induction p as [|a p IH]; simpl; [reflexivity|].
  rewrite Z.eqb_refl. exact IH.
Qed.

Lemma plus_greedy_complete (k : cls) (w s' : text) (g : gmap nat text)
    (K : cont) :
  w <> [] -> Forall (fun c => in_cls k c = true) w ->
  (forall g', is_Some (K s' g')) ->
  is_Some (plus_greedy k (w ++ s') g K).
Proof.
  intros Hw Hall HK. induction Hall as [|c w Hc Hall IH]; [congruence|].
  simpl. rewrite Hc.
  destruct w as [|c' w'].
  - simpl. destruct (plus_greedy k s' g K); [eauto|apply HK].
  - destruct IH as [x Hx]; [discriminate|]. rewrite Hx. eauto.
Qed.

Lemma plus_lazy_complete (k : cls) (w s' : text) (g : gmap nat text)
    (K : cont) :
  w <> [] -> Forall (fun c => in_cls k c = true) w ->
  (forall g', is_Some (K s' g')) ->
  is_Some (plus_lazy k (w ++ s') g K).
Proof.
  intros Hw Hall HK. induction Hall as [|c w Hc Hall IH]; [congruence|].
  simpl. rewrite Hc.
  destruct (K (w ++ s') g) as [x|] eqn:E; [eauto|].
  destruct w as [|c' w'].
  - simpl in E. destruct (HK g) as [x Hx]. congruence.
  - apply IH. discriminate.
Qed.

(** Completeness: when the pattern can consume a prefix and the
    continuation accepts whatever is left, the run succeeds. *)
Lemma run_complete (r : regex) :
  forall (s s' : text) (g : gmap nat text) (K : cont),
    consumes n r s s' ->
    (forall g', is_Some (K s' g')) ->
    is_Some (run n r s g K).
Proof.
  induction r as [l| | |r1 IH1 r2 IH2|r1 IH1 r2 IH2|k|k|r1 IH1|i r1 IH1];
    intros s s' g K Hc HK; simpl in Hc; simpl.
  - subst s. rewrite strip_prefix_complete. apply HK.
  - destruct Hc as [-> Hn]. rewrite (proj2 (Nat.eqb_eq _ _) Hn). apply HK.
  - destruct Hc as [-> [->| ->]]; simpl; apply HK.
  - destruct (run n r1 s g K) as [x|] eqn:E; [eauto|].
    destruct Hc as [Hc|Hc]; [|eapply IH2; eauto].
    destruct (IH1 _ _ g K Hc HK) as [x Hx]. congruence.
  - destruct Hc as (m & H1 & H2).
    eapply IH1; [exact H1|]. intros g'. eapply IH2; eauto.
  - destruct Hc as (w & Hw & Hall & ->). apply plus_greedy_complete; auto.
  - destruct Hc as (w & Hw & Hall & ->). apply plus_lazy_complete; auto.
  - destruct (run n r1 s g K) as [x|] eqn:E; [eauto|].
    destruct Hc as [Hc| ->]; [|apply HK].
    destruct (IH1 _ _ g K Hc HK) as [x Hx]. congruence.
  - eapply IH1; [exact Hc|]. intros g'. apply HK.
Qed.

End Matcher.

Section UrlShapes.

Lemma dot_one_line (w : text) :
  w <> [] ->
  Forall (fun c => in_cls Dot c = true) w <-> Forall (fun c => c <> 10) w.
Proof.
  intros _. split; intros H; (eapply Forall_impl; [exact H|]);
    intros c; cbn [in_cls]; rewrite negb_true_iff; apply Z.eqb_neq.
Qed.

Lemma one_line_dot (w : text) :
  one_line w <-> w <> [] /\ Forall (fun c => in_cls Dot c = true) w.
Proof.
  unfold one_line. split; intros [Hne H]; (split; [exact Hne|]);
    apply (dot_one_line w Hne); exact H.
Qed.

Lemma re_match_sound (r : regex) (u : text) (g : gmap nat text) :
  re_match r u = Some g -> exists s', consumes (length u) r u s'.
Proof.
  unfold re_match. intros H.
  destruct (run_sound _ _ _ _ _ _ H) as (s' & _ & Hc & _). eauto.
Qed.

Lemma https_re_shape (u : text) (g : gmap nat text) :
  re_match URL_HTTPS_RE u = Some g ->
  (forall w, u <> w ++ [10]) ->
  url_shape (lit "https://github.com/") false u
  \/ url_shape (lit "git://github.com/") false u.
Proof.
  intros H Hnl. apply re_match_sound in H as [s' H].
  unfold URL_HTTPS_RE in H. cbn [consumes] in H.
  destruct H as (m1 & [-> _] & m2 & Hscheme & m3 & -> & m4
                 & (w1 & Hw1 & Hl1 & ->) & m5 & -> & m6
                 & (w2 & Hw2 & Hl2 & ->) & m7 & Hgit & -> & Hend).
  assert (Hm7 : m7 = []).
  { destruct Hend as [Hend|Hend]; [exact Hend|exfalso]. subst m7.
    destruct Hgit as [Hgit|Hgit], Hscheme as [Hs|Hs]; subst;
      eapply Hnl; rewrite ?app_assoc; reflexivity. }
  subst m7.
  assert (Hshape : forall prefix,
            u = prefix ++ w1 ++ lit "/" ++ w2 ++ m6 ->
            url_shape prefix false u).
  { intros prefix ->. exists w1, w2.
    split; [apply one_line_dot; auto|split; [apply one_line_dot; auto|]].
    destruct Hgit as [Hgit|Hgit]; subst m6;
      [left|right; split; [reflexivity|]]; rewrite ?app_nil_r; reflexivity. }
  destruct Hscheme as [Hs|Hs]; [left|right]; apply Hshape;
    rewrite Hs; reflexivity.
Qed.

Lemma ssh_re_shape (u : text) (g : gmap nat text) :
  re_match URL_SSH_RE u = Some g ->
  (forall w, u <> w ++ [10]) ->
  url_shape (lit "git@github.com:") true u.
Proof.
  intros H Hnl. apply re_match_sound in H as [s' H].
  unfold URL_SSH_RE in H. cbn [consumes] in H.
  destruct H as (m1 & [-> _] & m2 & -> & m3 & (w1 & Hw1 & Hl1 & ->)
                 & m4 & -> & m5 & (w2 & Hw2 & Hl2 & ->) & m6 & -> & -> & Hend).
  destruct Hend as [->| ->].
  - exists w1, w2.
    split; [apply one_line_dot; auto|split; [apply one_line_dot; auto|left]].
    rewrite app_nil_r. reflexivity.
  - exfalso.
    apply (Hnl (lit "git@github.com:" ++ w1 ++ lit "/" ++ w2 ++ lit ".git")).
    rewrite <- !app_assoc. reflexivity.
Qed.

(** Every URL the handler lets through has one of the accepted shapes. *)
Lemma url_accepted_shape (u : text) :
  url_accepted u = true -> (forall w, u <> w ++ [10]) -> accepted_shape u.
Proof.
  unfold url_accepted. intros H Hnl.
  apply orb_true_iff in H as [H|H]; apply bool_decide_eq_true in H as [g Hg].
  - destruct (https_re_shape _ _ Hg Hnl); [left|right; left]; assumption.
  - right; right. eapply ssh_re_shape; eassumption.
Qed.

Lemma re_match_complete (r : regex) (u : text) :
  consumes (length u) r u [] -> is_Some (re_match r u).
Proof.
  intros H. unfold re_match. eapply run_complete; [exact H|].
  intros g'. unfold accept. eauto.
Qed.

Lemma https_shape_accepted (scheme u : text) :
  scheme = lit "https" \/ scheme = lit "git" ->
  url_shape (scheme ++ lit "://github.com/") false u ->
  is_Some (re_match URL_HTTPS_RE u).
Proof.
  intros Hs (owner & repo & Howner & Hrepo & Hu).
  apply one_line_dot in Howner as [Ho Hlo].
  apply one_line_dot in Hrepo as [Hr Hlr].
  apply re_match_complete. unfold URL_HTTPS_RE. cbn [consumes].
  exists u. split; [auto|].
  assert (Hu' : exists tail, (tail = lit ".git" \/ tail = [])
              /\ u = scheme ++ lit "://github.com/" ++ owner ++ lit "/"
                      ++ repo ++ tail).
  { destruct Hu as [->|[_ ->]]; [exists (lit ".git")|exists []];
      (split; [auto|]); rewrite <- ?app_assoc, ?app_nil_r; reflexivity. }
  destruct Hu' as (tail & Htail & ->).
  eexists. split; [destruct Hs as [->| ->]; [left|right]; reflexivity|].
  eexists. split; [reflexivity|].
  eexists. split; [exists owner; eauto|].
  eexists. split; [reflexivity|].
  eexists. split; [exists repo; eauto|].
  exists []. split; [|auto].
  destruct Htail as [->| ->]; [left|right]; reflexivity.
Qed.

Lemma ssh_shape_accepted (u : text) :
  url_shape (lit "git@github.com:") true u ->
  is_Some (re_match URL_SSH_RE u).
Proof.
  intros (owner & repo & Howner & Hrepo & Hu).
  apply one_line_dot in Howner as [Ho Hlo].
  apply one_line_dot in Hrepo as [Hr Hlr].
  destruct Hu as [->|[Hf _]]; [|discriminate Hf].
  apply re_match_complete. unfold URL_SSH_RE. cbn [consumes].
  eexists. split; [split; reflexivity|].
  eexists. split; [reflexivity|].
  eexists. split; [exists owner; eauto|].
  eexists. split; [reflexivity|].
  eexists. split; [exists repo; eauto|].
  exists []. split; [reflexivity|auto].
Qed.

(** On a text that does not end in a newline, the handler's test is the
    specification's: it lets through exactly the three shapes. *)
Lemma url_accepted_iff (u : text) :
  (forall w, u <> w ++ [10]) ->
  url_accepted u = true <-> accepted_shape u.
Proof.
  intros Hnl. split; [intros H; apply url_accepted_shape; assumption|].
  unfold url_accepted. intros [H|[H|H]]; apply orb_true_iff.
  - left. apply bool_decide_eq_true.
    apply (https_shape_accepted (lit "https")); auto.
  - left. apply bool_decide_eq_true.
    apply (https_shape_accepted (lit "git")); auto.
  - right. apply bool_decide_eq_true. apply ssh_shape_accepted, H.
Qed.

Lemma strip_no_trailing_newline (t w : text) : strip t <> w ++ [10].
Proof. intros H. apply strip_last in H. discriminate. Qed.

End UrlShapes.

(** * Texts that UTF-8 can encode *)

Section Scalars.

Lemma is_scalar_iff (c : Z) :
  is_scalar c = true <-> (0 <= c < 0xD800 \/ 0xE000 <= c <= 0x10FFFF).
Proof.
  unfold is_scalar.
  rewrite orb_true_iff, !andb_true_iff, !Z.leb_le, !Z.ltb_lt. lia.
Qed.

Lemma cp2_scalar (b0 b1 : Z) :
  0xC2 <= b0 < 0xE0 -> is_cont b1 = true -> is_scalar (cp2 b0 b1) = true.
Proof.
  unfold is_cont, cp2. intros ? H. zbool. apply is_scalar_iff. lia.
Qed.

Lemma cp3_scalar (b0 b1 b2 : Z) :
  0xE0 <= b0 < 0xF0 -> second_ok b0 b1 = true -> is_cont b2 = true ->
  is_scalar (cp3 b0 b1 b2) = true.
Proof.
  unfold second_ok, is_cont, cp3. intros ? H1 H2. apply is_scalar_iff.
  destruct (b0 =? 0xE0) eqn:E0; [zbool; lia|].
  destruct (b0 =? 0xED) eqn:E1; [zbool; lia|].
  destruct (b0 =? 0xF0) eqn:E2; [zbool; lia|].
  destruct (b0 =? 0xF4) eqn:E3; zbool; lia.
Qed.

Lemma cp4_scalar (b0 b1 b2 b3 : Z) :
  0xF0 <= b0 < 0xF5 -> second_ok b0 b1 = true -> is_cont b2 = true ->
  is_cont b3 = true -> is_scalar (cp4 b0 b1 b2 b3) = true.
Proof.
  unfold second_ok, is_cont, cp4. intros ? H1 H2 H3. apply is_scalar_iff.
  destruct (b0 =? 0xE0) eqn:E0; [zbool; lia|].
  destruct (b0 =? 0xED) eqn:E1; [zbool; lia|].
  destruct (b0 =? 0xF0) eqn:E2; [zbool; lia|].
  destruct (b0 =? 0xF4) eqn:E3; zbool; lia.
Qed.

(** The decoder only ever produces scalar values: surrogates and
    out-of-range sequences are among the ill-formed ones it drops. *)
Lemma decode_ignore_scalar (bs : list Z) :
  Forall (fun b => 0 <= b) bs -> scalar_text (decode_ignore bs).
Proof.
  remember (length bs) as k eqn:Hk. revert bs Hk.
  induction k as [k IH] using lt_wf_ind. intros bs -> Hpos.
  assert (Hrec : forall bs', (length bs' < length bs)%nat ->
                 Forall (fun b => 0 <= b) bs' -> scalar_text (decode_ignore bs'))
    by (intros bs' Hlt Hp; exact (IH _ Hlt bs' eq_refl Hp)).
  clear IH.
  destruct bs as [|b0 r]; [constructor|].
  apply Forall_cons_1 in Hpos as [Hb0 Hr]. cbn [decode_ignore].
  destruct (b0 <? 0x80) eqn:L1.
  { constructor; [apply is_scalar_iff; zbool; lia|]. apply Hrec; simpl; [lia|exact Hr]. }
  destruct (b0 <? 0xC2) eqn:L2.
  { apply Hrec; simpl; [lia|exact Hr]. }
  destruct (b0 <? 0xE0) eqn:L3.
  { destruct r as [|b1 r1]; [constructor|].
    apply Forall_cons_1 in Hr as [Hb1 Hr1].
    destruct (is_cont b1) eqn:C1.
    - constructor; [apply cp2_scalar; [zbool; lia|exact C1]|].
      apply Hrec; simpl; [lia|exact Hr1].
    - apply Hrec; simpl; [lia|constructor; assumption]. }
  destruct (b0 <? 0xF0) eqn:L4.
  { destruct r as [|b1 r1]; [constructor|].
    apply Forall_cons_1 in Hr as [Hb1 Hr1].
    destruct (second_ok b0 b1) eqn:S1;
      [|apply Hrec; simpl; [lia|constructor; assumption]].
    destruct r1 as [|b2 r2]; [constructor|].
    apply Forall_cons_1 in Hr1 as [Hb2 Hr2].
    destruct (is_cont b2) eqn:C2.
    - constructor; [apply cp3_scalar; [zbool; lia|exact S1|exact C2]|].
      apply Hrec; simpl; [lia|exact Hr2].
    - apply Hrec; simpl; [lia|constructor; assumption]. }
  destruct (b0 <? 0xF5) eqn:L5.
  { destruct r as [|b1 r1]; [constructor|].
    apply Forall_cons_1 in Hr as [Hb1 Hr1].
    destruct (second_ok b0 b1) eqn:S1;
      [|apply Hrec; simpl; [lia|constructor; assumption]].
    destruct r1 as [|b2 r2]; [constructor|].
    apply Forall_cons_1 in Hr1 as [Hb2 Hr2].
    destruct (is_cont b2) eqn:C2;
      [|apply Hrec; simpl; [lia|constructor; assumption]].
    destruct r2 as [|b3 r3]; [constructor|].
    apply Forall_cons_1 in Hr2 as [Hb3 Hr3].
    destruct (is_cont b3) eqn:C3.
    - constructor; [apply cp4_scalar; [zbool; lia|exact S1|exact C2|exact C3]|].
      apply Hrec; simpl; [lia|exact Hr3].
    - apply Hrec; simpl; [lia|constructor; assumption]. }
  apply Hrec; simpl; [lia|exact Hr].
Qed.

Lemma utf8_decode_ignore_scalar (b : bytes) : scalar_text (utf8_decode_ignore b).
Proof.
  apply decode_ignore_scalar. apply Forall_forall. intros z Hz.
  apply list_elem_of_In, in_map_iff in Hz as [y [<- _]]. unfold byte_val. lia.
Qed.

Lemma universal_newlines_scalar (t : text) :
  scalar_text t -> scalar_text (universal_newlines t).
Proof.
  remember (length t) as k eqn:Hk. revert t Hk.
  induction k as [k IH] using lt_wf_ind. intros t -> Ht.
  destruct t as [|c t']; [constructor|]. cbn [universal_newlines].
  apply Forall_cons_1 in Ht as [Hc Ht'].
  destruct (c =? 13).
  - constructor; [reflexivity|].
    destruct t' as [|c' t'']; [constructor|].
    destruct (c' =? 10).
    + apply Forall_cons_1 in Ht' as [_ Ht''].
      apply (IH (length t'')); simpl; [lia|reflexivity|exact Ht''].
    + apply (IH (length (c' :: t''))); simpl; [lia|reflexivity|exact Ht'].
  - constructor; [exact Hc|].
    apply (IH (length t')); simpl; [lia|reflexivity|exact Ht'].
Qed.

Lemma output_text_scalar (b : bytes) : scalar_text (output_text b).
Proof. apply universal_newlines_scalar, utf8_decode_ignore_scalar. Qed.

Lemma lit_scalar (s : string) : scalar_text (lit s).
Proof.
  unfold lit. apply Forall_forall. intros z Hz.
  apply list_elem_of_In, in_map_iff in Hz as [a [<- _]].
  apply is_scalar_iff. left. unfold ord.
  pose proof (N_ascii_bounded a). lia.
Qed.

(** [str.encode("utf-8")] succeeds on such texts. *)
Lemma utf8_encode_scalar (t : text) :
  scalar_text t -> exists bs, utf8_encode t = Some bs.
Proof.
  induction 1 as [|c t Hc Ht [bs IH]]; simpl.
  - eauto.
  - rewrite Hc, IH. eauto.
Qed.

End Scalars.

(** * Captured groups are pieces of the subject *)

Section Groups.

Variable P : Z -> Prop.

Lemma plus_greedy_groups (k : cls) (K : cont) :
  preserves P K -> preserves P (fun s g => plus_greedy k s g K).
Proof.
  intros HK s. induction s as [|c s IH]; intros g y Hs Hg H; simpl in H;
    [discriminate|].
  apply Forall_cons_1 in Hs as [_ Hs].
  destruct (in_cls k c); [|discriminate].
  destruct (plus_greedy k s g K) as [z|] eqn:E.
  - injection H as ->. eapply IH; eauto.
  - eapply HK; eauto.
Qed.

Lemma plus_lazy_groups (k : cls) (K : cont) :
  preserves P K -> preserves P (fun s g => plus_lazy k s g K).
Proof.
  intros HK s. induction s as [|c s IH]; intros g y Hs Hg H; simpl in H;
    [discriminate|].
  apply Forall_cons_1 in Hs as [_ Hs].
  destruct (in_cls k c); [|discriminate].
  destruct (K s g) as [z|] eqn:E.
  - injection H as ->. eapply HK; eauto.
  - eapply IH; eauto.
Qed.

Lemma run_groups (n : nat) (r : regex) :
  forall K, preserves P K -> preserves P (fun s g => run n r s g K).
Proof.
  induction r as [l| | |r1 IH1 r2 IH2|r1 IH1 r2 IH2|k|k|r1 IH1|i r1 IH1];
    intros K HK s g y Hs Hg H; simpl in H.
  - destruct (strip_prefix l s) as [s'|] eqn:E; [|discriminate].
    apply strip_prefix_app in E. subst s. apply Forall_app in Hs as [_ Hs].
    eapply HK; eauto.
  - destruct (length s =? n)%nat; [|discriminate]. eapply HK; eauto.
  - destruct (at_end s); [|discriminate]. eapply HK; eauto.
  - destruct (run n r1 s g K) as [z|] eqn:E.
    + injection H as ->. eapply IH1; eauto.
    + eapply IH2; eauto.
  - eapply (IH1 (fun s' g' => run n r2 s' g' K)); eauto.
  - eapply plus_greedy_groups; eauto.
  - eapply plus_lazy_groups; eauto.
  - destruct (run n r1 s g K) as [z|] eqn:E.
    + injection H as ->. eapply IH1; eauto.
    + eapply HK; eauto.
  - eapply (IH1 (fun s' g' =>
                   K s' (<[i := take (length s - length s') s]> g')));
      [|exact Hs|exact Hg|exact H].
    intros s' g' y' Hs' Hg' Hy. eapply HK; [exact Hs'| |exact Hy].
    apply map_Forall_insert_2; [apply Forall_take, Hs|exact Hg'].
Qed.

Lemma search_from_groups (n : nat) (r : regex) (s : text) (g : gmap nat text) :
  Forall P s -> search_from n r s = Some g -> groups_in P g.
Proof.
  induction s as [|c s IH]; intros Hs H; simpl in H.
  - destruct (run n r [] ∅ accept) as [z|] eqn:E; [|discriminate].
    injection H as ->.
    eapply (run_groups n r accept); [|exact Hs|apply map_Forall_empty|exact E].
    intros ? ? ? _ ? [= <-]. assumption.
  - destruct (run n r (c :: s) ∅ accept) as [z|] eqn:E.
    + injection H as ->.
      eapply (run_groups n r accept); [|exact Hs|apply map_Forall_empty|exact E].
      intros ? ? ? _ ? [= <-]. assumption.
    + apply Forall_cons_1 in Hs as [_ Hs]. auto.
Qed.

Lemma group_in (g : gmap nat text) (i : nat) :
  groups_in P g -> Forall P (group g i).
Proof.
  intros Hg. unfold group. destruct (g !! i) as [t|] eqn:E; simpl.
  - exact (Hg _ _ E).
  - constructor.
Qed.

End Groups.

Lemma repo_name_scalar (url : text) :
  scalar_text url -> scalar_text (repo_name_of url).
Proof.
  intros H. unfold repo_name_of, re_search.
  destruct (search_from _ _ _) as [g|] eqn:E; [|apply lit_scalar].
  apply group_in. eapply search_from_groups; eassumption.
Qed.

(** * The notifier *)

Section Notifier.

Variable e : env.

Lemma show_notification_side_channel (m title type_ : text) :
  Forall (fun ev => is_side_channel ev = true)
         (show_notification e m title type_).
Proof.
  unfold show_notification, notification_cmd.
  apply Forall_app. split.
  - destruct (truthy (which e (lit "notify-send")));
      [|destruct (truthy (which e (lit "kdialog")));
        [|destruct (truthy (which e (lit "zenity")))]];
      cbn [hd]; try constructor;
      match goal with
      | |- context [contains ?a ?b || contains ?c ?d] =>
        let v := eval vm_compute in (contains a b || contains c d) in
        change (contains a b || contains c d) with v; cbv iota
      end;
      destruct (spawn_error e _); repeat constructor.
  - destruct (text_eqb type_ (lit "error")); repeat constructor.
Qed.

Lemma editor_launch_side_channel (d : text) :
  Forall (fun ev => is_side_channel ev = true) (snd (editor_launch e d)).
Proof.
  unfold editor_launch, notify_error.
  destruct (truthy (which e (lit "code")));
    [destruct (spawn_error e _)|]; cbn [snd];
    try apply show_notification_side_channel.
  repeat constructor.
Qed.

End Notifier.

(** * The request handler *)

Section Handler.

Variable e : env.

Lemma emit_all_log (evs : list event) (st : state) :
  emit_all evs st = (inr tt, log evs st).
Proof.
  revert st. induction evs as [|ev evs IH]; intros [c b d ds tr].
  - unfold log. simpl. rewrite app_nil_r. reflexivity.
  - cbn [emit_all]. unfold bind, emit at 1.
    cbn [response_status_code response_body_str clone_target_dir dirs trace].
    rewrite IH. unfold log. simpl. rewrite <- app_assoc. reflexivity.
Qed.

Lemma show_error_log (m : text) (st : state) :
  show_error e m st
  = (inr tt, log (show_notification e m (lit "ERROR") (lit "error")) st).
Proof. apply emit_all_log. Qed.

Lemma show_info_log (m : text) (st : state) :
  show_info e m st
  = (inr tt, log (show_notification e m (lit "INFO") (lit "info")) st).
Proof. apply emit_all_log. Qed.

Lemma open_editor_log (d : text) (st : state) :
  open_editor e d st
  = (inr (fst (editor_launch e d)), log (snd (editor_launch e d)) st).
Proof.
  unfold open_editor, editor_launch, run_detached.
  destruct (truthy (which e (lit "code"))).
  - destruct (spawn_error e _) as [err|]; unfold bind.
    + rewrite show_error_log. reflexivity.
    + destruct st. reflexivity.
  - unfold bind. rewrite show_error_log. reflexivity.
Qed.

Local Opaque lit strip utf8_decode_ignore url_accepted repo_name_of
  show_notification output_text py_int str_of_Z utf8_encode.

(** The monadic [try]/[except] computes [before_finally]; no exception is
    left over. *)
Lemma try_except_eq (req : request) (ds : gset text) :
  try_except e req ds = (inr tt, before_finally e req ds).
Proof.
  unfold try_except, try_block, before_finally, github_url, body_bytes,
    content_length, notify_error, notify_info, mk_state, initial_state.
  destruct (parse_content_length (content_length_header req)) as [n w].
  cbn [fst snd].
  cbv beta iota delta [bind ret raise emit set_status set_body set_dir
                       set_dirs get rfile_read mkdtemp run_git_clone
                       on_called_process_error on_exception].
  rewrite !emit_all_log.
  cbn [log response_status_code response_body_str clone_target_dir dirs trace].
  generalize (strip (utf8_decode_ignore (take (Z.to_nat n) (rfile req)))).
  intros url.
  destruct ((n =? 0) || is_empty url).
  { rewrite show_error_log. unfold log. cbn. rewrite <- !app_assoc. reflexivity. }
  destruct (url_accepted url).
  2:{ rewrite show_error_log. unfold log. cbn. rewrite <- !app_assoc. reflexivity. }
  destruct (mkdtemp_name e _) as [err|name].
  { cbn. rewrite show_error_log. unfold log. cbn. rewrite <- !app_assoc. reflexivity. }
  cbn. rewrite show_info_log. unfold log at 1. cbn.
  destruct (git_clone e url _) as [code out err|err].
  2:{ cbn. rewrite show_error_log. unfold log. cbn. rewrite <- !app_assoc. reflexivity. }
  destruct (code =? 0).
  2:{ cbn. rewrite show_error_log. unfold log. cbn. rewrite <- !app_assoc. reflexivity. }
  cbn. rewrite open_editor_log. unfold log. cbn.
  destruct (fst (editor_launch e _)); cbn; rewrite <- !app_assoc; reflexivity.
Qed.

Lemma finally_block_eq (st : state) :
  finally_block e st = after_finally e st.
Proof.
  unfold finally_block, after_finally, cleanup_events, dirs_after_cleanup,
    rmtree_ignore_errors, send_cors_headers, response_events, head_events,
    mk_state.
  destruct st as [c b d ds tr].
  cbv beta iota delta [bind ret raise emit set_dirs get].
  cbn [response_status_code response_body_str clone_target_dir dirs trace].
  destruct (cleanup_needed _); cbn [andb].
  - destruct (rmtree_ok e _); cbn;
      destruct (utf8_encode b); cbn; rewrite <- ?app_assoc; reflexivity.
  - cbn. destruct (utf8_encode b); cbn; rewrite <- ?app_assoc, ?app_nil_r;
      reflexivity.
Qed.

(** [do_POST] in direct style. *)
Lemma do_POST_eq (req : request) (ds : gset text) :
  do_POST e req ds = after_finally e (before_finally e req ds).
Proof.
  unfold do_POST. rewrite try_except_eq, finally_block_eq.
  destruct (after_finally e _) as [[ex|[]] st]; reflexivity.
Qed.

End Handler.

(** * The state in which [finally] starts *)

Section BeforeFinally.

Variable e : env.
Variable req : request.
Variable ds : gset text.

Ltac before_cases :=
  unfold before_finally, mk_state;
  destruct ((content_length req =? 0) || is_empty (github_url req)) eqn:Hempty;
  [|destruct (url_accepted (github_url req)) eqn:Hacc;
    [destruct (mkdtemp_name e _) as [merr|name] eqn:Hmk;
     [|destruct (git_clone e _ _) as [code out err|gerr] eqn:Hgit;
       [destruct (code =? 0) eqn:Hcode;
        [destruct (fst (editor_launch e _)) eqn:Hed|]|]]|]];
  cbn [response_status_code response_body_str clone_target_dir dirs trace].

Lemma before_finally_status :
  In (response_status_code (before_finally e req ds)) [200; 400; 500].
Proof. before_cases; simpl; auto. Qed.

(** A recorded target directory is on disk and has a non-empty name. *)
Lemma before_finally_dir (d : text) :
  clone_target_dir (before_finally e req ds) = Some d ->
  d ∈ dirs (before_finally e req ds) /\ truthy (Some d) = true.
Proof.
  before_cases; intros [= <-]; (split; [set_solver|]);
    destruct (CLONE_BASE_DIR e); reflexivity.
Qed.

Lemma before_finally_no_dir :
  clone_target_dir (before_finally e req ds) = None ->
  dirs (before_finally e req ds) = ds.
Proof. before_cases; intros H; try discriminate H; reflexivity. Qed.

Lemma before_finally_rmtree_irrelevant (f : text -> bool) :
  before_finally (with_rmtree_ok f e) req ds = before_finally e req ds.
Proof. reflexivity. Qed.

Lemma pre_events_quiet (h : option text) (ev : event) :
  In ev (snd (parse_content_length h)) -> is_side_channel ev = true.
Proof.
  unfold parse_content_length. destruct (truthy h); [|intros []].
  destruct (py_int _) as [v|]; [intros []|].
  intros [<-|[]]. reflexivity.
Qed.

(** Up to [finally] the handler only reads the body, creates the
    directory, runs git, and uses the side channels. *)
Lemma before_finally_trace (ev : event) :
  In ev (trace (before_finally e req ds)) ->
  is_side_channel ev = true
  \/ ev = RfileRead (content_length req)
  \/ (is_mkdtemp ev = true /\ is_clone ev = false
      /\ url_accepted (github_url req) = true
      /\ (content_length req =? 0) || is_empty (github_url req) = false)
  \/ (is_clone ev = true /\ is_mkdtemp ev = false
      /\ url_accepted (github_url req) = true
      /\ (content_length req =? 0) || is_empty (github_url req) = false).
Proof.
  assert (Hn : forall m t ty ev', In ev' (show_notification e m t ty) ->
                                  is_side_channel ev' = true).
  { intros m t ty. apply List.Forall_forall, show_notification_side_channel. }
  assert (He : forall d ev', In ev' (snd (editor_launch e d)) ->
                             is_side_channel ev' = true).
  { intros d. apply List.Forall_forall, editor_launch_side_channel. }
  before_cases; unfold notify_error, notify_info; rewrite ?in_app_iff; cbn [In];
    intros H; decompose [or] H; clear H; subst;
    try contradiction;
    try (left; reflexivity);
    try (left; eapply pre_events_quiet; eassumption);
    try (left; eapply Hn; eassumption);
    try (left; eapply He; eassumption);
    try (right; left; reflexivity);
    try (right; right; left; repeat split; reflexivity);
    try (right; right; right; repeat split; reflexivity).
Qed.

Lemma before_finally_reads :
  List.filter is_read (trace (before_finally e req ds))
  = [RfileRead (content_length req)].
Proof.
  assert (Hq : forall l, Forall (fun ev => is_side_channel ev = true) l ->
                         List.filter is_read l = []).
  { induction 1 as [|ev l Hev _ IH]; [reflexivity|].
    simpl. rewrite IH. destruct ev; try discriminate Hev; reflexivity. }
  assert (Hpre : List.filter is_read
                   (snd (parse_content_length (content_length_header req))) = []).
  { apply Hq, List.Forall_forall. intros ev. apply pre_events_quiet. }
  pose proof (fun m t ty => Hq _ (show_notification_side_channel e m t ty)) as Hn.
  pose proof (fun d => Hq _ (editor_launch_side_channel e d)) as He.
  before_cases; unfold notify_error, notify_info;
    rewrite ?List.filter_app, ?Hpre, ?Hn, ?He; reflexivity.
Qed.

End BeforeFinally.

(** * What the handler guarantees *)

Section HandlerFacts.

Variable e : env.
Variable req : request.
Variable ds : gset text.

Lemma handle_eq :
  handle e req ds = snd (after_finally e (before_finally e req ds)).
Proof. unfold handle. rewrite do_POST_eq. reflexivity. Qed.

Lemma handle_status :
  response_status_code (handle e req ds)
  = response_status_code (before_finally e req ds).
Proof.
  rewrite handle_eq. unfold after_finally.
  destruct (utf8_encode _); reflexivity.
Qed.

Lemma handle_body :
  response_body_str (handle e req ds)
  = response_body_str (before_finally e req ds).
Proof.
  rewrite handle_eq. unfold after_finally.
  destruct (utf8_encode _); reflexivity.
Qed.

Lemma handle_dir :
  clone_target_dir (handle e req ds)
  = clone_target_dir (before_finally e req ds).
Proof.
  rewrite handle_eq. unfold after_finally.
  destruct (utf8_encode _); reflexivity.
Qed.

Lemma handle_dirs :
  dirs (handle e req ds) = dirs_after_cleanup e (before_finally e req ds).
Proof.
  rewrite handle_eq. unfold after_finally.
  destruct (utf8_encode _); reflexivity.
Qed.

(** The trace of a request: what happened before [finally], the cleanup,
    then HTTP output and a console line. *)
Lemma handle_trace :
  exists tl,
    trace (handle e req ds)
    = trace (before_finally e req ds)
      ++ cleanup_events (before_finally e req ds) ++ tl
    /\ Forall (fun ev => is_http ev = true \/ exists f m, ev = Print f m) tl.
Proof.
  rewrite handle_eq. unfold after_finally, response_events, head_events.
  destruct (utf8_encode _) as [bs|]; cbn [snd mk_state trace].
  - eexists. rewrite <- app_assoc. split; [reflexivity|].
    cbn [app].
    repeat (apply Forall_cons; split;
            [first [left; reflexivity|right; eexists _, _; reflexivity]|]).
    apply Forall_nil_2.
  - eexists. rewrite <- app_assoc. split; [reflexivity|].
    repeat (apply Forall_cons; split; [left; reflexivity|]).
    apply Forall_nil_2.
Qed.

Lemma cleanup_needed_iff (d : text) :
  clone_target_dir (before_finally e req ds) = Some d ->
  cleanup_needed (before_finally e req ds)
  = (400 <=? response_status_code (before_finally e req ds)).
Proof.
  intros Hd. destruct (before_finally_dir e req ds d Hd) as [Hin Ht].
  unfold cleanup_needed. rewrite Hd. cbn [from_option id]. rewrite Ht.
  rewrite bool_decide_eq_true_2 by exact Hin.
  rewrite !andb_true_r. reflexivity.
Qed.

(** A request that fails validation: status 400, nothing created, git not
    run. *)
Lemma rejected_outcome :
  (content_length req =? 0) || is_empty (github_url req) = true
  \/ url_accepted (github_url req) = false ->
  response_status_code (handle e req ds) = 400
  /\ clone_target_dir (handle e req ds) = None
  /\ dirs (handle e req ds) = ds
  /\ Forall (fun ev => is_clone ev = false /\ is_mkdtemp ev = false)
            (trace (handle e req ds)).
Proof.
  intros Hrej.
  assert (Hst : response_status_code (before_finally e req ds) = 400
                /\ clone_target_dir (before_finally e req ds) = None).
  { unfold before_finally, mk_state.
    destruct ((content_length req =? 0) || is_empty (github_url req)) eqn:E1;
      [split; reflexivity|].
    destruct Hrej as [?|Hacc]; [discriminate|]. rewrite Hacc.
    split; reflexivity. }
  destruct Hst as [Hcode Hdir].
  assert (Hclean : cleanup_needed (before_finally e req ds) = false).
  { unfold cleanup_needed. rewrite Hdir. cbn [truthy].
    rewrite andb_false_r. reflexivity. }
  rewrite handle_status, handle_dir, handle_dirs.
  unfold dirs_after_cleanup. rewrite Hclean. cbn [andb].
  repeat split; [exact Hcode|exact Hdir|
                 apply before_finally_no_dir; exact Hdir|].
  destruct handle_trace as (tl & -> & Htl).
  unfold cleanup_events. rewrite Hclean. cbn [app].
  apply Forall_app. split.
  - apply List.Forall_forall. intros ev Hev.
    apply before_finally_trace in Hev
      as [Hq|[->|[(_ & _ & Hacc & Hne)|(_ & _ & Hacc & Hne)]]].
    + destruct ev; try discriminate Hq; cbn; auto.
      cbn in Hq. apply negb_true_iff in Hq. auto.
    + auto.
    + destruct Hrej; congruence.
    + destruct Hrej; congruence.
  - eapply Forall_impl; [exact Htl|].
    intros ev [Hh|(f & m & ->)]; [|auto].
    destruct ev; try discriminate Hh; auto.
Qed.

End HandlerFacts.

(** * Claims about the POST handler *)

Section EnvironmentTexts.

Variable e : env.
Variable req : request.
Variable ds : gset text.
Hypothesis env_ok : env_texts_ok e.

Lemma github_url_scalar : scalar_text (github_url req).
Proof. apply Forall_strip, utf8_decode_ignore_scalar. Qed.

(** Every message the handler composes can be encoded. *)
Lemma before_finally_body_scalar :
  scalar_text (response_body_str (before_finally e req ds)).
Proof.
  destruct env_ok as (Hbase & Hmk & Hgit).
  pose proof github_url_scalar as Hurl.
  pose proof (repo_name_scalar _ Hurl) as Hrepo.
  pose proof lit_scalar as Hlit.
  unfold before_finally, mk_state.
  destruct ((content_length req =? 0) || is_empty (github_url req));
    [apply lit_scalar|].
  unfold scalar_text in *.
  destruct (url_accepted (github_url req)).
  2:{ cbn [response_body_str]. repeat (apply Forall_app; split); auto. }
  destruct (mkdtemp_name e _) as [merr|name] eqn:Hname.
  { cbn [response_body_str]. apply Forall_app.
    split; [apply Hlit|]. eapply Hmk; eauto. }
  assert (Forall (fun c => is_scalar c = true) name) by (eapply Hmk; eauto).
  destruct (git_clone e _ _) as [code out err|gerr] eqn:Hg.
  2:{ cbn [response_body_str]. apply Forall_app.
      split; [apply Hlit|]. eapply Hgit; eauto. }
  destruct (code =? 0).
  - destruct (fst (editor_launch e _)); cbn [response_body_str];
      repeat (apply Forall_app; split); auto.
  - cbn [response_body_str]. repeat (apply Forall_app; split); auto.
    destruct (is_empty _); apply Forall_strip, output_text_scalar.
Qed.

End EnvironmentTexts.

Section Cleanup.

Variable e : env.
Variable req : request.
Variable ds : gset text.

Lemma after_finally_rmtree_irrelevant (f : text -> bool) (st : state) :
  fst (after_finally (with_rmtree_ok f e) st) = fst (after_finally e st)
  /\ trace (snd (after_finally (with_rmtree_ok f e) st))
     = trace (snd (after_finally e st)).
Proof.
  unfold after_finally. destruct (utf8_encode _); split; reflexivity.
Qed.

(** Whatever [shutil.rmtree] does, the handler ends the same way and does
    the same things. *)
Lemma rmtree_outcome_irrelevant (f : text -> bool) :
  fst (do_POST (with_rmtree_ok f e) req ds) = fst (do_POST e req ds)
  /\ response_status_code (handle (with_rmtree_ok f e) req ds)
     = response_status_code (handle e req ds)
  /\ response_body_str (handle (with_rmtree_ok f e) req ds)
     = response_body_str (handle e req ds)
  /\ trace (handle (with_rmtree_ok f e) req ds) = trace (handle e req ds).
Proof.
  rewrite !handle_status, !handle_body, !handle_eq, !do_POST_eq.
  rewrite before_finally_rmtree_irrelevant.
  destruct (after_finally_rmtree_irrelevant f (before_finally e req ds))
    as [H1 H2].
  auto.
Qed.

(** The cleanup rule of [finally]. *)
Lemma failure_cleanup (d : text) :
  400 <= response_status_code (before_finally e req ds) ->
  clone_target_dir (before_finally e req ds) = Some d ->
  In (Rmtree d) (trace (handle e req ds))
  /\ (rmtree_ok e d = true -> d ∉ dirs (handle e req ds))
  /\ (rmtree_ok e d = false -> d ∈ dirs (handle e req ds)).
Proof.
  intros Hst Hd.
  assert (Hneed : cleanup_needed (before_finally e req ds) = true).
  { rewrite (cleanup_needed_iff e req ds d Hd). apply Z.leb_le, Hst. }
  split; [|split].
  - destruct (handle_trace e req ds) as (tl & -> & _).
    unfold cleanup_events. rewrite Hneed, Hd.
    apply in_app_iff. right. left. reflexivity.
  - intros Hok. rewrite handle_dirs. unfold dirs_after_cleanup.
    rewrite Hneed, Hd. cbn [from_option id andb]. rewrite Hok.
    apply not_elem_of_difference. right. apply elem_of_singleton. reflexivity.
  - intros Hko. rewrite handle_dirs. unfold dirs_after_cleanup.
    rewrite Hneed, Hd. cbn [from_option id andb]. rewrite Hko.
    apply (before_finally_dir e req ds d Hd).
Qed.

(** The state before [finally] when the clone worked and the editor did
    not open. *)
Lemma editor_failure_state (d : text) :
  clone_succeeds e req d -> editor_fails e d ->
  response_status_code (before_finally e req ds) = 500
  /\ clone_target_dir (before_finally e req ds) = Some d.
Proof.
  intros (Hne & Hacc & name & out & err & Hname & -> & Hgit) Hed.
  assert (Hl : fst (editor_launch e
                      (CLONE_BASE_DIR e ++ lit "/"
                       ++ (repo_name_of (github_url req) ++ lit "_") ++ name))
               = false).
  { specialize (Hed (initial_state ds)). rewrite open_editor_log in Hed.
    cbn [fst] in Hed. congruence. }
  unfold before_finally, mk_state.
  rewrite Hne, Hacc, Hname, Hgit. cbn [Z.eqb]. rewrite Hl.
  split; reflexivity.
Qed.

End Cleanup.

Section PostClaims.





(** C3: whenever the final status is at least 400 and a target directory
    was created, the directory is recursively deleted before the handler
    returns; a failing deletion is ignored and changes neither the outcome
    nor the response. *)
Theorem failed_request_removes_directory (e : env) (req : request)
    (ds : gset text) (d : text) :
  400 <= response_status_code (handle e req ds) ->
  clone_target_dir (handle e req ds) = Some d ->
  In (Rmtree d) (trace (handle e req ds))
  /\ (rmtree_ok e d = true -> d ∉ dirs (handle e req ds))
  /\ forall f : text -> bool,
       fst (do_POST (with_rmtree_ok f e) req ds) = fst (do_POST e req ds)
       /\ response_status_code (handle (with_rmtree_ok f e) req ds)
          = response_status_code (handle e req ds)
       /\ response_body_str (handle (with_rmtree_ok f e) req ds)
          = response_body_str (handle e req ds)
       /\ trace (handle (with_rmtree_ok f e) req ds) = trace (handle e req ds).
Proof.
  intros Hst Hd. rewrite handle_status in Hst. rewrite handle_dir in Hd.
  destruct (failure_cleanup e req ds d Hst Hd) as (Hrm & Hgone & _).
  split; [exact Hrm|split; [exact Hgone|]].
  intros f. apply rmtree_outcome_irrelevant.
Qed.

Lemma failed_request_removes_directory_witness :
  400 <= response_status_code (handle env_git_fails (post widgets_url) ∅)
  /\ clone_target_dir (handle env_git_fails (post widgets_url) ∅)
     = Some widgets_dir
  /\ In (Rmtree widgets_dir) (trace (handle env_git_fails (post widgets_url) ∅))
  /\ widgets_dir ∉ dirs (handle env_git_fails (post widgets_url) ∅).
Proof.
  assert (H1 : 400 <= response_status_code
                        (handle env_git_fails (post widgets_url) ∅)).
  { assert (E : response_status_code
                  (handle env_git_fails (post widgets_url) ∅) = 500)
      by (vm_compute; reflexivity).
    rewrite E. lia. }
  assert (H2 : clone_target_dir (handle env_git_fails (post widgets_url) ∅)
               = Some widgets_dir) by (vm_compute; reflexivity).
  destruct (failed_request_removes_directory
              env_git_fails (post widgets_url) ∅ widgets_dir H1 H2)
    as (Hrm & Hgone & _).
  split; [exact H1|split; [exact H2|split; [exact Hrm|]]].
  apply Hgone. reflexivity.
Defined.

(** C1, as the specification has it, fails: with the editor missing the
    clone succeeds, the status is 500, and the directory is gone when the
    handler returns. *)
Lemma editor_failure_keeps_directory_counterexample :
  ~ editor_failure_keeps_directory env_editor_missing (post widgets_url) ∅.
Proof.
  intros H. destruct (H widgets_dir) as [_ Hin].
  - split; [vm_compute; reflexivity|split; [vm_compute; reflexivity|]].
    exists (lit "k3x9_a0b"), (blit ""), (blit "Cloning into 'widgets'...").
    repeat split; vm_compute; reflexivity.
  - intros st. rewrite open_editor_log. reflexivity.
  - apply elem_of_elements in Hin.
    assert (E : elements (dirs (handle env_editor_missing (post widgets_url) ∅))
                = []) by (vm_compute; reflexivity).
    rewrite E in Hin. inversion Hin.
Qed.

(** C1, amended: when the clone succeeds but the editor does not open, the
    handler answers 500 and applies the cleanup rule as for any other
    failure: it deletes the created directory, which is gone afterwards when
    the deletion works. *)
Theorem editor_failure_removes_directory (e : env) (req : request)
    (ds : gset text) (d : text) :
  clone_succeeds e req d -> editor_fails e d ->
  response_status_code (handle e req ds) = 500
  /\ clone_target_dir (handle e req ds) = Some d
  /\ In (Rmtree d) (trace (handle e req ds))
  /\ (rmtree_ok e d = true -> d ∉ dirs (handle e req ds)).
Proof.
  intros Hclone Hed.
  destruct (editor_failure_state e req ds d Hclone Hed) as [Hst Hd].
  rewrite handle_status, handle_dir.
  destruct (failure_cleanup e req ds d) as (Hrm & Hgone & _);
    [lia|exact Hd|].
  auto.
Qed.

Lemma editor_failure_removes_directory_witness :
  clone_succeeds env_editor_missing (post widgets_url) widgets_dir
  /\ editor_fails env_editor_missing widgets_dir
  /\ response_status_code (handle env_editor_missing (post widgets_url) ∅) = 500
  /\ widgets_dir ∉ dirs (handle env_editor_missing (post widgets_url) ∅).
Proof.
  assert (H1 : clone_succeeds env_editor_missing (post widgets_url) widgets_dir).
  { split; [vm_compute; reflexivity|split; [vm_compute; reflexivity|]].
    exists (lit "k3x9_a0b"), (blit ""), (blit "Cloning into 'widgets'...").
    repeat split; vm_compute; reflexivity. }
  assert (H2 : editor_fails env_editor_missing widgets_dir).
  { intros st. rewrite open_editor_log. reflexivity. }
  destruct (editor_failure_removes_directory
              env_editor_missing (post widgets_url) ∅ widgets_dir H1 H2)
    as (Hst & _ & _ & Hgone).
  split; [exact H1|split; [exact H2|split; [exact Hst|]]].
  apply Hgone. reflexivity.
Defined.

(** The handler's [content_length] is the declared length. *)
Lemma content_length_declared (req : request) :
  content_length req = declared_length (content_length_header req).
Proof.
  unfold content_length, parse_content_length, declared_length.
  destruct (content_length_header req) as [[|c s]|]; cbn [truthy];
    [reflexivity| |reflexivity].
  cbn [from_option id]. destruct (py_int (c :: s)); reflexivity.
Qed.

Lemma handle_reads (e : env) (req : request) (ds : gset text) :
  List.filter is_read (trace (handle e req ds))
  = [RfileRead (content_length req)].
Proof.
  destruct (handle_trace e req ds) as (tl & -> & Htl).
  rewrite !List.filter_app, before_finally_reads.
  assert (E1 : List.filter is_read (cleanup_events (before_finally e req ds))
               = []).
  { unfold cleanup_events. destruct (cleanup_needed _); reflexivity. }
  assert (E2 : List.filter is_read tl = []).
  { clear -Htl. induction Htl as [|ev tl Hev _ IH]; [reflexivity|].
    cbn [List.filter]. rewrite IH.
    destruct Hev as [Hh|(f & m & ->)]; [|reflexivity].
    destruct ev; try discriminate Hh; reflexivity. }
  rewrite E1, E2. reflexivity.
Qed.





End PostClaims.




(** * Claims about the notifier *)

Section NotifierClaims.




End NotifierClaims.

(** * The instance guard *)

Section InstanceGuard.

Variable w : os_env.

Lemma stored_pid_exists (st : proc) (p : text) (pid : Z) :
  stored_pid st p = Some pid ->
  exists t, files st !! p = Some (Content t) /\ py_int t = Some pid.
Proof.
  unfold stored_pid, read_file, int_of.
  destruct (files st !! p) as [[| |t]|]; try (intros H; discriminate H).
  destruct (py_int t) as [v|] eqn:E; [|intros H; discriminate H].
  intros [= ->]. eauto.
Qed.

Lemma stored_pid_files (st st' : proc) (p : text) :
  files st' = files st -> stored_pid st' p = stored_pid st p.
Proof. unfold stored_pid, read_file. intros ->. reflexivity. Qed.

(** A process the caller may signal is reported as running; a process
    identifier nobody holds is not. *)
Lemma is_process_running_own (pid owner : Z) :
  0 < pid < 2 ^ 31 -> procs w pid = Some owner -> may_signal w owner = true ->
  is_process_running w pid = inr true.
Proof.
  intros Hr Hp Hs. unfold is_process_running, os_kill0.
  destruct (Z.ltb_spec pid (- 2 ^ 31)); [lia|].
  destruct (Z.leb_spec (2 ^ 31) pid); [lia|]. cbn [orb].
  destruct (Z.ltb_spec 0 pid); [|lia].
  rewrite Hp, Hs. reflexivity.
Qed.

Lemma is_process_running_dead (pid : Z) :
  0 < pid < 2 ^ 31 -> procs w pid = None ->
  is_process_running w pid = inr false.
Proof.
  intros Hr Hp. unfold is_process_running, os_kill0.
  destruct (Z.ltb_spec pid (- 2 ^ 31)); [lia|].
  destruct (Z.leb_spec (2 ^ 31) pid); [lia|]. cbn [orb].
  destruct (Z.ltb_spec 0 pid); [|lia].
  rewrite Hp. reflexivity.
Qed.

(** A live process of another user cannot be signalled, and the check
    takes it for dead. *)
Lemma is_process_running_foreign (pid owner : Z) :
  0 < pid < 2 ^ 31 -> procs w pid = Some owner -> may_signal w owner = false ->
  is_process_running w pid = inr false.
Proof.
  intros Hr Hp Hs. unfold is_process_running, os_kill0.
  destruct (Z.ltb_spec pid (- 2 ^ 31)); [lia|].
  destruct (Z.leb_spec (2 ^ 31) pid); [lia|]. cbn [orb].
  destruct (Z.ltb_spec 0 pid); [|lia].
  rewrite Hp, Hs. reflexivity.
Qed.

Lemma path_exists_true (st : proc) (p : text) (f : file) :
  files st !! p = Some f -> path_exists st p = true.
Proof.
  intros H. unfold path_exists. apply bool_decide_eq_true_2. eauto.
Qed.

(** A daemon that starts on a free port owns the marker, and its exit
    hook removes it again. *)
Lemma acquire_then_release (port : Z) (st0 : proc) :
  files st0 !! PID_FILE_TEMPLATE port = None ->
  write_error w (PID_FILE_TEMPLATE port) = None ->
  remove_error w (PID_FILE_TEMPLATE port) = None ->
  fst (check_and_exit_if_already_running w port st0) = Returns tt
  /\ files (snd (check_and_exit_if_already_running w port st0))
       !! PID_FILE_TEMPLATE port
     = Some (Content (str_of_Z (getpid w)))
  /\ files (snd (cleanup_pid_file w
                   (snd (check_and_exit_if_already_running w port st0))))
     = files st0.
Proof.
  intros Hfree Hwr Hrm.
  unfold check_and_exit_if_already_running, path_exists.
  cbn [PID_FILE set_PID_FILE files].
  rewrite bool_decide_eq_false_2
    by (rewrite Hfree; intros [? ?]; discriminate).
  unfold create_pid_file. cbn [PID_FILE set_PID_FILE]. rewrite Hwr.
  cbn [fst snd set_files files].
  split; [reflexivity|split; [apply lookup_insert_eq|]].
  destruct (PID_FILE_TEMPLATE port) as [|c p] eqn:Hp; [discriminate Hp|].
  unfold cleanup_pid_file, path_exists, read_file, int_of, os_remove.
  cbn [PID_FILE set_PID_FILE set_files files truthy].
  rewrite lookup_insert_eq.
  rewrite bool_decide_eq_true_2 by eauto. cbn [andb].
  destruct (py_int_str_of_Z (getpid w)) as [Hint Hstrip].
  rewrite Hstrip, Hint, Z.eqb_refl, Hrm.
  cbn [snd set_files files].
  rewrite delete_insert_eq. apply delete_id, Hfree.
Qed.

End InstanceGuard.

Section InstanceGuardClaims.

(** C4, as the specification has it, fails: the owner of the marker is
    dead, but the marker cannot be removed, and the check exits instead of
    taking the marker over. *)
Lemma acquire_as_specified_counterexample :
  ~ acquire_as_specified os_sticky_tmp 45678 (marker_left_by 4242).
Proof.
  intros H. destruct (H 4242) as [_ Hdead]; [vm_compute; reflexivity|].
  destruct Hdead as [Hret _]; [reflexivity|].
  vm_compute in Hret. discriminate Hret.
Qed.

(** C4, amended: when the marker names a live process that the caller may
    signal, the check exits with status 1 and leaves the files alone; when
    it names a dead process, and the stale marker can be removed and the
    new one written, the check removes the stale marker, returns, and the
    marker holds the current process identifier; when the removal fails the
    check exits with status 1 and the files are as before; when the removal
    succeeds and the write fails it exits with status 1 as well, the stale
    marker being gone and no new one written. *)
Theorem acquire_live_or_stale (w : os_env) (port : Z) (st0 : proc) (pid : Z) :
  stored_pid st0 (PID_FILE_TEMPLATE port) = Some pid ->
  0 < pid < 2 ^ 31 ->
  (forall owner, procs w pid = Some owner -> may_signal w owner = true ->
     fst (check_and_exit_if_already_running w port st0) = Exits 1
     /\ files (snd (check_and_exit_if_already_running w port st0)) = files st0)
  /\ (procs w pid = None ->
      remove_error w (PID_FILE_TEMPLATE port) = None ->
      write_error w (PID_FILE_TEMPLATE port) = None ->
      fst (check_and_exit_if_already_running w port st0) = Returns tt
      /\ files (snd (check_and_exit_if_already_running w port st0))
         = <[PID_FILE_TEMPLATE port := Content (str_of_Z (getpid w))]>
             (delete (PID_FILE_TEMPLATE port) (files st0)))
  /\ (procs w pid = None ->
      forall err, remove_error w (PID_FILE_TEMPLATE port) = Some err ->
      fst (check_and_exit_if_already_running w port st0) = Exits 1
      /\ files (snd (check_and_exit_if_already_running w port st0)) = files st0)
  /\ (procs w pid = None ->
      remove_error w (PID_FILE_TEMPLATE port) = None ->
      forall err, write_error w (PID_FILE_TEMPLATE port) = Some err ->
      fst (check_and_exit_if_already_running w port st0) = Exits 1
      /\ files (snd (check_and_exit_if_already_running w port st0))
         = delete (PID_FILE_TEMPLATE port) (files st0)).
Proof.
  intros Hpid Hrange.
  destruct (stored_pid_exists _ _ _ Hpid) as (t & Hfile & _).
  unfold check_and_exit_if_already_running.
  cbn [PID_FILE set_PID_FILE].
  rewrite (path_exists_true (set_PID_FILE _ st0) _ _ Hfile).
  rewrite (stored_pid_files st0 (set_PID_FILE _ st0) _ eq_refl), Hpid.
  destruct (Z.eqb_spec pid 0); [lia|].
  split; [|split; [|split]].
  - intros owner Hp Hs.
    rewrite (is_process_running_own w pid owner Hrange Hp Hs).
    split; reflexivity.
  - intros Hp Hrm Hwr.
    rewrite (is_process_running_dead w pid Hrange Hp).
    unfold os_remove. cbn [PID_FILE set_PID_FILE]. rewrite Hrm.
    unfold create_pid_file. cbn [PID_FILE set_files set_PID_FILE files].
    rewrite Hwr.
    split; reflexivity.
  - intros Hp err Hrm.
    rewrite (is_process_running_dead w pid Hrange Hp).
    unfold os_remove. cbn [PID_FILE set_PID_FILE]. rewrite Hrm.
    split; reflexivity.
  - intros Hp Hrm err Hwr.
    rewrite (is_process_running_dead w pid Hrange Hp).
    unfold os_remove. cbn [PID_FILE set_PID_FILE]. rewrite Hrm.
    unfold create_pid_file. cbn [PID_FILE set_files set_PID_FILE files].
    rewrite Hwr.
    split; reflexivity.
Qed.

Lemma acquire_live_or_stale_witness :
  (stored_pid (marker_left_by 4999) (PID_FILE_TEMPLATE 45678) = Some 4999
   /\ 0 < 4999 < 2 ^ 31
   /\ fst (check_and_exit_if_already_running os_session 45678
             (marker_left_by 4999)) = Exits 1)
  /\ (stored_pid (marker_left_by 4242) (PID_FILE_TEMPLATE 45678) = Some 4242
      /\ 0 < 4242 < 2 ^ 31
      /\ fst (check_and_exit_if_already_running os_session 45678
                (marker_left_by 4242)) = Returns tt)
  /\ (remove_error os_sticky_tmp (PID_FILE_TEMPLATE 45678) = Some EPERM
      /\ fst (check_and_exit_if_already_running os_sticky_tmp 45678
                (marker_left_by 4242)) = Exits 1)
  /\ (write_error os_readonly_tmp (PID_FILE_TEMPLATE 45678) = Some EROFS
      /\ fst (check_and_exit_if_already_running os_readonly_tmp 45678
                (marker_left_by 4242)) = Exits 1).
Proof.
  assert (H1 : stored_pid (marker_left_by 4999) (PID_FILE_TEMPLATE 45678)
               = Some 4999) by (vm_compute; reflexivity).
  assert (H2 : 0 < 4999 < 2 ^ 31) by lia.
  assert (H3 : stored_pid (marker_left_by 4242) (PID_FILE_TEMPLATE 45678)
               = Some 4242) by (vm_compute; reflexivity).
  assert (H4 : 0 < 4242 < 2 ^ 31) by lia.
  assert (H5 : remove_error os_sticky_tmp (PID_FILE_TEMPLATE 45678)
               = Some EPERM) by reflexivity.
  assert (H6 : write_error os_readonly_tmp (PID_FILE_TEMPLATE 45678)
               = Some EROFS) by reflexivity.
  split; [|split; [|split]].
  - split; [assumption|split; [assumption|]].
    apply (proj1 (acquire_live_or_stale os_session 45678 (marker_left_by 4999)
                    4999 H1 H2) 1000); reflexivity.
  - split; [assumption|split; [assumption|]].
    apply (proj1 (proj2 (acquire_live_or_stale os_session 45678
                           (marker_left_by 4242) 4242 H3 H4))); reflexivity.
  - split; [assumption|].
    exact (proj1 (proj1 (proj2 (proj2 (acquire_live_or_stale os_sticky_tmp
                                         45678 (marker_left_by 4242) 4242
                                         H3 H4)))
                        eq_refl EPERM H5)).
  - split; [assumption|].
    exact (proj1 (proj2 (proj2 (proj2 (acquire_live_or_stale os_readonly_tmp
                                         45678 (marker_left_by 4242) 4242
                                         H3 H4)))
                        eq_refl eq_refl EROFS H6)).
Defined.

(** The check cannot signal a live process of another user and takes its
    marker for stale. *)
Lemma acquire_foreign_owner (w : os_env) (port : Z) (st0 : proc)
    (pid owner : Z) :
  stored_pid st0 (PID_FILE_TEMPLATE port) = Some pid ->
  0 < pid < 2 ^ 31 ->
  procs w pid = Some owner -> may_signal w owner = false ->
  remove_error w (PID_FILE_TEMPLATE port) = None ->
  write_error w (PID_FILE_TEMPLATE port) = None ->
  fst (check_and_exit_if_already_running w port st0) = Returns tt.
Proof.
  intros Hpid Hrange Hp Hs Hrm Hwr.
  destruct (stored_pid_exists st0 _ _ Hpid) as (t & Hfile & _).
  unfold check_and_exit_if_already_running.
  cbn [PID_FILE set_PID_FILE].
  rewrite (path_exists_true (set_PID_FILE _ st0) _ _ Hfile).
  rewrite (stored_pid_files st0 (set_PID_FILE _ st0) _ eq_refl), Hpid.
  destruct (Z.eqb_spec pid 0); [lia|].
  rewrite (is_process_running_foreign w pid owner Hrange Hp Hs).
  unfold os_remove. cbn [PID_FILE set_PID_FILE]. rewrite Hrm.
  unfold create_pid_file. cbn [PID_FILE set_files set_PID_FILE files].
  rewrite Hwr. reflexivity.
Qed.

Example acquire_foreign_owner_init :
  fst (check_and_exit_if_already_running os_session 45678 (marker_left_by 1))
  = Returns tt.
Proof.
  apply (acquire_foreign_owner os_session 45678 (marker_left_by 1) 1 0);
    first [vm_compute; reflexivity|lia].
Qed.

(** C10: when the marker is stale (its owner is dead or cannot be read)
    and removing it fails, the check exits with status 1 and writes no
    marker of its own. *)
Theorem stale_marker_removal_failure_aborts (w : os_env) (port : Z)
    (st0 : proc) (err : text) :
  is_Some (files st0 !! PID_FILE_TEMPLATE port) ->
  (stored_pid st0 (PID_FILE_TEMPLATE port) = None
   \/ exists pid, stored_pid st0 (PID_FILE_TEMPLATE port) = Some pid
                  /\ 0 < pid < 2 ^ 31 /\ procs w pid = None) ->
  remove_error w (PID_FILE_TEMPLATE port) = Some err ->
  fst (check_and_exit_if_already_running w port st0) = Exits 1
  /\ files (snd (check_and_exit_if_already_running w port st0)) = files st0.
Proof.
  intros [f Hfile] Hstale Hrm.
  unfold check_and_exit_if_already_running.
  cbn [PID_FILE set_PID_FILE].
  rewrite (path_exists_true (set_PID_FILE _ st0) _ _ Hfile).
  rewrite (stored_pid_files st0 (set_PID_FILE _ st0) _ eq_refl).
  destruct Hstale as [->|(pid & -> & Hrange & Hp)].
  - unfold os_remove. cbn [PID_FILE set_PID_FILE]. rewrite Hrm.
    split; reflexivity.
  - destruct (Z.eqb_spec pid 0); [lia|].
    rewrite (is_process_running_dead w pid Hrange Hp).
    unfold os_remove. cbn [PID_FILE set_PID_FILE]. rewrite Hrm.
    split; reflexivity.
Qed.

Lemma stale_marker_removal_failure_aborts_witness :
  is_Some (files (marker_left_by 4242) !! PID_FILE_TEMPLATE 45678)
  /\ (exists pid, stored_pid (marker_left_by 4242) (PID_FILE_TEMPLATE 45678)
                  = Some pid
                  /\ 0 < pid < 2 ^ 31 /\ procs os_sticky_tmp pid = None)
  /\ remove_error os_sticky_tmp (PID_FILE_TEMPLATE 45678) = Some EPERM
  /\ fst (check_and_exit_if_already_running os_sticky_tmp 45678
            (marker_left_by 4242)) = Exits 1.
Proof.
  assert (H1 : is_Some (files (marker_left_by 4242)
                          !! PID_FILE_TEMPLATE 45678)).
  { exists (Content (str_of_Z 4242)). vm_compute. reflexivity. }
  assert (H2 : exists pid,
             stored_pid (marker_left_by 4242) (PID_FILE_TEMPLATE 45678)
             = Some pid /\ 0 < pid < 2 ^ 31 /\ procs os_sticky_tmp pid = None).
  { exists 4242. split; [vm_compute; reflexivity|split; [lia|reflexivity]]. }
  assert (H3 : remove_error os_sticky_tmp (PID_FILE_TEMPLATE 45678)
               = Some EPERM) by reflexivity.
  split; [exact H1|split; [exact H2|split; [exact H3|]]].
  exact (proj1 (stale_marker_removal_failure_aborts
                  os_sticky_tmp 45678 (marker_left_by 4242) EPERM
                  H1 (or_intror H2) H3)).
Defined.

(** What [cleanup_pid_file] can do: nothing, or remove a marker that
    holds the identifier of the current process. *)
Lemma cleanup_pid_file_cases (w : os_env) (st : proc) :
  cleanup_pid_file w st = (Returns tt, st)
  \/ (cleanup_pid_file w st
      = (Returns tt, set_files (delete (PID_FILE st) (files st)) st)
      /\ exists t, files st !! PID_FILE st = Some (Content t)
                   /\ py_int (strip t) = Some (getpid w)
                   /\ remove_error w (PID_FILE st) = None).
Proof.
  unfold cleanup_pid_file, read_file, int_of, os_remove.
  destruct (truthy (Some (PID_FILE st)) && path_exists st (PID_FILE st));
    [|left; reflexivity].
  destruct (files st !! PID_FILE st) as [[| |t]|] eqn:Hf;
    try (left; reflexivity).
  destruct (py_int (strip t)) as [v|] eqn:Hv; [|left; reflexivity].
  destruct (Z.eqb_spec v (getpid w)) as [->|]; [|left; reflexivity].
  destruct (remove_error w (PID_FILE st)) eqn:Hrm; [left; reflexivity|].
  right. split; [reflexivity|]. eauto.
Qed.



(** The own marker is removed. *)
Example release_own_marker :
  files (snd (cleanup_pid_file os_session
                (set_PID_FILE (PID_FILE_TEMPLATE 45678) (marker_left_by 5000))))
  = ∅.
Proof. vm_compute. reflexivity. Qed.

End InstanceGuardClaims.


(** * Further properties of the POST handler *)

Section Validation.

Variable e : env.
Variable req : request.
Variable ds : gset text.

(** A request that declares no content has an empty URL, so the first test
    of [do_POST] comes down to the URL being empty. *)
Lemma empty_test :
  (content_length req =? 0) || is_empty (github_url req)
  = is_empty (github_url req).
Proof.
  destruct (Z.eqb_spec (content_length req) 0) as [E|_]; [|reflexivity].
  unfold github_url, body_bytes. rewrite E. reflexivity.
Qed.

Lemma is_empty_false (t : text) : is_empty t = false <-> t <> [].
Proof. destruct t; simpl; split; congruence. Qed.

(** The status before [finally], by the three tests of [do_POST]. *)
Lemma before_finally_400 :
  response_status_code (before_finally e req ds) = 400
  <-> (github_url req = [] \/ url_accepted (github_url req) = false).
Proof.
  unfold before_finally, mk_state. rewrite empty_test.
  destruct (github_url req) as [|c u] eqn:Hu; cbn [is_empty].
  - split; auto.
  - destruct (url_accepted (c :: u)) eqn:Hacc.
    + split; [|intros [?|?]; discriminate].
      destruct (mkdtemp_name e _); [intros H; discriminate H|].
      destruct (git_clone e _ _) as [code ? ?|?]; [|intros H; discriminate H].
      destruct (code =? 0); [|intros H; discriminate H].
      destruct (fst (editor_launch e _)); intros H; discriminate H.
    + split; auto.
Qed.

End Validation.

Section ValidationClaims.

(** X1: the URL test of the handler lets through exactly the trimmed texts
    of the three shapes prefix + owner + "/" + repo, with prefix
    https://github.com/ or git://github.com/ and an optional .git at the
    end, or prefix git@github.com: and .git at the end, owner and repo being
    non-empty and free of line breaks (they may hold further slashes). *)
Theorem validation_accepts_exactly_the_shapes (req : request) :
  url_accepted (github_url req) = true <-> accepted_shape (github_url req).
Proof.
  apply url_accepted_iff. intros w. unfold github_url.
  apply strip_no_trailing_newline.
Qed.





End ValidationClaims.

(** * The repository name *)

Section RepoName.

Variable n : nat.

(** The end of [REPO_NAME_RE]: an optional ".git", then the end of the
    text.  It matches four texts and leaves group 1 alone. *)
Lemma repo_tail_sound (s : text) (g x : gmap nat text) :
  run n (Opt (Group 2 (Lit (lit ".git"))) >> Eol) s g accept = Some x ->
  x !! 1%nat = g !! 1%nat
  /\ (s = [] \/ s = [10] \/ s = lit ".git" \/ s = lit ".git" ++ [10]).
Proof.
  cbn [run]. unfold accept.
  destruct (strip_prefix (lit ".git") s) as [r|] eqn:Hp.
  - apply strip_prefix_app in Hp. subst s.
    destruct (at_end r) eqn:Hr.
    + intros [= <-]. split; [apply lookup_insert_ne; discriminate|].
      destruct r as [|c [|? ?]]; cbn in Hr; try discriminate.
      * right. right. left. apply app_nil_r.
      * apply Z.eqb_eq in Hr. subst c. auto.
    + destruct (at_end (lit ".git" ++ r)) eqn:Hr'; [|discriminate].
      destruct r; discriminate Hr'.
  - destruct (at_end s) eqn:Hs; [|discriminate].
    intros [= <-]. split; [reflexivity|].
    destruct s as [|c [|? ?]]; cbn in Hs; try discriminate; [auto|].
    apply Z.eqb_eq in Hs. subst c. auto.
Qed.

Lemma repo_tail_complete (s : text) (g : gmap nat text) :
  s = [] \/ s = lit ".git" ->
  is_Some (run n (Opt (Group 2 (Lit (lit ".git"))) >> Eol) s g accept).
Proof.
  intros [->| ->]; cbn; eauto.
Qed.

(** A match of [REPO_NAME_RE] at the front of [s]: a slash, then group 1,
    non-empty and without a slash, then the end. *)
Lemma repo_re_sound (s : text) (x : gmap nat text) :
  run n REPO_NAME_RE s ∅ accept = Some x ->
  exists w s',
    s = lit "/" ++ w ++ s'
    /\ w <> [] /\ Forall (fun c => c <> 47) w
    /\ (s' = [] \/ s' = [10] \/ s' = lit ".git" \/ s' = lit ".git" ++ [10])
    /\ group x 1 = w.
Proof.
  unfold REPO_NAME_RE. cbn [run].
  destruct (strip_prefix (lit "/") s) as [s1|] eqn:Hp; [|discriminate].
  apply strip_prefix_app in Hp. subst s. intros H.
  apply (plus_lazy_sound n) in H as (s' & (w & Hw & Hall & ->) & HK).
  apply repo_tail_sound in HK as [H1 Htail].
  exists w, s'. repeat split; try assumption.
  - eapply Forall_impl; [exact Hall|].
    intros c Hc. cbn in Hc. apply negb_true_iff, Z.eqb_neq in Hc. exact Hc.
  - rewrite lookup_insert_eq in H1. unfold group, text in *.
    rewrite H1. cbn [from_option id].
    rewrite length_app.
    replace (length w + length s' - length s')%nat with (length w) by lia.
    apply take_app_length.
Qed.

(** The lazy [+?] stops at the first place where the rest of the pattern
    matches. *)
Lemma plus_lazy_first (k : cls) (w s' : text) (g : gmap nat text) (K : cont)
    (x : gmap nat text) :
  w <> [] -> Forall (fun c => in_cls k c = true) w ->
  (forall w1 w2, w = w1 ++ w2 -> w1 <> [] -> w2 <> [] -> K (w2 ++ s') g = None) ->
  K s' g = Some x ->
  plus_lazy k (w ++ s') g K = Some x.
Proof.
  intros Hw Hall. revert Hw.
  induction Hall as [|c w Hc Hall IH]; intros Hw Hnone HK; [congruence|].
  cbn [app plus_lazy]. rewrite Hc.
  destruct w as [|c' w'].
  - cbn [app]. rewrite HK. reflexivity.
  - rewrite (Hnone [c] (c' :: w') eq_refl) by discriminate.
    apply IH; [discriminate| |exact HK].
    intros w1 w2 E H1 H2. apply (Hnone (c :: w1) w2); [|discriminate|exact H2].
    cbn. rewrite E. reflexivity.
Qed.

(** Where [re.search] finds [REPO_NAME_RE]. *)
Lemma repo_search_sound (s : text) (x : gmap nat text) :
  search_from n REPO_NAME_RE s = Some x ->
  exists w, w <> [] /\ Forall (fun c => c <> 47) w /\ group x 1 = w.
Proof.
  induction s as [|c s IH]; cbn [search_from].
  - destruct (run n REPO_NAME_RE [] ∅ accept) as [y|] eqn:E; [|discriminate].
    intros [= <-]. apply repo_re_sound in E as (w & s' & _ & ? & ? & _ & ?).
    eauto.
  - destruct (run n REPO_NAME_RE (c :: s) ∅ accept) as [y|] eqn:E; [|exact IH].
    intros [= <-]. apply repo_re_sound in E as (w & s' & _ & ? & ? & _ & ?).
    eauto.
Qed.

(** No match starts before the last slash. *)
Lemma repo_search_skip (base rest : text) :
  search_from n REPO_NAME_RE (base ++ lit "/" ++ rest)
  = search_from n REPO_NAME_RE (lit "/" ++ rest).
Proof.
  induction base as [|c base IH]; [reflexivity|].
  cbn [app search_from].
  destruct (run n REPO_NAME_RE (c :: base ++ lit "/" ++ rest) ∅ accept)
    as [y|] eqn:E; [exfalso|exact IH].
  apply repo_re_sound in E as (w & s' & Hs & _ & Hw & Htail & _).
  assert (Hno : Forall (fun c => c <> 47) (w ++ s')).
  { apply Forall_app. split; [exact Hw|].
    decompose [or] Htail; subst s'; repeat constructor; discriminate. }
  injection Hs as _ Hs. rewrite <- Hs in Hno.
  apply Forall_app in Hno as [_ Hno].
  apply Forall_cons_1 in Hno as [Hno _]. apply Hno. reflexivity.
Qed.

(** The match at the last slash takes the shortest name that leaves an
    optional ".git". *)
Lemma repo_run_last_segment (name suffix : text) :
  name <> [] ->
  Forall (fun c => c <> 47 /\ c <> 10) name ->
  suffix = lit ".git"
  \/ (suffix = [] /\ forall stem, stem <> [] -> name <> stem ++ lit ".git") ->
  exists x, run n REPO_NAME_RE (lit "/" ++ name ++ suffix) ∅ accept = Some x
            /\ group x 1 = name.
Proof.
  intros Hne Hname Hsuffix.
  assert (Htail : suffix = [] \/ suffix = lit ".git")
    by (destruct Hsuffix as [?|[? _]]; auto).
  set (K := fun (s' : text) (g' : gmap nat text) =>
              run n (Opt (Group 2 (Lit (lit ".git"))) >> Eol) s'
                  (<[1%nat := take (length (name ++ suffix) - length s')
                                   (name ++ suffix)]> g') accept).
  destruct (repo_tail_complete suffix
              (<[1%nat := take (length (name ++ suffix) - length suffix)
                               (name ++ suffix)]> ∅) Htail) as [x Hx].
  exists x. split.
  - unfold REPO_NAME_RE. cbn [run].
    change (strip_prefix (lit "/") (lit "/" ++ name ++ suffix))
      with (Some (name ++ suffix)). cbv iota.
    apply (plus_lazy_first (NotChar 47) name suffix ∅ K x Hne).
    + eapply Forall_impl; [exact Hname|]. intros c [Hc _]. cbn.
      apply negb_true_iff, Z.eqb_neq, Hc.
    + intros w1 w2 -> Hw1 Hw2.
      destruct (K (w2 ++ suffix) ∅) as [y|] eqn:E; [exfalso|reflexivity].
      apply repo_tail_sound in E as [_ E].
      apply Forall_app in Hname as [_ Hw2n].
      assert (Hlast : forall t, Forall (fun c => c <> 47 /\ c <> 10) t ->
                                t ++ lit ".git" <> [] /\
                                t ++ lit ".git" <> [10] /\
                                t ++ lit ".git" <> lit ".git" ++ [10] /\
                                (t ++ lit ".git" = lit ".git" -> t = [])).
      { intros t Ht. repeat split.
        - destruct t; discriminate.
        - destruct t as [|? [|? ?]]; discriminate.
        - intros Heq. apply (f_equal (@rev Z)) in Heq.
          rewrite rev_app_distr in Heq. discriminate Heq.
        - intros Heq. apply (f_equal (@length Z)) in Heq.
          rewrite length_app in Heq. cbn in Heq.
          destruct t; [reflexivity|cbn in Heq; lia]. }
      destruct Hsuffix as [->|[-> Hstem]].
      * destruct (Hlast w2 Hw2n) as (N1 & N2 & N3 & N4).
        decompose [or] E; auto.
      * rewrite app_nil_r in E.
        destruct E as [E|[E|[E|E]]]; subst w2.
        -- congruence.
        -- apply Forall_cons_1 in Hw2n as [[_ Hc] _]. congruence.
        -- apply (Hstem w1 Hw1). reflexivity.
        -- apply Forall_app in Hw2n as [_ Hc].
           apply Forall_cons_1 in Hc as [[_ Hc] _]. congruence.
    + exact Hx.
  - apply repo_tail_sound in Hx as [H1 _].
    rewrite lookup_insert_eq in H1. unfold group, text in *.
    rewrite H1. cbn [from_option id]. rewrite length_app.
    replace (length name + length suffix - length suffix)%nat
      with (length name) by lia.
    apply take_app_length.
Qed.

(** Nothing matches in a text that ends in a slash. *)
Lemma repo_search_trailing_slash (u : text) :
  search_from n REPO_NAME_RE (u ++ lit "/") = None.
Proof.
  assert (Hrun : forall t, run n REPO_NAME_RE (t ++ lit "/") ∅ accept = None).
  { intros t.
    destruct (run n REPO_NAME_RE (t ++ lit "/") ∅ accept) as [y|] eqn:E;
      [exfalso|reflexivity].
    apply repo_re_sound in E as (w & s' & Hs & Hne & Hw & Htail & _).
    assert (Hno : Forall (fun c => c <> 47) (w ++ s')).
    { apply Forall_app. split; [exact Hw|].
      decompose [or] Htail; subst s'; repeat constructor; discriminate. }
    assert (Hne' : w ++ s' <> []) by (destruct w; [congruence|discriminate]).
    destruct (exists_last Hne') as (l & c & Hl). rewrite Hl in Hs, Hno.
    apply Forall_app in Hno as [_ Hc]. apply Forall_cons_1 in Hc as [Hc _].
    apply (f_equal (@rev Z)) in Hs.
    rewrite !rev_app_distr in Hs. cbn in Hs.
    injection Hs as Hs _. apply Hc. rewrite <- Hs. reflexivity. }
  induction u as [|c u IH].
  - specialize (Hrun []). change ([] ++ lit "/") with [47] in *.
    cbn [search_from]. rewrite Hrun. reflexivity.
  - cbn [app search_from].
    change (c :: u ++ lit "/") with ((c :: u) ++ lit "/"). rewrite Hrun.
    exact IH.
Qed.

End RepoName.

Section HandlerEvents.

Variable e : env.
Variable req : request.
Variable ds : gset text.

(** The events before [finally], one by one: side channels, the one read,
    the one [mkdtemp], and [git clone --depth 1] into the new directory. *)
Lemma before_finally_events (ev : event) :
  In ev (trace (before_finally e req ds)) ->
  is_side_channel ev = true
  \/ ev = RfileRead (content_length req)
  \/ ev = Mkdtemp (repo_name_of (github_url req) ++ lit "_") (CLONE_BASE_DIR e)
  \/ exists name,
       mkdtemp_name e (repo_name_of (github_url req) ++ lit "_") = inr name
       /\ ev = Run (git_argv (github_url req)
                      (CLONE_BASE_DIR e ++ lit "/"
                       ++ (repo_name_of (github_url req) ++ lit "_") ++ name)).
Proof.
  assert (Hn : forall m t ty ev', In ev' (show_notification e m t ty) ->
                                  is_side_channel ev' = true).
  { intros m t ty. apply List.Forall_forall, show_notification_side_channel. }
  assert (He : forall d ev', In ev' (snd (editor_launch e d)) ->
                             is_side_channel ev' = true).
  { intros d. apply List.Forall_forall, editor_launch_side_channel. }
  unfold before_finally, mk_state;
  destruct ((content_length req =? 0) || is_empty (github_url req));
  [|destruct (url_accepted (github_url req));
    [destruct (mkdtemp_name e _) as [merr|name] eqn:Hmk;
     [|destruct (git_clone e _ _) as [code out err|gerr];
       [destruct (code =? 0);
        [destruct (fst (editor_launch e _))|]|]]|]];
  cbn [response_status_code response_body_str clone_target_dir dirs trace];
  unfold notify_error, notify_info; rewrite ?in_app_iff; cbn [In];
    intros H; decompose [or] H; clear H; subst;
    try contradiction;
    try (left; reflexivity);
    try (left; eapply pre_events_quiet; eassumption);
    try (left; eapply Hn; eassumption);
    try (left; eapply He; eassumption);
    try (right; left; reflexivity);
    try (right; right; left; reflexivity);
    try (right; right; right; eexists; split; reflexivity).
Qed.

(** The events of a whole request. *)
Lemma handle_events (ev : event) :
  In ev (trace (handle e req ds)) ->
  In ev (trace (before_finally e req ds))
  \/ (ev = Rmtree (default [] (clone_target_dir (before_finally e req ds)))
      /\ cleanup_needed (before_finally e req ds) = true)
  \/ is_http ev = true
  \/ exists f m, ev = Print f m.
Proof.
  destruct (handle_trace e req ds) as (tl & -> & Htl).
  rewrite !in_app_iff. intros [H|[H|H]]; [auto| |].
  - right. left. unfold cleanup_events in H.
    destruct (cleanup_needed _); [|contradiction].
    destruct H as [<-|[]]. auto.
  - right. right. exact (proj1 (List.Forall_forall _ _) Htl ev H).
Qed.

End HandlerEvents.

Section RepoNameClaims.

(** X4: the name derived from a URL is never empty and never holds a
    slash, so the directory is created directly under the base directory:
    every [mkdtemp] of a request is made in [CLONE_BASE_DIR] with the prefix
    name + "_", which holds no path separator. *)
Theorem repo_name_is_one_path_component (e : env) (req : request)
    (ds : gset text) :
  (forall url, repo_name_of url <> []
               /\ Forall (fun c => c <> 47) (repo_name_of url))
  /\ (forall prefix dir,
        In (Mkdtemp prefix dir) (trace (handle e req ds)) ->
        dir = CLONE_BASE_DIR e
        /\ prefix = repo_name_of (github_url req) ++ lit "_"
        /\ Forall (fun c => c <> 47) prefix).
Proof.
  assert (Hname : forall url, repo_name_of url <> []
                              /\ Forall (fun c => c <> 47) (repo_name_of url)).
  { intros url. unfold repo_name_of, re_search.
    destruct (search_from _ _ url) as [x|] eqn:E.
    - apply repo_search_sound in E as (w & Hw & Hall & ->). auto.
    - split; [discriminate|]. apply List.Forall_forall. intros c Hc ->.
      vm_compute in Hc. decompose [or] Hc; try discriminate; assumption. }
  split; [exact Hname|].
  intros prefix dir Hin.
  apply handle_events in Hin as [Hin|[[Hin _]|[Hin|(f & m & Hin)]]];
    try discriminate Hin.
  apply before_finally_events in Hin as [Hin|[Hin|[Hin|(name & _ & Hin)]]];
    try discriminate Hin.
  injection Hin as -> ->. repeat split.
  apply Forall_app. split; [apply Hname|]. repeat constructor. discriminate.
Qed.

Lemma repo_name_is_one_path_component_witness :
  In (Mkdtemp (lit "widgets_") (lit "/home/u/Desktop"))
     (trace (handle env_desktop (post widgets_url) ∅))
  /\ Forall (fun c => c <> 47) (lit "widgets_").
Proof.
  assert (H : In (Mkdtemp (lit "widgets_") (lit "/home/u/Desktop"))
                 (trace (handle env_desktop (post widgets_url) ∅))).
  { vm_compute. do 2 right. left. reflexivity. }
  split; [exact H|].
  exact (proj2 (proj2 (proj2 (repo_name_is_one_path_component
                                env_desktop (post widgets_url) ∅)
                               (lit "widgets_") (lit "/home/u/Desktop") H))).
Defined.

(** X5: the name is the last path segment of the URL with one trailing
    ".git" removed: for a segment without slash or line break, a URL ending
    in "/" + segment + ".git" gives the segment, and so does one ending in
    "/" + segment unless the segment itself ends in ".git" after something;
    a URL ending in a slash gives the placeholder "repository". *)
Theorem repo_name_is_last_segment (base name : text) :
  name <> [] ->
  Forall (fun c => c <> 47 /\ c <> 10) name ->
  repo_name_of (base ++ lit "/" ++ name ++ lit ".git") = name
  /\ ((forall stem, stem <> [] -> name <> stem ++ lit ".git") ->
      repo_name_of (base ++ lit "/" ++ name) = name)
  /\ repo_name_of (base ++ lit "/") = lit "repository".
Proof.
  intros Hne Hname. split; [|split].
  - unfold repo_name_of, re_search. rewrite repo_search_skip.
    destruct (repo_run_last_segment
                (length (base ++ lit "/" ++ name ++ lit ".git"))
                name (lit ".git") Hne Hname (or_introl eq_refl))
      as (x & Hx & Hg).
    change (lit "/" ++ name ++ lit ".git") with (47 :: name ++ lit ".git") in *.
    cbn [search_from]. rewrite Hx. exact Hg.
  - intros Hstem. unfold repo_name_of, re_search.
    rewrite <- (app_nil_r name) at 1 2. rewrite repo_search_skip.
    destruct (repo_run_last_segment
                (length (base ++ lit "/" ++ name ++ []))
                name [] Hne Hname (or_intror (conj eq_refl Hstem)))
      as (x & Hx & Hg).
    change (lit "/" ++ name ++ []) with (47 :: name ++ []) in *.
    cbn [search_from]. rewrite Hx. exact Hg.
  - unfold repo_name_of, re_search.
    rewrite repo_search_trailing_slash. reflexivity.
Qed.

Lemma repo_name_is_last_segment_witness :
  lit "widgets" <> []
  /\ Forall (fun c => c <> 47 /\ c <> 10) (lit "widgets")
  /\ repo_name_of (lit "git@github.com:acme" ++ lit "/" ++ lit "widgets"
                   ++ lit ".git") = lit "widgets".
Proof.
  assert (H1 : lit "widgets" <> []) by discriminate.
  assert (H2 : Forall (fun c => c <> 47 /\ c <> 10) (lit "widgets"))
    by (repeat constructor; discriminate).
  split; [exact H1|split; [exact H2|]].
  exact (proj1 (repo_name_is_last_segment (lit "git@github.com:acme")
                  (lit "widgets") H1 H2)).
Defined.

End RepoNameClaims.

(** * The paths of a request *)

Section Paths.

Variable e : env.
Variable req : request.
Variable ds : gset text.

Lemma editor_opens_launch (d : text) :
  editor_opens e d <-> fst (editor_launch e d) = true.
Proof.
  unfold editor_opens. split.
  - intros H. specialize (H (initial_state ds)).
    rewrite open_editor_log in H. cbn [fst] in H. congruence.
  - intros H st. rewrite open_editor_log. cbn [fst]. rewrite H. reflexivity.
Qed.

(** When [open_editor] reports success it has started the editor, detached,
    and done nothing else. *)
Lemma editor_launch_true (d : text) :
  fst (editor_launch e d) = true ->
  snd (editor_launch e d) = [Popen [default [] (which e (lit "code")); d] true].
Proof.
  unfold editor_launch.
  destruct (truthy (which e (lit "code"))); [|discriminate].
  destruct (spawn_error e _); [discriminate|reflexivity].
Qed.

(** No directory is ever deleted before [finally], and [finally] deletes
    only the recorded one, only on failure. *)
Lemma handle_rmtree (d' : text) :
  In (Rmtree d') (trace (handle e req ds)) ->
  clone_target_dir (handle e req ds) = Some d'
  /\ 400 <= response_status_code (handle e req ds).
Proof.
  intros Hin. rewrite handle_dir, handle_status.
  apply handle_events in Hin as [Hin|[[Hin Hneed]|[Hin|(f & m & Hin)]]];
    try discriminate Hin.
  - apply before_finally_events in Hin as [Hin|[Hin|[Hin|(name & _ & Hin)]]];
      discriminate Hin.
  - unfold cleanup_needed in Hneed.
    apply andb_true_iff in Hneed as [Hneed _].
    apply andb_true_iff in Hneed as [Hst Htr].
    apply Z.leb_le in Hst. split; [|exact Hst].
    destruct (clone_target_dir (before_finally e req ds)) as [d|];
      [|discriminate Htr].
    cbn in Hin. congruence.
Qed.

(** The state before [finally] once the directory exists, by how git
    ends. *)
Lemma before_finally_created (d : text) :
  directory_created e req d ->
  clone_target_dir (before_finally e req ds) = Some d
  /\ dirs (before_finally e req ds) = {[d]} ∪ ds
  /\ match git_clone e (github_url req) d with
     | GitSpawnError err =>
       response_status_code (before_finally e req ds) = 500
       /\ response_body_str (before_finally e req ds)
          = lit "An unexpected error occurred: " ++ err
     | GitExit code out err =>
       if code =? 0 then
         if fst (editor_launch e d) then
           response_status_code (before_finally e req ds) = 200
           /\ response_body_str (before_finally e req ds)
              = lit "Success: Cloned '" ++ repo_name_of (github_url req)
                ++ lit "' and opened in VS Code at '" ++ d ++ lit "'."
           /\ In (Popen [default [] (which e (lit "code")); d] true)
                 (trace (before_finally e req ds))
         else
           response_status_code (before_finally e req ds) = 500
           /\ response_body_str (before_finally e req ds)
              = lit "Error: Cloned '" ++ repo_name_of (github_url req)
                ++ lit "' but failed to open in VS Code."
       else
         response_status_code (before_finally e req ds) = 500
         /\ response_body_str (before_finally e req ds)
            = lit "Error: Failed to clone '" ++ github_url req
              ++ lit "'. Git output: "
              ++ (if is_empty (strip (output_text err))
                  then strip (output_text out) else strip (output_text err))
     end.
Proof.
  intros (Hne & Hacc & name & Hname & ->).
  unfold before_finally, mk_state.
  rewrite empty_test, (proj2 (is_empty_false _) Hne), Hacc, Hname.
  destruct (git_clone e _ _) as [code out err|gerr];
    [|repeat split].
  destruct (code =? 0); [|repeat split].
  destruct (fst (editor_launch e _)) eqn:Hed; [|repeat split].
  repeat split. cbn [trace].
  rewrite (editor_launch_true _ Hed).
  apply in_or_app. right. apply in_or_app. right. left. reflexivity.
Qed.

Lemma clone_succeeds_created (d : text) :
  clone_succeeds e req d ->
  directory_created e req d
  /\ exists out err, git_clone e (github_url req) d = GitExit 0 out err.
Proof.
  intros (Hne & Hacc & name & out & err & Hname & -> & Hgit).
  rewrite empty_test in Hne. apply is_empty_false in Hne.
  split; [|eauto]. split; [exact Hne|split; [exact Hacc|eauto]].
Qed.

End Paths.

Section FailurePaths.

Variable e : env.
Variable req : request.
Variable ds : gset text.

(** Notifications never start a detached process. *)
Lemma show_notification_not_detached (m title type_ : text) (cmd : list text) :
  ~ In (Popen cmd true) (show_notification e m title type_).
Proof.
  unfold show_notification. rewrite in_app_iff. intros [H|H].
  - destruct (notification_cmd e m title _) as [c|]; [|contradiction].
    destruct (contains _ _ || contains _ _);
      destruct (spawn_error e c); cbn in H;
      decompose [or] H; try discriminate; assumption.
  - destruct (text_eqb type_ (lit "error")); cbn in H;
      decompose [or] H; try discriminate; assumption.
Qed.

Lemma editor_launch_false (d : text) (cmd : list text) :
  fst (editor_launch e d) = false ->
  ~ In (Popen cmd true) (snd (editor_launch e d)).
Proof.
  unfold editor_launch, notify_error.
  destruct (truthy (which e (lit "code")));
    [destruct (spawn_error e _); [|discriminate]|];
    intros _; apply show_notification_not_detached.
Qed.

(** A detached process is started only on the way to a 200. *)
Lemma detached_only_on_success (cmd : list text) :
  In (Popen cmd true) (trace (handle e req ds)) ->
  response_status_code (handle e req ds) = 200.
Proof.
  intros Hin.
  apply handle_events in Hin as [Hin|[[Hin _]|[Hin|(f & m & Hin)]]];
    try discriminate Hin.
  rewrite handle_status. revert Hin.
  assert (Hpre : ~ In (Popen cmd true)
                   (snd (parse_content_length (content_length_header req)))).
  { unfold parse_content_length.
    destruct (truthy _); [destruct (py_int _)|]; cbn;
      intros H; decompose [or] H; try discriminate; contradiction. }
  pose proof show_notification_not_detached as Hn.
  pose proof editor_launch_false as He.
  unfold before_finally, mk_state, notify_error, notify_info.
  destruct ((content_length req =? 0) || is_empty (github_url req));
    [|destruct (url_accepted (github_url req));
      [destruct (mkdtemp_name e _) as [merr|name];
       [|destruct (git_clone e _ _) as [code out err|gerr];
         [destruct (code =? 0);
          [destruct (fst (editor_launch e _)) eqn:Hed|]|]]|]];
    cbn [trace response_status_code]; try reflexivity;
    intros H; exfalso; rewrite !in_app_iff in H; cbn [In] in H;
    decompose [or] H; try discriminate; try contradiction;
    solve [eapply Hn; eassumption|eapply He; eassumption].
Qed.

End FailurePaths.

Section PathClaims.

(** X6: when the clone succeeds and the editor opens, the answer is 200 and
    tells the name and the directory; the directory is kept, nothing is
    deleted, and the editor has been started, detached, on the directory. *)
Theorem successful_request (e : env) (req : request) (ds : gset text)
    (d : text) :
  clone_succeeds e req d -> editor_opens e d ->
  response_status_code (handle e req ds) = 200
  /\ response_body_str (handle e req ds)
     = lit "Success: Cloned '" ++ repo_name_of (github_url req)
       ++ lit "' and opened in VS Code at '" ++ d ++ lit "'."
  /\ clone_target_dir (handle e req ds) = Some d
  /\ d ∈ dirs (handle e req ds)
  /\ editor_started e d (trace (handle e req ds))
  /\ forall d', ~ In (Rmtree d') (trace (handle e req ds)).
Proof.
  intros Hclone Hed.
  apply clone_succeeds_created in Hclone as (Hcreated & out & err & Hgit).
  apply (editor_opens_launch e ds) in Hed.
  destruct (before_finally_created e req ds d Hcreated) as (Hd & Hds & Hpath).
  rewrite Hgit in Hpath. cbn [Z.eqb] in Hpath. rewrite Hed in Hpath.
  destruct Hpath as (Hst & Hbody & Hpopen).
  assert (Hneed : cleanup_needed (before_finally e req ds) = false).
  { unfold cleanup_needed. rewrite Hst. reflexivity. }
  rewrite handle_status, handle_body, handle_dir, handle_dirs.
  unfold dirs_after_cleanup. rewrite Hneed. cbn [andb].
  repeat split; try assumption.
  - rewrite Hds. apply elem_of_union_l, elem_of_singleton. reflexivity.
  - unfold editor_started.
    destruct (handle_trace e req ds) as (tl & -> & _).
    apply in_or_app. left. exact Hpopen.
  - intros d' Hin. apply handle_rmtree in Hin as [_ Hin].
    rewrite handle_status, Hst in Hin. lia.
Qed.

Lemma successful_request_witness :
  clone_succeeds env_desktop (post widgets_url) widgets_dir
  /\ editor_opens env_desktop widgets_dir
  /\ response_status_code (handle env_desktop (post widgets_url) ∅) = 200
  /\ widgets_dir ∈ dirs (handle env_desktop (post widgets_url) ∅).
Proof.
  assert (H1 : clone_succeeds env_desktop (post widgets_url) widgets_dir).
  { split; [vm_compute; reflexivity|split; [vm_compute; reflexivity|]].
    exists (lit "k3x9_a0b"), (blit ""), (blit "Cloning into 'widgets'...").
    repeat split; vm_compute; reflexivity. }
  assert (H2 : editor_opens env_desktop widgets_dir).
  { intros st. rewrite open_editor_log. reflexivity. }
  destruct (successful_request env_desktop (post widgets_url) ∅ widgets_dir
              H1 H2) as (Hst & _ & _ & Hin & _).
  auto.
Defined.

(** X7: the handler answers 200 only when validation passed, the directory
    was created, git exited with status zero and the editor was started. *)
Theorem success_only_after_clone_and_editor (e : env) (req : request)
    (ds : gset text) :
  response_status_code (handle e req ds) = 200 ->
  exists d, clone_succeeds e req d
            /\ editor_opens e d
            /\ clone_target_dir (handle e req ds) = Some d.
Proof.
  rewrite handle_status, handle_dir. unfold before_finally, mk_state.
  destruct ((content_length req =? 0) || is_empty (github_url req)) eqn:Hne;
    [intros H; discriminate H|].
  destruct (url_accepted (github_url req)) eqn:Hacc;
    [|intros H; discriminate H].
  destruct (mkdtemp_name e _) as [merr|name] eqn:Hname;
    [intros H; discriminate H|].
  destruct (git_clone e _ _) as [code out err|gerr] eqn:Hgit;
    [|intros H; discriminate H].
  destruct (Z.eqb_spec code 0) as [->|_]; [|intros H; discriminate H].
  destruct (fst (editor_launch e _)) eqn:Hed; [|intros H; discriminate H].
  intros _. eexists. split; [|split; [|reflexivity]].
  - split; [exact Hne|split; [exact Hacc|]].
    exists name, out, err. split; [exact Hname|split; [reflexivity|exact Hgit]].
  - apply (editor_opens_launch e ds). exact Hed.
Qed.

Lemma success_only_after_clone_and_editor_witness :
  response_status_code (handle env_desktop (post widgets_url) ∅) = 200
  /\ exists d, clone_succeeds env_desktop (post widgets_url) d
               /\ editor_opens env_desktop d.
Proof.
  assert (H : response_status_code (handle env_desktop (post widgets_url) ∅)
              = 200) by (vm_compute; reflexivity).
  split; [exact H|].
  destruct (success_only_after_clone_and_editor env_desktop
              (post widgets_url) ∅ H) as (d & H1 & H2 & _).
  eauto.
Defined.

(** X8: when [mkdtemp] raises, the answer is 500 with the message of the
    exception; no directory is recorded or left behind, git is not run and
    nothing is deleted. *)
Theorem mkdtemp_failure (e : env) (req : request) (ds : gset text)
    (err : text) :
  github_url req <> [] ->
  url_accepted (github_url req) = true ->
  mkdtemp_name e (repo_name_of (github_url req) ++ lit "_") = inl err ->
  response_status_code (handle e req ds) = 500
  /\ response_body_str (handle e req ds)
     = lit "An unexpected error occurred: " ++ err
  /\ clone_target_dir (handle e req ds) = None
  /\ dirs (handle e req ds) = ds
  /\ Forall (fun ev => is_clone ev = false /\ is_rmtree ev = false)
            (trace (handle e req ds)).
Proof.
  intros Hne Hacc Hmk.
  assert (Hb : response_status_code (before_finally e req ds) = 500
               /\ response_body_str (before_finally e req ds)
                  = lit "An unexpected error occurred: " ++ err
               /\ clone_target_dir (before_finally e req ds) = None).
  { unfold before_finally, mk_state.
    rewrite empty_test, (proj2 (is_empty_false _) Hne), Hacc, Hmk.
    repeat split. }
  destruct Hb as (Hst & Hbody & Hd).
  assert (Hneed : cleanup_needed (before_finally e req ds) = false).
  { unfold cleanup_needed. rewrite Hd. cbn [truthy].
    rewrite andb_false_r. reflexivity. }
  rewrite handle_status, handle_body, handle_dir, handle_dirs.
  unfold dirs_after_cleanup. rewrite Hneed. cbn [andb].
  repeat split; try assumption.
  - apply before_finally_no_dir, Hd.
  - apply List.Forall_forall. intros ev Hin.
    apply handle_events in Hin as [Hin|[[_ Hin]|[Hin|(f & m & ->)]]].
    + apply before_finally_events in Hin
        as [Hin|[->|[->|(name & Hname & _)]]]; [|auto|auto|congruence].
      destruct ev; try discriminate Hin; cbn; auto.
      cbn in Hin. apply negb_true_iff in Hin. auto.
    + congruence.
    + destruct ev; try discriminate Hin; auto.
    + auto.
Qed.

Lemma mkdtemp_failure_witness :
  github_url (post widgets_url) <> []
  /\ url_accepted (github_url (post widgets_url)) = true
  /\ mkdtemp_name env_disk_full
       (repo_name_of (github_url (post widgets_url)) ++ lit "_")
     = inl (lit "[Errno 28] No space left on device")
  /\ response_status_code (handle env_disk_full (post widgets_url) ∅) = 500.
Proof.
  assert (H1 : github_url (post widgets_url) <> [])
    by (vm_compute; discriminate).
  assert (H2 : url_accepted (github_url (post widgets_url)) = true)
    by (vm_compute; reflexivity).
  assert (H3 : mkdtemp_name env_disk_full
                 (repo_name_of (github_url (post widgets_url)) ++ lit "_")
               = inl (lit "[Errno 28] No space left on device"))
    by reflexivity.
  split; [exact H1|split; [exact H2|split; [exact H3|]]].
  exact (proj1 (mkdtemp_failure env_disk_full (post widgets_url) ∅ _ H1 H2 H3)).
Defined.

(** X9: when git exits with a non-zero status, the answer is 500 and quotes
    the URL and git's trimmed standard error, or its trimmed standard output
    when the standard error is blank; the directory is deleted and the
    editor is not started. *)
Theorem clone_failure (e : env) (req : request) (ds : gset text)
    (d : text) (code : Z) (out err : bytes) :
  directory_created e req d ->
  git_clone e (github_url req) d = GitExit code out err ->
  code <> 0 ->
  response_status_code (handle e req ds) = 500
  /\ response_body_str (handle e req ds)
     = lit "Error: Failed to clone '" ++ github_url req
       ++ lit "'. Git output: "
       ++ (if is_empty (strip (output_text err))
           then strip (output_text out) else strip (output_text err))
  /\ In (Rmtree d) (trace (handle e req ds))
  /\ (rmtree_ok e d = true -> d ∉ dirs (handle e req ds))
  /\ forall cmd, ~ In (Popen cmd true) (trace (handle e req ds)).
Proof.
  intros Hcreated Hgit Hcode.
  destruct (before_finally_created e req ds d Hcreated) as (Hd & _ & Hpath).
  rewrite Hgit in Hpath.
  destruct (Z.eqb_spec code 0); [contradiction|].
  destruct Hpath as [Hst Hbody].
  destruct (failure_cleanup e req ds d) as (Hrm & Hgone & _);
    [lia|exact Hd|].
  rewrite handle_status, handle_body.
  repeat split; try assumption.
  intros cmd Hin. apply detached_only_on_success in Hin.
  rewrite handle_status in Hin. congruence.
Qed.

Lemma clone_failure_witness :
  directory_created env_git_fails (post widgets_url) widgets_dir
  /\ git_clone env_git_fails (github_url (post widgets_url)) widgets_dir
     = GitExit 128 (blit "") (blit "fatal: repository not found")
  /\ 128 <> 0
  /\ response_body_str (handle env_git_fails (post widgets_url) ∅)
     = lit "Error: Failed to clone 'https://github.com/acme/widgets'. Git output: fatal: repository not found".
Proof.
  assert (H1 : directory_created env_git_fails (post widgets_url) widgets_dir).
  { split; [vm_compute; discriminate|split; [vm_compute; reflexivity|]].
    exists (lit "k3x9_a0b"). split; vm_compute; reflexivity. }
  assert (H2 : git_clone env_git_fails (github_url (post widgets_url))
                         widgets_dir
               = GitExit 128 (blit "") (blit "fatal: repository not found"))
    by reflexivity.
  assert (H3 : 128 <> 0) by lia.
  split; [exact H1|split; [exact H2|split; [exact H3|]]].
  destruct (clone_failure env_git_fails (post widgets_url) ∅ widgets_dir
              128 _ _ H1 H2 H3) as (_ & Hbody & _).
  rewrite Hbody. vm_compute. reflexivity.
Defined.

(** X10: when git cannot be started at all, the exception reaches the
    general handler: the answer is 500 with its message, the directory
    created for the clone is deleted, and the editor is not started. *)
Theorem git_not_started (e : env) (req : request) (ds : gset text)
    (d msg : text) :
  directory_created e req d ->
  git_clone e (github_url req) d = GitSpawnError msg ->
  response_status_code (handle e req ds) = 500
  /\ response_body_str (handle e req ds)
     = lit "An unexpected error occurred: " ++ msg
  /\ In (Rmtree d) (trace (handle e req ds))
  /\ (rmtree_ok e d = true -> d ∉ dirs (handle e req ds))
  /\ forall cmd, ~ In (Popen cmd true) (trace (handle e req ds)).
Proof.
  intros Hcreated Hgit.
  destruct (before_finally_created e req ds d Hcreated) as (Hd & _ & Hpath).
  rewrite Hgit in Hpath. destruct Hpath as [Hst Hbody].
  destruct (failure_cleanup e req ds d) as (Hrm & Hgone & _);
    [lia|exact Hd|].
  rewrite handle_status, handle_body.
  repeat split; try assumption.
  intros cmd Hin. apply detached_only_on_success in Hin.
  rewrite handle_status in Hin. congruence.
Qed.

Lemma git_not_started_witness :
  directory_created env_git_missing (post widgets_url) widgets_dir
  /\ git_clone env_git_missing (github_url (post widgets_url)) widgets_dir
     = GitSpawnError (lit "[Errno 2] No such file or directory: 'git'")
  /\ response_status_code (handle env_git_missing (post widgets_url) ∅) = 500
  /\ widgets_dir ∉ dirs (handle env_git_missing (post widgets_url) ∅).
Proof.
  assert (H1 : directory_created env_git_missing (post widgets_url)
                                 widgets_dir).
  { split; [vm_compute; discriminate|split; [vm_compute; reflexivity|]].
    exists (lit "k3x9_a0b"). split; vm_compute; reflexivity. }
  assert (H2 : git_clone env_git_missing (github_url (post widgets_url))
                         widgets_dir
               = GitSpawnError (lit "[Errno 2] No such file or directory: 'git'"))
    by reflexivity.
  split; [exact H1|split; [exact H2|]].
  destruct (git_not_started env_git_missing (post widgets_url) ∅ widgets_dir
              _ H1 H2) as (Hst & _ & _ & Hgone & _).
  split; [exact Hst|]. apply Hgone. reflexivity.
Defined.

(** X11: with a working [rmtree], a request changes the disk only when it
    is answered 200: then exactly the new directory is added; after any
    other answer the directories are those from before the request. *)
Theorem disk_changes_only_on_success (e : env) (req : request)
    (ds : gset text) :
  (forall d, rmtree_ok e d = true) ->
  (forall d, clone_target_dir (handle e req ds) = Some d -> d ∉ ds) ->
  (response_status_code (handle e req ds) = 200 ->
   exists d, clone_target_dir (handle e req ds) = Some d
             /\ dirs (handle e req ds) = {[d]} ∪ ds)
  /\ (response_status_code (handle e req ds) <> 200 ->
      dirs (handle e req ds) = ds).
Proof.
  intros Hrm Hfresh. rewrite handle_status, handle_dirs.
  rewrite handle_dir in Hfresh |- *.
  pose proof (before_finally_status e req ds) as Hin.
  destruct (clone_target_dir (before_finally e req ds)) as [d|] eqn:Hd.
  - assert (Hds : dirs (before_finally e req ds) = {[d]} ∪ ds).
    { revert Hd. unfold before_finally, mk_state.
      destruct ((content_length req =? 0) || is_empty (github_url req));
        [intros H; discriminate H|].
      destruct (url_accepted (github_url req)); [|intros H; discriminate H].
      destruct (mkdtemp_name e _); [intros H; discriminate H|].
      destruct (git_clone e _ _) as [code ? ?|?];
        [destruct (code =? 0); [destruct (fst (editor_launch e _))|]|];
        intros [= <-]; reflexivity. }
    unfold dirs_after_cleanup.
    rewrite (cleanup_needed_iff e req ds d Hd), Hd. cbn [from_option id].
    rewrite Hrm, andb_true_r, Hds.
    specialize (Hfresh d eq_refl).
    split.
    + intros Hst. rewrite Hst. cbn. eauto.
    + intros Hst.
      destruct (Z.leb_spec 400 (response_status_code (before_finally e req ds)))
        as [_|Hlt].
      * apply set_eq. intros x.
        rewrite elem_of_difference, elem_of_union, !elem_of_singleton.
        split; [intros [[->|Hx] Hn]; [contradiction|exact Hx]|].
        intros Hx. split; [right; exact Hx|]. intros ->. contradiction.
      * cbn [In] in Hin. destruct Hin as [H|[H|[H|[]]]]; lia.
  - unfold dirs_after_cleanup, cleanup_needed. rewrite Hd.
    cbn [truthy]. rewrite andb_false_r. cbn [andb].
    rewrite (before_finally_no_dir e req ds Hd).
    split; [|reflexivity].
    intros Hst. exfalso. revert Hd Hst. unfold before_finally, mk_state.
    destruct ((content_length req =? 0) || is_empty (github_url req));
      [intros _ H; discriminate H|].
    destruct (url_accepted (github_url req)); [|intros _ H; discriminate H].
    destruct (mkdtemp_name e _); [intros _ H; discriminate H|].
    destruct (git_clone e _ _) as [code ? ?|?];
      [destruct (code =? 0); [destruct (fst (editor_launch e _))|]|];
      intros H; discriminate H.
Qed.

Lemma disk_changes_only_on_success_witness :
  (forall d, rmtree_ok env_git_fails d = true)
  /\ (forall d, clone_target_dir (handle env_git_fails (post widgets_url) ∅)
                = Some d -> d ∉ (∅ : gset text))
  /\ response_status_code (handle env_git_fails (post widgets_url) ∅) <> 200
  /\ dirs (handle env_git_fails (post widgets_url) ∅) = ∅.
Proof.
  assert (H1 : forall d, rmtree_ok env_git_fails d = true) by reflexivity.
  assert (H2 : forall d,
             clone_target_dir (handle env_git_fails (post widgets_url) ∅)
             = Some d -> d ∉ (∅ : gset text))
    by (intros d _; apply not_elem_of_empty).
  assert (H3 : response_status_code
                 (handle env_git_fails (post widgets_url) ∅) <> 200)
    by (vm_compute; discriminate).
  split; [exact H1|split; [exact H2|split; [exact H3|]]].
  exact (proj2 (disk_changes_only_on_success env_git_fails
                  (post widgets_url) ∅ H1 H2) H3).
Defined.

End PathClaims.

(** * [int] and [strip] on the text of the marker *)

Section DecimalStrip.

Lemma int_space_is_space (c : Z) :
  is_int_space c = true -> is_space c = true.
Proof.
  unfold is_int_space. intros H.
  apply orb_true_iff in H as [H|H];
    [apply orb_true_iff in H as [H|H]|apply andb_true_iff in H as [_ H]];
    [| |exact H]; unfold is_space; zbool.
  - destruct (Z.leb_spec 9 c); [|lia]. destruct (Z.leb_spec c 13); [|lia].
    reflexivity.
  - subst c. reflexivity.
Qed.

Lemma not_space_not_int_space (c : Z) :
  is_space c = false -> is_int_space c = false.
Proof.
  intros H. destruct (is_int_space c) eqn:E; [|reflexivity].
  apply int_space_is_space in E. congruence.
Qed.

Lemma int_lstrip_split (t : text) :
  exists ws, t = ws ++ int_lstrip t
             /\ Forall (fun c => is_space c = true) ws.
Proof.
  induction t as [|c t (ws & Ht & Hws)]; simpl.
  - exists []. split; [reflexivity|constructor].
  - destruct (is_int_space c) eqn:E.
    + exists (c :: ws). split; [simpl; congruence|].
      constructor; [apply int_space_is_space, E|exact Hws].
    + exists []. split; [reflexivity|constructor].
Qed.

Lemma lstrip_spaces (ws r : text) :
  Forall (fun c => is_space c = true) ws -> lstrip (ws ++ r) = lstrip r.
Proof.
  induction 1 as [|c ws Hc _ IH]; simpl; [reflexivity|].
  rewrite Hc. exact IH.
Qed.

Lemma lstrip_solid (t r : text) :
  t <> [] -> Forall (fun c => is_space c = false) t -> lstrip (t ++ r) = t ++ r.
Proof.
  intros Hne H. destruct H as [|c t Hc _]; [congruence|].
  simpl. rewrite Hc. reflexivity.
Qed.

(** Around a text without blanks, [strip] removes exactly the blanks. *)
Lemma strip_core (ws1 core ws2 : text) :
  core <> [] ->
  Forall (fun c => is_space c = true) ws1 ->
  Forall (fun c => is_space c = false) core ->
  Forall (fun c => is_space c = true) ws2 ->
  strip (ws1 ++ core ++ ws2) = core.
Proof.
  intros Hne H1 Hc H2. unfold strip, rstrip.
  rewrite lstrip_spaces, lstrip_solid by assumption.
  rewrite rev_app_distr, lstrip_spaces by (apply Forall_rev, H2).
  rewrite <- (app_nil_r (rev core)), lstrip_solid.
  - rewrite app_nil_r. apply rev_involutive.
  - intros E. apply Hne. rewrite <- (rev_involutive core), E. reflexivity.
  - apply Forall_rev, Hc.
Qed.

Lemma int_digits_solid (n : nat) :
  forall (t : text) (acc v : Z),
    (length t <= n)%nat -> int_digits t acc = Some v ->
    Forall (fun c => is_space c = false) t.
Proof.
  induction n as [|n IH]; intros t acc v Hlen H.
  - destruct t; [constructor|simpl in Hlen; lia].
  - destruct t as [|c t]; [constructor|].
    simpl in Hlen. cbn [int_digits] in H.
    destruct (is_digit c) eqn:Hc.
    + constructor; [apply digit_not_space, Hc|].
      eapply IH; [|exact H]; lia.
    + destruct (Z.eqb_spec c 95) as [->|]; [|discriminate H].
      constructor; [reflexivity|].
      destruct t as [|d t]; [discriminate H|].
      destruct (is_digit d) eqn:Hd; [|discriminate H].
      constructor; [apply digit_not_space, Hd|].
      simpl in Hlen. eapply IH; [|exact H]; lia.
Qed.

Lemma int_unsigned_solid (t : text) (v : Z) :
  int_unsigned t = Some v ->
  t <> [] /\ Forall (fun c => is_space c = false) t.
Proof.
  destruct t as [|d t]; [discriminate|]. cbn [int_unsigned].
  destruct (is_digit d) eqn:Hd; [|discriminate]. intros H.
  split; [discriminate|].
  constructor; [apply digit_not_space, Hd|].
  eapply int_digits_solid; [reflexivity|exact H].
Qed.

(** What [int] reads from a text it also reads from the stripped text:
    [cleanup_pid_file] sees the number that the start-up check saw. *)
Lemma py_int_strip (t : text) (n : Z) :
  py_int t = Some n -> py_int (strip t) = Some n.
Proof.
  intros H.
  destruct (int_lstrip_split t) as (ws1 & Ht & Hws1).
  destruct (int_lstrip_split (rev (int_lstrip t))) as (ws2 & Hr & Hws2).
  set (core := rev (int_lstrip (rev (int_lstrip t)))) in *.
  assert (Hcore : core <> [] /\ Forall (fun c => is_space c = false) core).
  { unfold py_int in H. fold core in H.
    destruct core as [|c r]; [discriminate H|].
    split; [discriminate|].
    destruct (Z.eq_dec c 45) as [->|];
      [|destruct (Z.eq_dec c 43) as [->|]].
    - destruct (int_unsigned r) as [v|] eqn:E; [|discriminate H].
      constructor; [reflexivity|apply (int_unsigned_solid r v E)].
    - destruct (int_unsigned r) as [v|] eqn:E; [|discriminate H].
      constructor; [reflexivity|apply (int_unsigned_solid r v E)].
    - assert (Hu : int_unsigned (c :: r) = Some n).
      { destruct c as [|q|q]; try exact H.
        do 6 (destruct q as [q|q|]; try exact H); congruence. }
      apply (int_unsigned_solid _ _ Hu). }
  destruct Hcore as [Hne Hsolid].
  assert (Hsplit : t = ws1 ++ core ++ rev ws2).
  { rewrite Ht at 1. f_equal.
    rewrite <- (rev_involutive (int_lstrip t)), Hr, rev_app_distr.
    reflexivity. }
  assert (Hstrip : strip t = core).
  { rewrite Hsplit. apply strip_core; try assumption.
    apply Forall_rev, Hws2. }
  rewrite Hstrip. unfold py_int in H |- *. fold core in H.
  rewrite int_lstrip_id; [exact H|].
  eapply Forall_impl; [exact Hsolid|].
  intros c Hc. apply not_space_not_int_space, Hc.
Qed.

End DecimalStrip.

(** * Further properties of the instance guard *)

Ltac check_cases w port st0 :=
  unfold check_and_exit_if_already_running, create_pid_file, os_remove;
  cbn [PID_FILE set_PID_FILE];
  destruct (path_exists (set_PID_FILE (PID_FILE_TEMPLATE port) st0)
                        (PID_FILE_TEMPLATE port)) eqn:Hex;
  [destruct (stored_pid (set_PID_FILE (PID_FILE_TEMPLATE port) st0)
                        (PID_FILE_TEMPLATE port)) as [n|] eqn:Hpid;
   [destruct (n =? 0) eqn:Hz;
    [|destruct (is_process_running w n) as [ex|[|]] eqn:Hrun]|]|];
  try destruct (remove_error w (PID_FILE_TEMPLATE port)) as [rerr|] eqn:Hrm;
  cbn [PID_FILE set_PID_FILE set_files eprint files];
  try destruct (write_error w (PID_FILE_TEMPLATE port)) as [werr|] eqn:Hwr;
  cbn [fst snd PID_FILE set_PID_FILE set_files eprint files stderr].

Section Guard.

Variable w : os_env.
Variable port : Z.
Variable st0 : proc.

(** Whatever the check does, it leaves the global [PID_FILE] set to the
    marker of the port. *)
Lemma check_sets_PID_FILE :
  PID_FILE (snd (check_and_exit_if_already_running w port st0))
  = PID_FILE_TEMPLATE port.
Proof. check_cases w port st0; reflexivity. Qed.

(** The check either leaves the files alone, or removes the marker, or
    replaces it by its own. *)
Lemma check_files :
  files (snd (check_and_exit_if_already_running w port st0)) = files st0
  \/ files (snd (check_and_exit_if_already_running w port st0))
     = delete (PID_FILE_TEMPLATE port) (files st0)
  \/ files (snd (check_and_exit_if_already_running w port st0))
     = <[PID_FILE_TEMPLATE port := Content (str_of_Z (getpid w))]> (files st0).
Proof.
  check_cases w port st0; rewrite ?insert_delete_eq; auto.
Qed.

Lemma path_exists_set_PID_FILE (p q : text) :
  path_exists (set_PID_FILE p st0) q = path_exists st0 q.
Proof. reflexivity. Qed.

Lemma stored_pid_set_PID_FILE (p q : text) :
  stored_pid (set_PID_FILE p st0) q = stored_pid st0 q.
Proof. reflexivity. Qed.

(** The check of a marker naming a process that answers the probe. *)
Lemma check_running (pid : Z) :
  stored_pid st0 (PID_FILE_TEMPLATE port) = Some pid ->
  pid <> 0 ->
  is_process_running w pid = inr true ->
  fst (check_and_exit_if_already_running w port st0) = Exits 1
  /\ files (snd (check_and_exit_if_already_running w port st0)) = files st0.
Proof.
  intros Hpid Hnz Hrun.
  destruct (stored_pid_exists _ _ _ Hpid) as (t & Hfile & _).
  unfold check_and_exit_if_already_running. cbn [PID_FILE set_PID_FILE].
  rewrite (path_exists_true (set_PID_FILE _ st0) _ _ Hfile).
  rewrite stored_pid_set_PID_FILE, Hpid.
  destruct (Z.eqb_spec pid 0); [contradiction|].
  rewrite Hrun. split; reflexivity.
Qed.

(** After a check that returned, the marker holds the identifier of the
    current process. *)
Lemma check_returned (st : proc) :
  check_and_exit_if_already_running w port st0 = (Returns tt, st) ->
  PID_FILE st = PID_FILE_TEMPLATE port
  /\ files st !! PID_FILE_TEMPLATE port
     = Some (Content (str_of_Z (getpid w))).
Proof.
  intros H.
  assert (Hret : fst (check_and_exit_if_already_running w port st0)
                 = Returns tt) by (rewrite H; reflexivity).
  assert (Hst : st = snd (check_and_exit_if_already_running w port st0))
    by (rewrite H; reflexivity).
  subst st. clear H. revert Hret.
  check_cases w port st0; intros H; try discriminate H;
    (split; [reflexivity|apply lookup_insert_eq]).
Qed.

End Guard.

Section GuardClaims.

(** X12: when the start-up check returns, the global [PID_FILE] names the
    marker of the port, the marker holds the identifier of the current
    process, every other file is as before, and nothing was printed. *)
Theorem check_returns_with_own_marker (w : os_env) (port : Z) (st0 : proc) :
  fst (check_and_exit_if_already_running w port st0) = Returns tt ->
  PID_FILE (snd (check_and_exit_if_already_running w port st0))
  = PID_FILE_TEMPLATE port
  /\ files (snd (check_and_exit_if_already_running w port st0))
     = <[PID_FILE_TEMPLATE port := Content (str_of_Z (getpid w))]> (files st0)
  /\ stderr (snd (check_and_exit_if_already_running w port st0)) = stderr st0.
Proof.
  check_cases w port st0; intros H; try discriminate H;
    rewrite ?insert_delete_eq; repeat split.
Qed.

Lemma check_returns_with_own_marker_witness :
  fst (check_and_exit_if_already_running os_session 45678
         (marker_left_by 4242)) = Returns tt
  /\ files (snd (check_and_exit_if_already_running os_session 45678
                   (marker_left_by 4242)))
     = <[PID_FILE_TEMPLATE 45678 := Content (str_of_Z 5000)]>
         (files (marker_left_by 4242)).
Proof.
  assert (H : fst (check_and_exit_if_already_running os_session 45678
                     (marker_left_by 4242)) = Returns tt)
    by (vm_compute; reflexivity).
  split; [exact H|].
  exact (proj1 (proj2 (check_returns_with_own_marker os_session 45678
                         (marker_left_by 4242) H))).
Defined.

(** X13: the instance guard touches no file but the marker of its port:
    any other path reads the same after the start-up check, and after the
    exit hook that follows it. *)
Theorem guard_touches_only_the_marker (w : os_env) (port : Z) (st0 : proc)
    (q : text) :
  q <> PID_FILE_TEMPLATE port ->
  files (snd (check_and_exit_if_already_running w port st0)) !! q
  = files st0 !! q
  /\ files (snd (cleanup_pid_file w
                   (snd (check_and_exit_if_already_running w port st0)))) !! q
     = files st0 !! q.
Proof.
  intros Hq.
  assert (Hcheck : files (snd (check_and_exit_if_already_running w port st0))
                     !! q = files st0 !! q).
  { destruct (check_files w port st0) as [E|[E|E]]; rewrite E.
    - reflexivity.
    - apply lookup_delete_ne. congruence.
    - apply lookup_insert_ne. congruence. }
  split; [exact Hcheck|].
  destruct (cleanup_pid_file_cases w
              (snd (check_and_exit_if_already_running w port st0)))
    as [E|[E _]]; rewrite E; cbn [snd set_files files].
  - exact Hcheck.
  - rewrite check_sets_PID_FILE, lookup_delete_ne by congruence.
    exact Hcheck.
Qed.

Lemma guard_touches_only_the_marker_witness :
  lit "/tmp/github_listener_8080.pid" <> PID_FILE_TEMPLATE 45678
  /\ files (snd (cleanup_pid_file os_session
                   (snd (check_and_exit_if_already_running os_session 45678
                           (marker_left_by 4242)))))
       !! lit "/tmp/github_listener_8080.pid"
     = files (marker_left_by 4242) !! lit "/tmp/github_listener_8080.pid".
Proof.
  assert (H : lit "/tmp/github_listener_8080.pid" <> PID_FILE_TEMPLATE 45678)
    by (vm_compute; discriminate).
  split; [exact H|].
  exact (proj2 (guard_touches_only_the_marker os_session 45678
                  (marker_left_by 4242) _ H)).
Defined.

(** X14: a marker that cannot be read as a number, or that holds zero, is
    taken for stale: when it can be removed and the new one written, the
    check returns and the marker holds the identifier of the current
    process. *)
Theorem unreadable_marker_is_stale (w : os_env) (port : Z) (st0 : proc) :
  is_Some (files st0 !! PID_FILE_TEMPLATE port) ->
  stored_pid st0 (PID_FILE_TEMPLATE port) = None
  \/ stored_pid st0 (PID_FILE_TEMPLATE port) = Some 0 ->
  remove_error w (PID_FILE_TEMPLATE port) = None ->
  write_error w (PID_FILE_TEMPLATE port) = None ->
  fst (check_and_exit_if_already_running w port st0) = Returns tt
  /\ files (snd (check_and_exit_if_already_running w port st0))
     = <[PID_FILE_TEMPLATE port := Content (str_of_Z (getpid w))]> (files st0).
Proof.
  intros [f Hfile] Hpid Hrm Hwr.
  unfold check_and_exit_if_already_running. cbn [PID_FILE set_PID_FILE].
  rewrite (path_exists_true (set_PID_FILE _ st0) _ _ Hfile).
  rewrite stored_pid_set_PID_FILE.
  assert (Hstale :
            match stored_pid st0 (PID_FILE_TEMPLATE port) with
            | Some n => if n =? 0 then inr false else is_process_running w n
            | None => inr false
            end = inr false)
    by (destruct Hpid as [-> | ->]; reflexivity).
  rewrite Hstale. unfold os_remove, create_pid_file.
  cbn [PID_FILE set_PID_FILE]. rewrite Hrm.
  cbn [PID_FILE set_PID_FILE set_files files]. rewrite Hwr.
  cbn [fst snd set_files files]. rewrite insert_delete_eq.
  split; reflexivity.
Qed.

Lemma unreadable_marker_is_stale_witness :
  is_Some (files (marker_holding (lit "starting")) !! PID_FILE_TEMPLATE 45678)
  /\ stored_pid (marker_holding (lit "starting")) (PID_FILE_TEMPLATE 45678)
     = None
  /\ fst (check_and_exit_if_already_running os_session 45678
            (marker_holding (lit "starting"))) = Returns tt.
Proof.
  assert (H1 : is_Some (files (marker_holding (lit "starting"))
                          !! PID_FILE_TEMPLATE 45678)).
  { exists (Content (lit "starting")). vm_compute. reflexivity. }
  assert (H2 : stored_pid (marker_holding (lit "starting"))
                          (PID_FILE_TEMPLATE 45678) = None)
    by (vm_compute; reflexivity).
  split; [exact H1|split; [exact H2|]].
  exact (proj1 (unreadable_marker_is_stale os_session 45678
                  (marker_holding (lit "starting")) H1 (or_introl H2)
                  eq_refl eq_refl)).
Defined.

(** X15: a marker holding a number outside the range of a C [int] makes
    [os.kill] raise [OverflowError], which is no [OSError]: the exception
    leaves [is_process_running] and the check, and the files are as
    before. *)
Theorem oversized_pid_escapes (w : os_env) (port : Z) (st0 : proc) (pid : Z) :
  stored_pid st0 (PID_FILE_TEMPLATE port) = Some pid ->
  pid < - 2 ^ 31 \/ 2 ^ 31 <= pid ->
  (exists msg, fst (check_and_exit_if_already_running w port st0)
               = Raises (OverflowError msg))
  /\ files (snd (check_and_exit_if_already_running w port st0)) = files st0
  /\ stderr (snd (check_and_exit_if_already_running w port st0)) = stderr st0.
Proof.
  intros Hpid Hrange.
  destruct (stored_pid_exists _ _ _ Hpid) as (t & Hfile & _).
  unfold check_and_exit_if_already_running. cbn [PID_FILE set_PID_FILE].
  rewrite (path_exists_true (set_PID_FILE _ st0) _ _ Hfile).
  rewrite stored_pid_set_PID_FILE, Hpid.
  destruct (Z.eqb_spec pid 0); [lia|].
  assert (Hrun : is_process_running w pid
                 = inl (OverflowError
                          (lit "signed integer is greater than maximum"))).
  { unfold is_process_running, os_kill0.
    destruct (Z.ltb_spec pid (- 2 ^ 31)); [reflexivity|].
    destruct (Z.leb_spec (2 ^ 31) pid); [reflexivity|lia]. }
  rewrite Hrun. cbn [fst snd set_PID_FILE files stderr]. eauto.
Qed.

Lemma oversized_pid_escapes_witness :
  stored_pid (marker_left_by 4294967296) (PID_FILE_TEMPLATE 45678)
  = Some 4294967296
  /\ (4294967296 < - 2 ^ 31 \/ 2 ^ 31 <= 4294967296)
  /\ files (snd (check_and_exit_if_already_running os_session 45678
                   (marker_left_by 4294967296)))
     = files (marker_left_by 4294967296).
Proof.
  assert (H1 : stored_pid (marker_left_by 4294967296) (PID_FILE_TEMPLATE 45678)
               = Some 4294967296) by (vm_compute; reflexivity).
  assert (H2 : 4294967296 < - 2 ^ 31 \/ 2 ^ 31 <= 4294967296) by lia.
  split; [exact H1|split; [exact H2|]].
  exact (proj1 (proj2 (oversized_pid_escapes os_session 45678
                         (marker_left_by 4294967296) 4294967296 H1 H2))).
Defined.

End GuardClaims.

(** * Start-up: the port argument, the pre-flight checks and [main] *)

Section Startup.

Variable h : host.

Lemma pre_flight_cases :
  pre_flight_checks h = (Returns tt, [])
  \/ exists m, pre_flight_checks h = (Exits 1, notify_error (host_env h) m).
Proof.
  unfold pre_flight_checks.
  destruct (truthy (which (host_env h) (lit "git"))); cbn [negb]; [|eauto].
  destruct (truthy (which (host_env h) (lit "code"))); cbn [negb]; [|eauto].
  destruct (isdir h _); cbn [negb]; [|eauto].
  destruct (access_w h _) as [err|[|]]; eauto.
Qed.

Lemma pre_flight_returns :
  fst (pre_flight_checks h) = Returns tt <->
  truthy (which (host_env h) (lit "git")) = true
  /\ truthy (which (host_env h) (lit "code")) = true
  /\ isdir h (CLONE_BASE_DIR (host_env h)) = true
  /\ access_w h (CLONE_BASE_DIR (host_env h)) = inr true.
Proof.
  unfold pre_flight_checks.
  destruct (truthy (which (host_env h) (lit "git"))); cbn [negb fst];
    [|split; [discriminate|intros [H _]; discriminate H]].
  destruct (truthy (which (host_env h) (lit "code"))); cbn [negb fst];
    [|split; [discriminate|intros (_ & H & _); discriminate H]].
  destruct (isdir h _); cbn [negb fst];
    [|split; [discriminate|intros (_ & _ & H & _); discriminate H]].
  destruct (access_w h _) as [err|[|]]; cbn [fst];
    split; try discriminate; try (intros (_ & _ & _ & H); discriminate H);
    auto.
Qed.

Lemma pre_flight_passed :
  fst (pre_flight_checks h) = Returns tt ->
  pre_flight_checks h = (Returns tt, []).
Proof.
  intros H. destruct pre_flight_cases as [E|[m E]]; [exact E|].
  rewrite E in H. discriminate H.
Qed.

Lemma on_server_oserror_console (p : Z) (st : proc) (err : text) (s : step) :
  In s (on_server_oserror h p st err) -> exists ev, s = Console ev.
Proof.
  unfold on_server_oserror. rewrite in_app_iff. intros [H|H].
  - apply in_map_iff in H as (ev & <- & _). eauto.
  - destruct (_ && _); [|contradiction].
    destruct H as [<-|[]]. eauto.
Qed.

Lemma run_program_eq (argv : list text) (st0 : proc) :
  run_program h argv st0
  = (exit_status (fst (fst (main h argv st0))),
     snd (cleanup_pid_file (host_os h) (snd (fst (main h argv st0)))),
     snd (main h argv st0)).
Proof.
  unfold run_program. destruct (main h argv st0) as [[o st] steps].
  reflexivity.
Qed.

(** Once the port is known and the pre-flight checks have passed, a check
    that does not return ends [main] with its outcome. *)
Lemma main_guard_stops (argv : list text) (st0 : proc) (port : Z) :
  parse_port argv = Returns port ->
  fst (pre_flight_checks h) = Returns tt ->
  fst (check_and_exit_if_already_running (host_os h) port st0) <> Returns tt ->
  main h argv st0
  = (fst (check_and_exit_if_already_running (host_os h) port st0),
     snd (check_and_exit_if_already_running (host_os h) port st0), []).
Proof.
  intros Hparse Hpre Hne. unfold main.
  rewrite Hparse, (pre_flight_passed Hpre).
  destruct (check_and_exit_if_already_running (host_os h) port st0)
    as [[[]|c|ex] st]; cbn [fst snd map] in *; [congruence|reflexivity..].
Qed.

(** The process state [main] ends with is the initial one, or the one the
    start-up check left. *)
Lemma main_proc (argv : list text) (st0 : proc) :
  snd (fst (main h argv st0)) = st0
  \/ exists port,
      parse_port argv = Returns port
      /\ fst (pre_flight_checks h) = Returns tt
      /\ snd (fst (main h argv st0))
         = snd (check_and_exit_if_already_running (host_os h) port st0).
Proof.
  unfold main.
  destruct (parse_port argv) as [port| |] eqn:Hparse; [|left; reflexivity..].
  destruct pre_flight_cases as [E|[m E]]; rewrite E; [|left; reflexivity].
  right. exists port. split; [reflexivity|split; [reflexivity|]].
  destruct (check_and_exit_if_already_running (host_os h) port st0)
    as [[[]|c|ex] st]; [|reflexivity..].
  destruct (bind_error h port); [reflexivity|].
  destruct (serve_forever h); reflexivity.
Qed.

(** The port argument is accepted, or the program exits with status 1. *)
Lemma parse_port_outcome (argv : list text) :
  (exists port, parse_port argv = Returns port) \/ parse_port argv = Exits 1.
Proof.
  unfold parse_port. destruct argv as [|prog [|arg rest]]; eauto.
  destruct (py_int arg) as [p|]; [|auto].
  destruct ((1024 <=? p) && (p <=? 65535)); eauto.
Qed.

End Startup.

Section ExitHook.

Variable w : os_env.
Variable st : proc.

(** The exit hook does nothing before the check has set [PID_FILE]. *)
Lemma cleanup_before_check :
  PID_FILE st = [] -> cleanup_pid_file w st = (Returns tt, st).
Proof. unfold cleanup_pid_file. intros ->. reflexivity. Qed.

(** The exit hook leaves a marker that names another process. *)
Lemma cleanup_keeps_other (pid : Z) :
  stored_pid st (PID_FILE st) = Some pid -> pid <> getpid w ->
  snd (cleanup_pid_file w st) = st.
Proof.
  intros Hpid Hne.
  destruct (cleanup_pid_file_cases w st) as [E|(E & t & Hf & Hv & _)];
    [rewrite E; reflexivity|].
  exfalso.
  destruct (stored_pid_exists _ _ _ Hpid) as (t' & Hf' & Hv').
  rewrite Hf in Hf'. injection Hf' as <-.
  apply py_int_strip in Hv'. congruence.
Qed.

(** The exit hook removes a marker that names the current process. *)
Lemma cleanup_removes_own :
  stored_pid st (PID_FILE st) = Some (getpid w) ->
  PID_FILE st <> [] ->
  remove_error w (PID_FILE st) = None ->
  files (snd (cleanup_pid_file w st)) = delete (PID_FILE st) (files st).
Proof.
  intros Hpid Hne Hrm.
  destruct (stored_pid_exists _ _ _ Hpid) as (t & Hf & Hv).
  apply py_int_strip in Hv.
  unfold cleanup_pid_file, read_file, int_of, os_remove.
  rewrite (path_exists_true st _ _ Hf), Hf, Hv, Z.eqb_refl, Hrm.
  destruct (PID_FILE st); [congruence|]. reflexivity.
Qed.

End ExitHook.

Ltac step_in :=
  repeat match goal with
  | H : False |- _ => contradiction
  | H : _ \/ _ |- _ => destruct H
  | H : In _ (_ ++ _) |- _ => apply in_app_or in H
  | H : In _ (_ :: _) |- _ => cbn [In] in H
  | H : In _ [] |- _ => contradiction
  | H : In _ (map Console _) |- _ => apply in_map_iff in H as (? & ? & _)
  | H : In _ (on_server_oserror _ _ _ _) |- _ =>
    apply on_server_oserror_console in H as [? ?]
  | H : context [listener_stopped] |- _ => unfold listener_stopped in H
  | H : @eq step _ _ |- _ => first [discriminate H|injection H as H; subst]
  end.

(** A step that is in a list of steps. *)
Ltac find_or :=
  match goal with
  | |- _ \/ _ => first [left; find_or|right; find_or]
  | |- _ = _ => reflexivity
  end.

Ltac step_found :=
  cbn [In]; rewrite ?in_app_iff; cbn [In]; find_or.

Section StartupClaims.

(** X16: the port [main] goes on with lies between 1024 and 65535; it is
    the number the first argument reads as when there is an argument, and
    the default otherwise. *)
Theorem port_is_checked (argv : list text) (port : Z) :
  parse_port argv = Returns port ->
  1024 <= port <= 65535
  /\ match argv with
     | _ :: arg :: _ => py_int arg = Some port
     | _ => port = DEFAULT_PORT
     end.
Proof.
  unfold parse_port.
  destruct argv as [|prog [|arg rest]];
    try (intros [= <-]; split; [unfold DEFAULT_PORT; lia|reflexivity]).
  destruct (py_int arg) as [p|]; [|discriminate].
  destruct (Z.leb_spec 1024 p); [|discriminate].
  destruct (Z.leb_spec p 65535); [|discriminate].
  intros [= <-]. split; [lia|reflexivity].
Qed.

Lemma port_is_checked_witness :
  parse_port [lit "github_listener.py"; lit " +8_080 "] = Returns 8080
  /\ 1024 <= 8080 <= 65535.
Proof.
  assert (H : parse_port [lit "github_listener.py"; lit " +8_080 "]
              = Returns 8080) by (vm_compute; reflexivity).
  split; [exact H|].
  exact (proj1 (port_is_checked _ _ H)).
Defined.

(** X17: every port from 1024 to 65535, written in decimal as the first
    argument, is the port [main] works with, whatever arguments follow. *)
Theorem port_round_trip (prog : text) (rest : list text) (port : Z) :
  1024 <= port <= 65535 ->
  parse_port (prog :: str_of_Z port :: rest) = Returns port.
Proof.
  intros Hr. unfold parse_port.
  rewrite (proj1 (py_int_str_of_Z port)).
  destruct (Z.leb_spec 1024 port); [|lia].
  destruct (Z.leb_spec port 65535); [|lia].
  reflexivity.
Qed.

Lemma port_round_trip_witness :
  1024 <= 8080 <= 65535
  /\ parse_port [lit "github_listener.py"; str_of_Z 8080] = Returns 8080.
Proof.
  assert (H : 1024 <= 8080 <= 65535) by lia.
  split; [exact H|].
  exact (port_round_trip (lit "github_listener.py") [] 8080 H).
Defined.

(** X18: when the port argument is refused or a pre-flight check fails, the
    program ends with status 1 before the instance guard runs: the process
    state and the files are untouched, and nothing but console output and
    notifications has happened. *)
Theorem startup_failure_touches_nothing (h : host) (argv : list text)
    (st0 : proc) :
  PID_FILE st0 = [] ->
  parse_port argv = Exits 1 \/ fst (pre_flight_checks h) = Exits 1 ->
  exists steps,
    run_program h argv st0 = (1, st0, steps)
    /\ Forall (fun s => exists ev, s = Console ev) steps.
Proof.
  intros Hinit Hfail. rewrite run_program_eq. unfold main.
  destruct (parse_port argv) as [port| |] eqn:Hparse.
  - destruct Hfail as [Hfail|Hfail]; [discriminate Hfail|].
    destruct (pre_flight_checks h) as [o checks].
    cbn [fst] in Hfail. subst o. cbn [fst snd exit_status].
    rewrite (cleanup_before_check _ _ Hinit).
    eexists. split; [reflexivity|].
    apply List.Forall_forall. intros s Hs.
    apply in_map_iff in Hs as (ev & <- & _). eauto.
  - destruct (parse_port_outcome argv) as [[p Hp]|Hp];
      rewrite Hp in Hparse; [discriminate Hparse|].
    injection Hparse as <-. cbn [fst snd exit_status].
    rewrite (cleanup_before_check _ _ Hinit).
    exists []. split; [reflexivity|constructor].
  - destruct (parse_port_outcome argv) as [[p Hp]|Hp];
      rewrite Hp in Hparse; discriminate Hparse.
Qed.

Lemma startup_failure_touches_nothing_witness :
  PID_FILE no_marker = []
  /\ fst (pre_flight_checks host_without_git) = Exits 1
  /\ exists steps,
      run_program host_without_git [lit "github_listener.py"] no_marker
      = (1, no_marker, steps)
      /\ Forall (fun s => exists ev, s = Console ev) steps.
Proof.
  assert (H1 : PID_FILE no_marker = []) by reflexivity.
  assert (H2 : fst (pre_flight_checks host_without_git) = Exits 1)
    by (vm_compute; reflexivity).
  split; [exact H1|split; [exact H2|]].
  exact (startup_failure_touches_nothing host_without_git
           [lit "github_listener.py"] no_marker H1 (or_intror H2)).
Defined.

(** X19: a second start while the marker names another process that answers
    the probe ends with status 1 without installing a signal handler or
    binding the port, and the exit hook leaves every file, the marker of the
    running instance included, as it was. *)
Theorem second_instance_leaves_marker (h : host) (argv : list text)
    (st0 : proc) (port pid : Z) :
  parse_port argv = Returns port ->
  fst (pre_flight_checks h) = Returns tt ->
  stored_pid st0 (PID_FILE_TEMPLATE port) = Some pid ->
  pid <> 0 -> pid <> getpid (host_os h) ->
  is_process_running (host_os h) pid = inr true ->
  exists st, run_program h argv st0 = (1, st, []) /\ files st = files st0.
Proof.
  intros Hparse Hpre Hpid Hnz Hother Hrun.
  destruct (check_running (host_os h) port st0 pid Hpid Hnz Hrun)
    as [Hexit Hfiles].
  rewrite run_program_eq, (main_guard_stops h argv st0 port Hparse Hpre)
    by (rewrite Hexit; discriminate).
  cbn [fst snd]. rewrite Hexit. cbn [exit_status].
  eexists. split; [reflexivity|].
  rewrite (cleanup_keeps_other _ _ pid); [exact Hfiles| |exact Hother].
  rewrite check_sets_PID_FILE, (stored_pid_files st0 _ _ Hfiles).
  exact Hpid.
Qed.

Lemma second_instance_leaves_marker_witness :
  parse_port [lit "github_listener.py"] = Returns 45678
  /\ fst (pre_flight_checks host_workstation) = Returns tt
  /\ stored_pid (marker_left_by 4999) (PID_FILE_TEMPLATE 45678) = Some 4999
  /\ 4999 <> 0 /\ 4999 <> getpid (host_os host_workstation)
  /\ is_process_running (host_os host_workstation) 4999 = inr true
  /\ exists st,
      run_program host_workstation [lit "github_listener.py"]
                  (marker_left_by 4999) = (1, st, [])
      /\ files st = files (marker_left_by 4999).
Proof.
  assert (H1 : parse_port [lit "github_listener.py"] = Returns 45678)
    by reflexivity.
  assert (H2 : fst (pre_flight_checks host_workstation) = Returns tt)
    by (vm_compute; reflexivity).
  assert (H3 : stored_pid (marker_left_by 4999) (PID_FILE_TEMPLATE 45678)
               = Some 4999) by (vm_compute; reflexivity).
  assert (H4 : 4999 <> 0) by lia.
  assert (H5 : 4999 <> getpid (host_os host_workstation))
    by (vm_compute; discriminate).
  assert (H6 : is_process_running (host_os host_workstation) 4999 = inr true)
    by (vm_compute; reflexivity).
  repeat (split; [assumption|]).
  exact (second_instance_leaves_marker host_workstation
           [lit "github_listener.py"] (marker_left_by 4999) 45678 4999
           H1 H2 H3 H4 H5 H6).
Defined.

(** X20: a marker left behind with the identifier that the starting process
    now has itself is taken for a running instance: the program ends with
    status 1 without binding the port, and its exit hook, finding its own
    identifier in the marker, removes it. *)
Theorem recycled_pid_marker (h : host) (argv : list text) (st0 : proc)
    (port : Z) :
  parse_port argv = Returns port ->
  fst (pre_flight_checks h) = Returns tt ->
  stored_pid st0 (PID_FILE_TEMPLATE port) = Some (getpid (host_os h)) ->
  getpid (host_os h) <> 0 ->
  is_process_running (host_os h) (getpid (host_os h)) = inr true ->
  remove_error (host_os h) (PID_FILE_TEMPLATE port) = None ->
  exists st,
    run_program h argv st0 = (1, st, [])
    /\ files st = delete (PID_FILE_TEMPLATE port) (files st0).
Proof.
  intros Hparse Hpre Hpid Hnz Hrun Hrm.
  destruct (check_running (host_os h) port st0 _ Hpid Hnz Hrun)
    as [Hexit Hfiles].
  rewrite run_program_eq, (main_guard_stops h argv st0 port Hparse Hpre)
    by (rewrite Hexit; discriminate).
  cbn [fst snd]. rewrite Hexit. cbn [exit_status].
  eexists. split; [reflexivity|].
  rewrite cleanup_removes_own; rewrite ?check_sets_PID_FILE.
  - rewrite Hfiles. reflexivity.
  - rewrite (stored_pid_files st0 _ _ Hfiles). exact Hpid.
  - destruct (PID_FILE_TEMPLATE port) eqn:E; [discriminate E|discriminate].
  - exact Hrm.
Qed.

Lemma recycled_pid_marker_witness :
  parse_port [lit "github_listener.py"] = Returns 45678
  /\ fst (pre_flight_checks host_workstation) = Returns tt
  /\ stored_pid (marker_left_by 5000) (PID_FILE_TEMPLATE 45678)
     = Some (getpid (host_os host_workstation))
  /\ getpid (host_os host_workstation) <> 0
  /\ is_process_running (host_os host_workstation)
                        (getpid (host_os host_workstation)) = inr true
  /\ remove_error (host_os host_workstation) (PID_FILE_TEMPLATE 45678) = None
  /\ exists st,
      run_program host_workstation [lit "github_listener.py"]
                  (marker_left_by 5000) = (1, st, [])
      /\ files st
         = delete (PID_FILE_TEMPLATE 45678) (files (marker_left_by 5000)).
Proof.
  assert (H1 : parse_port [lit "github_listener.py"] = Returns 45678)
    by reflexivity.
  assert (H2 : fst (pre_flight_checks host_workstation) = Returns tt)
    by (vm_compute; reflexivity).
  assert (H3 : stored_pid (marker_left_by 5000) (PID_FILE_TEMPLATE 45678)
               = Some (getpid (host_os host_workstation)))
    by (vm_compute; reflexivity).
  assert (H4 : getpid (host_os host_workstation) <> 0)
    by (vm_compute; discriminate).
  assert (H5 : is_process_running (host_os host_workstation)
                 (getpid (host_os host_workstation)) = inr true)
    by (vm_compute; reflexivity).
  assert (H6 : remove_error (host_os host_workstation)
                 (PID_FILE_TEMPLATE 45678) = None) by reflexivity.
  repeat (split; [assumption|]).
  exact (recycled_pid_marker host_workstation [lit "github_listener.py"]
           (marker_left_by 5000) 45678 H1 H2 H3 H4 H5 H6).
Defined.

(** X21: started on a port without a marker, with a marker that can be
    written and removed, the program leaves the files as it found them
    however it ends: a failed pre-flight check, a port that cannot be bound,
    an error of the accept loop or a shutdown. *)
Theorem marker_removed_on_every_exit (h : host) (argv : list text)
    (st0 : proc) (port : Z) :
  PID_FILE st0 = [] ->
  parse_port argv = Returns port ->
  files st0 !! PID_FILE_TEMPLATE port = None ->
  write_error (host_os h) (PID_FILE_TEMPLATE port) = None ->
  remove_error (host_os h) (PID_FILE_TEMPLATE port) = None ->
  files (snd (fst (run_program h argv st0))) = files st0.
Proof.
  intros Hinit Hparse Hfree Hwr Hrm.
  rewrite run_program_eq. cbn [fst snd].
  destruct (main_proc h argv st0) as [E|(port' & Hparse' & _ & E)];
    rewrite E.
  - rewrite (cleanup_before_check _ _ Hinit). reflexivity.
  - rewrite Hparse in Hparse'. injection Hparse' as <-.
    apply (acquire_then_release (host_os h) port st0 Hfree Hwr Hrm).
Qed.

Lemma marker_removed_on_every_exit_witness :
  PID_FILE no_marker = []
  /\ parse_port [lit "github_listener.py"] = Returns 45678
  /\ files no_marker !! PID_FILE_TEMPLATE 45678 = None
  /\ write_error (host_os host_port_taken) (PID_FILE_TEMPLATE 45678) = None
  /\ remove_error (host_os host_port_taken) (PID_FILE_TEMPLATE 45678) = None
  /\ files (snd (fst (run_program host_port_taken [lit "github_listener.py"]
                                  no_marker)))
     = files no_marker.
Proof.
  assert (H1 : PID_FILE no_marker = []) by reflexivity.
  assert (H2 : parse_port [lit "github_listener.py"] = Returns 45678)
    by reflexivity.
  assert (H3 : files no_marker !! PID_FILE_TEMPLATE 45678 = None)
    by reflexivity.
  assert (H4 : write_error (host_os host_port_taken)
                 (PID_FILE_TEMPLATE 45678) = None) by reflexivity.
  assert (H5 : remove_error (host_os host_port_taken)
                 (PID_FILE_TEMPLATE 45678) = None) by reflexivity.
  repeat (split; [assumption|]).
  exact (marker_removed_on_every_exit host_port_taken
           [lit "github_listener.py"] no_marker 45678 H1 H2 H3 H4 H5).
Defined.

(** X22: once [main] has tried to bind the port, it ends by printing
    [Listener stopped.]; it closes the server socket exactly when the bind
    succeeded, which is also when the accept loop was entered; it returns
    exactly when the bind succeeded and the loop ended by a shutdown, and
    exits with status 1 otherwise. *)
Theorem listener_stops_after_bind (h : host) (argv : list text) (st0 : proc)
    (port : Z) :
  In (Bind port) (snd (main h argv st0)) ->
  (exists steps, snd (main h argv st0) = steps ++ [listener_stopped])
  /\ (In ServerClose (snd (main h argv st0)) <-> bind_error h port = None)
  /\ (In ServeForever (snd (main h argv st0)) <-> bind_error h port = None)
  /\ (fst (fst (main h argv st0)) = Returns tt
      <-> bind_error h port = None /\ serve_forever h = Shutdown)
  /\ (fst (fst (main h argv st0)) = Returns tt
      \/ fst (fst (main h argv st0)) = Exits 1).
Proof.
  unfold main.
  destruct (parse_port argv) as [p| |]; cbn [snd];
    [|contradiction|contradiction].
  destruct (pre_flight_cases h) as [E|[m E]]; rewrite E;
    [|cbn [snd]; intros H; step_in].
  destruct (check_and_exit_if_already_running (host_os h) p st0)
    as [[[]|c|ex] st]; cbn [snd map app];
    [|contradiction|contradiction].
  destruct (bind_error h p) as [berr|] eqn:Hbind;
    [|destruct (serve_forever h) as [|serr|serr] eqn:Hserve];
    cbn [fst snd app]; intros Hin;
    (assert (port = p) as -> by (step_in; reflexivity));
    clear Hin; rewrite Hbind.
  - split; [exists ([Signal (lit "SIGINT"); Signal (lit "SIGTERM"); Bind p]
                    ++ on_server_oserror h p st berr); reflexivity|].
    split; [split; [intros H; step_in|discriminate]|].
    split; [split; [intros H; step_in|discriminate]|].
    split; [split; [discriminate|intros [H _]; discriminate H]|].
    right. reflexivity.
  - split; [exists ([Signal (lit "SIGINT"); Signal (lit "SIGTERM"); Bind p]
                    ++ (map Console
                          (notify_info (host_env h)
                             (lit "GitHub Listener (HTTP) started"))
                        ++ [ServeForever]) ++ [ServerClose]);
            cbn [app]; rewrite <- ?app_assoc; reflexivity|].
    split; [split; [reflexivity|intros _; step_found]|].
    split; [split; [reflexivity|intros _; step_found]|].
    split; [split; [auto|reflexivity]|].
    left. reflexivity.
  - split; [exists ([Signal (lit "SIGINT"); Signal (lit "SIGTERM"); Bind p]
                    ++ (map Console
                          (notify_info (host_env h)
                             (lit "GitHub Listener (HTTP) started"))
                        ++ [ServeForever])
                    ++ on_server_oserror h p st serr ++ [ServerClose]);
            cbn [app]; rewrite <- ?app_assoc; reflexivity|].
    split; [split; [reflexivity|intros _; step_found]|].
    split; [split; [reflexivity|intros _; step_found]|].
    split; [split; [discriminate|intros [_ H]; discriminate H]|].
    right. reflexivity.
  - split; [exists ([Signal (lit "SIGINT"); Signal (lit "SIGTERM"); Bind p]
                    ++ (map Console
                          (notify_info (host_env h)
                             (lit "GitHub Listener (HTTP) started"))
                        ++ [ServeForever])
                    ++ map Console
                         (notify_error (host_env h)
                            (lit "An unexpected error occurred with the HTTP server: "
                             ++ serr))
                    ++ [ServerClose]);
            cbn [app]; rewrite <- ?app_assoc; reflexivity|].
    split; [split; [reflexivity|intros _; step_found]|].
    split; [split; [reflexivity|intros _; step_found]|].
    split; [split; [discriminate|intros [_ H]; discriminate H]|].
    right. reflexivity.
Qed.

Lemma listener_stops_after_bind_witness :
  In (Bind 45678)
     (snd (main host_port_taken [lit "github_listener.py"] no_marker))
  /\ (In ServerClose
         (snd (main host_port_taken [lit "github_listener.py"] no_marker))
      <-> bind_error host_port_taken 45678 = None).
Proof.
  assert (H : In (Bind 45678)
                 (snd (main host_port_taken [lit "github_listener.py"]
                            no_marker)))
    by (vm_compute; do 2 right; left; reflexivity).
  split; [exact H|].
  exact (proj1 (proj2 (listener_stops_after_bind host_port_taken
                         [lit "github_listener.py"] no_marker 45678 H))).
Defined.

(** X23: [main] binds a port only after everything else is in place: the
    port is the one read from the arguments, the pre-flight checks have
    passed, the start-up check has returned and the marker of the port
    holds the identifier of the process, and the two signal handlers were
    installed just before. *)
Theorem binds_only_after_all_checks (h : host) (argv : list text)
    (st0 : proc) (port : Z) :
  In (Bind port) (snd (main h argv st0)) ->
  parse_port argv = Returns port
  /\ fst (pre_flight_checks h) = Returns tt
  /\ fst (check_and_exit_if_already_running (host_os h) port st0) = Returns tt
  /\ PID_FILE (snd (fst (main h argv st0))) = PID_FILE_TEMPLATE port
  /\ files (snd (fst (main h argv st0))) !! PID_FILE_TEMPLATE port
     = Some (Content (str_of_Z (getpid (host_os h))))
  /\ exists steps,
      snd (main h argv st0)
      = [Signal (lit "SIGINT"); Signal (lit "SIGTERM"); Bind port] ++ steps.
Proof.
  unfold main.
  destruct (parse_port argv) as [p| |]; cbn [snd];
    [|contradiction|contradiction].
  destruct (pre_flight_cases h) as [E|[m E]]; rewrite E;
    [|cbn [snd]; intros H; step_in].
  destruct (check_and_exit_if_already_running (host_os h) p st0)
    as [[[]|c|ex] st] eqn:Hcheck; cbn [snd map app];
    [|contradiction|contradiction].
  destruct (check_returned _ _ _ _ Hcheck) as [Hpf Hmarker].
  destruct (bind_error h p) as [berr|];
    [|destruct (serve_forever h) as [|serr|serr]];
    cbn [fst snd app]; intros Hin;
    (assert (port = p) as -> by (step_in; reflexivity));
    rewrite Hcheck; cbn [fst];
    repeat split; try assumption; eauto.
Qed.

Lemma binds_only_after_all_checks_witness :
  In (Bind 45678)
     (snd (main host_workstation [lit "github_listener.py"] no_marker))
  /\ files (snd (fst (main host_workstation [lit "github_listener.py"]
                           no_marker)))
       !! PID_FILE_TEMPLATE 45678
     = Some (Content (str_of_Z (getpid (host_os host_workstation)))).
Proof.
  assert (H : In (Bind 45678)
                 (snd (main host_workstation [lit "github_listener.py"]
                            no_marker)))
    by (vm_compute; do 2 right; left; reflexivity).
  split; [exact H|].
  exact (proj1 (proj2 (proj2 (proj2 (proj2
           (binds_only_after_all_checks host_workstation
              [lit "github_listener.py"] no_marker 45678 H)))))).
Defined.



End StartupClaims.

(** * The OPTIONS handler *)

Section Options.

Lemma filter_none {A : Type} (f : A -> bool) (l : list A) :
  (forall x, In x l -> f x = false) -> List.filter f l = [].
Proof.
  induction l as [|a l IH]; intros H; [reflexivity|].
  cbn [List.filter]. rewrite (H a) by (left; reflexivity).
  apply IH. intros x Hx. apply H. right. exact Hx.
Qed.

(** [do_OPTIONS] in direct style. *)
Lemma do_OPTIONS_log (st : state) :
  do_OPTIONS st
  = (inr tt,
     log [SendResponse 204;
          SendHeader (lit "Access-Control-Allow-Origin") (lit "*");
          SendHeader (lit "Access-Control-Allow-Methods") (lit "POST, OPTIONS");
          SendHeader (lit "Access-Control-Allow-Headers")
                     (lit "Content-Type, X-Requested-With");
          SendHeader (lit "Access-Control-Max-Age") (lit "86400");
          EndHeaders;
          Print Stderr (lit "Handled OPTIONS request.")] st).
Proof.
  unfold do_OPTIONS, send_cors_headers, bind, emit, log.
  cbn [response_status_code response_body_str clone_target_dir dirs trace].
  rewrite <- !app_assoc. reflexivity.
Qed.

(** Nothing the handler does before [finally], and no clean-up, sends a
    header. *)
Lemma before_finally_no_header (e : env) (req : request) (ds : gset text) :
  List.filter is_cors_header
    (trace (before_finally e req ds) ++ cleanup_events (before_finally e req ds))
  = [].
Proof.
  apply filter_none. intros ev Hin. apply in_app_or in Hin as [Hin|Hin].
  - apply before_finally_events in Hin
      as [Hin|[->|[->|(name & _ & ->)]]]; try reflexivity.
    destruct ev; try discriminate Hin; reflexivity.
  - unfold cleanup_events in Hin.
    destruct (cleanup_needed _); [|contradiction].
    destruct Hin as [<-|[]]. reflexivity.
Qed.

(** X25: the answer to OPTIONS is a 204 without a body that leaves the
    handler's variables and the disk alone, and it carries the same
    cross-origin headers, in the same order, as the answer to any POST,
    whatever that request is and however it ends. *)
Theorem options_and_post_share_cors_headers (e : env) (req : request)
    (ds : gset text) (st : state) :
  fst (do_OPTIONS st) = inr tt
  /\ dirs (snd (do_OPTIONS st)) = dirs st
  /\ exists evs,
      trace (snd (do_OPTIONS st)) = trace st ++ evs
      /\ hd_error evs = Some (SendResponse 204)
      /\ (forall body, ~ In (Write body) evs)
      /\ List.filter is_cors_header evs
         = List.filter is_cors_header (trace (handle e req ds)).
Proof.
  rewrite do_OPTIONS_log. cbn [fst snd log dirs trace].
  split; [reflexivity|split; [reflexivity|]].
  eexists. split; [reflexivity|split; [reflexivity|split]].
  - intros body H. cbn [In] in H.
    decompose [or] H; try discriminate; assumption.
  - rewrite handle_eq. unfold after_finally.
    destruct (utf8_encode _) as [bs|]; cbn [snd mk_state trace];
      rewrite List.filter_app, before_finally_no_header;
      [rewrite List.filter_app|]; reflexivity.
Qed.

End Options.
